(** * password_cracking_curve.py: the status parser and the application

    A shallow embedding of [HashcatStatusParser.parse_status_file] and of
    [PasswordCrackingApp]: its parsers, the figure it draws with the
    downsampling step, the callback of the [Update] button and the check of
    the files in [main]; with the Python values they handle (the values
    [json.loads] can return), the exceptions they can raise and the
    arithmetic they use.

    - The file is given as what the file system holds at its path: nothing,
      a text that is read to its end as a list of lines, or a file whose
      opening or reading raises.  [json.loads] is a parameter of the parser:
      it returns a value, raises [JSONDecodeError], or raises another
      exception.
    - Code that can raise returns a [result]: the loop catches
      [JSONDecodeError] alone, so any other exception ends the parse.
    - An [int] is a [Z]; a [float] is a binary64 float, and the division of
      two ints is the correctly rounded quotient, as in Python. *)

From Stdlib Require Import ZArith NArith List Bool String Ascii Lia.
From Stdlib Require Import DecimalString PrimFloat SpecFloat FloatOps Sorted.
Import ListNotations.
Open Scope Z_scope.
Set Warnings "-register-all".

(** ** Python strings *)

(** A Python [str] is a sequence of Unicode code points. *)
Definition pystr := list N.

(** A string literal of the source, read character by character. *)
Definition lit (s : string) : pystr :=
  map N_of_ascii (list_ascii_of_string s).

Fixpoint pystr_eqb (s t : pystr) : bool :=
  match s, t with
  | [], [] => true
  | a :: s', b :: t' => N.eqb a b && pystr_eqb s' t'
  | _, _ => false
  end.

(** [c.isspace()] for one code point, the test [str.strip()] applies. *)
Definition isspace (c : N) : bool :=
  ((9 <=? c) && (c <=? 13) || (28 <=? c) && (c <=? 32)
   || (c =? 133) || (c =? 160) || (c =? 5760)
   || (8192 <=? c) && (c <=? 8202)
   || (c =? 8232) || (c =? 8233) || (c =? 8239) || (c =? 8287)
   || (c =? 12288))%N.

Fixpoint lstrip (s : pystr) : pystr :=
  match s with
  | [] => []
  | c :: s' => if isspace c then lstrip s' else s
  end.

Definition rstrip (s : pystr) : pystr := rev (lstrip (rev s)).

(** [s.strip()] *)
Definition strip (s : pystr) : pystr := rstrip (lstrip s).

(** [s.startswith(p)] *)
Fixpoint startswith (s p : pystr) : bool :=
  match p, s with
  | [], _ => true
  | a :: p', b :: s' => N.eqb a b && startswith s' p'
  | _ :: _, [] => false
  end.

(** [s.replace(old, new)] for a non-empty [old]: the occurrences of [old] are
    replaced from the left, without overlap.  [skip] counts the characters of
    a matched occurrence that are still to be dropped. *)
Fixpoint replace_from (skip : nat) (old new s : pystr) : pystr :=
  match s with
  | [] => []
  | c :: s' =>
      match skip with
      | S k => replace_from k old new s'
      | O =>
          if startswith s old
          then new ++ replace_from (Nat.pred (List.length old)) old new s'
          else c :: replace_from O old new s'
      end
  end.

Definition replace (s old new : pystr) : pystr := replace_from O old new s.

(** ** Exceptions and results *)

(** [ValueError] stands for a [ValueError] that is no [JSONDecodeError]: the
    subclass has a place of its own, in [decoding] below. *)
Inductive exn : Type :=
| AttributeError
| IndexError
| KeyError
| TypeError
| OverflowError
| ZeroDivisionError
| ValueError
| RecursionError
| UnicodeDecodeError
| OSError.

(** What a piece of Python code does: it returns a value or raises. *)
Inductive result (A : Type) : Type :=
| Ok (a : A)
| Raise (e : exn).
Arguments Ok {A} a.
Arguments Raise {A} e.

Definition bind {A B : Type} (r : result A) (k : A -> result B) : result B :=
  match r with
  | Ok a => k a
  | Raise e => Raise e
  end.

Notation "x <- r ;; k" := (bind r (fun x => k))
  (at level 61, r at next level, right associativity).

(** ** Python values *)

(** The values [json.loads] returns: [None], [bool], [int], [float], [str],
    [list] and [dict] with [str] keys.  A [dict] is kept as the list of its
    items, with distinct keys. *)
Inductive pyval : Type :=
| PNone
| PBool (b : bool)
| PInt (z : Z)
| PFloat (f : float)
| PStr (s : pystr)
| PList (l : list pyval)
| PDict (d : list (pystr * pyval)).

(** A [str] literal of the source. *)
Definition str (s : string) : pyval := PStr (lit s).

Fixpoint dict_lookup (k : pystr) (d : list (pystr * pyval)) : option pyval :=
  match d with
  | [] => None
  | (k', v) :: d' => if pystr_eqb k k' then Some v else dict_lookup k d'
  end.

(** [obj.get(k, default)]: only a [dict] has the method. *)
Definition py_get (obj : pyval) (k : string) (default : pyval) : result pyval :=
  match obj with
  | PDict d =>
      match dict_lookup (lit k) d with
      | Some v => Ok v
      | None => Ok default
      end
  | _ => Raise AttributeError
  end.

(** [obj[i]] for a literal index [i >= 0]. *)
Definition py_getitem (obj : pyval) (i : nat) : result pyval :=
  match obj with
  | PList l =>
      match nth_error l i with
      | Some v => Ok v
      | None => Raise IndexError
      end
  | PStr s =>
      match nth_error s i with
      | Some c => Ok (PStr [c])
      | None => Raise IndexError
      end
  | PDict _ => Raise KeyError          (* the keys are strings, [i] is an int *)
  | _ => Raise TypeError               (* not subscriptable *)
  end.

(** [l[-1]] on a list. *)
Definition py_last {A : Type} (l : list A) : result A :=
  match rev l with
  | a :: _ => Ok a
  | [] => Raise IndexError
  end.

(** ** Numbers *)

(** A Python number as arithmetic sees it; [bool] is a subclass of [int]. *)
Inductive num : Type :=
| NInt (z : Z)
| NFloat (f : float).

Definition as_num (v : pyval) : option num :=
  match v with
  | PBool b => Some (NInt (Z.b2z b))
  | PInt z => Some (NInt z)
  | PFloat f => Some (NFloat f)
  | _ => None
  end.

(** The binary64 float nearest to [m * 2^e] (ties to even); [neg] is the sign
    of a zero result. *)
Definition round64 (m e : Z) (neg : bool) : float :=
  SF2Prim (binary_normalize 53 1024 m e neg).

(** The least magnitude that rounds beyond the largest float: half an ulp
    above [2^1024 - 2^971]. *)
Definition float_limit : Z := 2 ^ 1024 - 2 ^ 970.

(** [float(z)]: the nearest float, [OverflowError] when it is out of range. *)
Definition float_of_int (z : Z) : result float :=
  if float_limit <=? Z.abs z then Raise OverflowError
  else Ok (round64 z 0 false).

Definition to_float (n : num) : result float :=
  match n with
  | NInt z => float_of_int z
  | NFloat f => Ok f
  end.

(** [a / b] on two ints: the correctly rounded quotient, [OverflowError]
    when it is out of range.  The quotient is taken with more than 64
    significant bits and a sticky last bit, which rounds as the exact
    quotient does. *)
Definition int_true_divide (a b : Z) : result float :=
  if b =? 0 then Raise ZeroDivisionError
  else if float_limit * Z.abs b <=? Z.abs a then Raise OverflowError
  else
    let neg := xorb (a <? 0) (b <? 0) in
    let k := Z.max 0 (Z.log2 (Z.abs b) + 64 - Z.log2 (Z.abs a)) in
    let n := Z.abs a * 2 ^ k in
    let q := n / Z.abs b in
    let sticky := if n mod Z.abs b =? 0 then 0 else 1 in
    let m := 2 * q + sticky in
    Ok (round64 (if neg then - m else m) (- k - 1) neg).

(** [a + b] *)
Definition py_add (a b : pyval) : result pyval :=
  match as_num a, as_num b with
  | Some (NInt x), Some (NInt y) => Ok (PInt (x + y))
  | Some x, Some y =>
      f <- to_float x ;; g <- to_float y ;; Ok (PFloat (f + g)%float)
  | _, _ =>
      match a, b with
      | PStr s, PStr t => Ok (PStr (s ++ t))
      | PList l, PList m => Ok (PList (l ++ m))
      | _, _ => Raise TypeError
      end
  end.

(** [a / b] *)
Definition py_truediv (a b : pyval) : result pyval :=
  match as_num a, as_num b with
  | Some (NInt x), Some (NInt y) => f <- int_true_divide x y ;; Ok (PFloat f)
  | Some x, Some y =>
      f <- to_float x ;; g <- to_float y ;;
      if (g =? 0)%float then Raise ZeroDivisionError
      else Ok (PFloat (f / g)%float)
  | _, _ => Raise TypeError
  end.

(** [a * b] on numbers (the left operand is a float wherever the parser
    multiplies, so the repetition of sequences is left out). *)
Definition py_mul (a b : pyval) : result pyval :=
  match as_num a, as_num b with
  | Some (NInt x), Some (NInt y) => Ok (PInt (x * y))
  | Some x, Some y =>
      f <- to_float x ;; g <- to_float y ;; Ok (PFloat (f * g)%float)
  | _, _ => Raise TypeError
  end.

(** [v > 0] *)
Definition py_gt0 (v : pyval) : result bool :=
  match as_num v with
  | Some (NInt z) => Ok (0 <? z)
  | Some (NFloat f) => Ok (0 <? f)%float
  | None => Raise TypeError
  end.

(** [a == b] on two numbers; a float and an int are compared exactly. *)
Definition float_eq_int (f : float) (z : Z) : bool :=
  match Prim2SF f with
  | S754_zero _ => z =? 0
  | S754_finite s m e =>
      let v := if s then Z.neg m else Z.pos m in
      if 0 <=? e then z =? v * 2 ^ e
      else (v mod 2 ^ (- e) =? 0) && (z =? v / 2 ^ (- e))
  | S754_infinity _ | S754_nan => false
  end.

Definition num_eq (a b : num) : bool :=
  match a, b with
  | NInt x, NInt y => x =? y
  | NFloat f, NFloat g => (f =? g)%float
  | NFloat f, NInt z | NInt z, NFloat f => float_eq_int f z
  end.

(** [a == b] as the comparison of two tuples, lists or dicts takes it for
    their elements, and as [in] takes it: the same object, or [==].  Every
    NaN that [json.loads] returns is the one object [json.decoder.NaN], so
    it is taken as equal to itself, though [NaN == NaN] is false; every
    other value of two lines is compared with [==]. *)
Fixpoint py_eq (a b : pyval) {struct a} : bool :=
  match a, b with
  | PNone, PNone => true
  | PFloat f, PFloat g => (f =? g)%float || (is_nan f && is_nan g)
  | PStr s, PStr t => pystr_eqb s t
  | PList l, PList m =>
      (fix all2 (l m : list pyval) : bool :=
         match l, m with
         | [], [] => true
         | x :: l', y :: m' => py_eq x y && all2 l' m'
         | _, _ => false
         end) l m
  | PDict d, PDict e =>
      Nat.eqb (List.length d) (List.length e)
      && (fix items (d : list (pystr * pyval)) : bool :=
            match d with
            | [] => true
            | (k, v) :: d' =>
                match dict_lookup k e with
                | Some w => py_eq v w
                | None => false
                end && items d'
            end) d
  | _, _ =>
      match as_num a, as_num b with
      | Some x, Some y => num_eq x y
      | _, _ => false
      end
  end.

(** The decimal digits of an int, as [str] prints them. *)
Definition str_of_int (z : Z) : pystr :=
  lit (NilZero.string_of_int (Z.to_int z)).

(** ** HashcatStatusParser *)

(** The attributes of a parser object that [parse_status_file] reads. *)
Record HashcatStatusParser : Type := {
  x_axis_type : pystr;
  y_axis_type : pystr;
  status_timer : pyval
}.

(** A key is the tuple [(f"{time_start}/{guess_base}", guess_mod)]. *)
Definition key : Type := (pystr * pyval)%type.

(** [k1 == k2] on two such tuples. *)
Definition key_eq (k1 k2 : key) : bool :=
  pystr_eqb (fst k1) (fst k2) && py_eq (snd k1) (snd k2).

(** The local variables of [parse_status_file].  [current_identifier] is
    [None] while the variable still holds the empty string it starts with. *)
Record state : Type := {
  curves_x : list (list pyval);
  curves_y : list (list pyval);
  label_list : list key;
  guesses : pyval;
  current_identifier : option key;
  elapsed_seconds : pyval
}.

Definition init : state :=
  {| curves_x := []; curves_y := []; label_list := [];
     guesses := PInt 0; current_identifier := None;
     elapsed_seconds := PInt 0 |}.

(** [key != current_identifier]: a tuple is never equal to a string. *)
Definition key_differs (k : key) (cur : option key) : bool :=
  match cur with
  | None => true
  | Some c => negb (key_eq k c)
  end.

(** [curves[-1].append(v)] *)
Definition append_to_last (curves : list (list pyval)) (v : pyval)
  : result (list (list pyval)) :=
  match rev curves with
  | c :: before => Ok (rev before ++ [c ++ [v]])
  | [] => Raise IndexError
  end.

(** [[curves[-1][-1], v]] *)
Definition stitched (curves : list (list pyval)) (v : pyval)
  : result (list pyval) :=
  c <- py_last curves ;; p <- py_last c ;; Ok [p; v].

(** Lines 80-94: the new point goes to a new curve or to the current one. *)
Definition place_point (k : key) (x_value y_value : pyval) (st : state)
  : result state :=
  if key_differs k (current_identifier st) then
    match current_identifier st with
    | Some _ =>
        cx <- stitched (curves_x st) x_value ;;
        cy <- stitched (curves_y st) y_value ;;
        Ok {| curves_x := curves_x st ++ [cx];
              curves_y := curves_y st ++ [cy];
              label_list := label_list st ++ [k];
              guesses := guesses st;
              current_identifier := Some k;
              elapsed_seconds := elapsed_seconds st |}
    | None =>
        Ok {| curves_x := curves_x st ++ [[PInt 0; x_value]];
              curves_y := curves_y st ++ [[PInt 0; y_value]];
              label_list := label_list st ++ [k];
              guesses := guesses st;
              current_identifier := Some k;
              elapsed_seconds := elapsed_seconds st |}
    end
  else
    cxs <- append_to_last (curves_x st) x_value ;;
    cys <- append_to_last (curves_y st) y_value ;;
    Ok {| curves_x := cxs;
          curves_y := cys;
          label_list := label_list st;
          guesses := guesses st;
          current_identifier := current_identifier st;
          elapsed_seconds := elapsed_seconds st |}.

(** What [json.loads] does with a text: it returns the decoded value, it
    raises [json.JSONDecodeError], or it raises another exception:
    [ValueError] for an int of more than 4300 digits, [RecursionError] for
    brackets nested too deep. *)
Inductive decoding : Type :=
| Decoded (data : pyval)
| JSONDecodeError
| OtherError (e : exn).

(** What the file system holds at [self.filename]. *)
Inductive text_file : Type :=
| Missing
  (** [path.exists()] is false. *)
| Unreadable (e : exn)
  (** The path exists and [open] raises: a directory, a file that may not be
      read. *)
| Broken (lines : list pystr) (e : exn)
  (** The file opens, the loop gets these lines, and the next read raises:
      bytes that are not UTF-8. *)
| Text (lines : list pystr).
  (** The file opens and the loop gets these lines, to the end. *)

Section Parser.

Variable json_loads : pystr -> decoding.

(** How an f-string prints a float, a list or a dict; on lists or dicts
    nested deep it raises [RecursionError]. *)
Variable py_repr : pyval -> result pystr.

Variable self : HashcatStatusParser.

(** [f"{v}"] *)
Definition py_str (v : pyval) : result pystr :=
  match v with
  | PStr s => Ok s
  | PInt z => Ok (str_of_int z)
  | PBool true => Ok (lit "True")
  | PBool false => Ok (lit "False")
  | PNone => Ok (lit "None")
  | PFloat _ | PList _ | PDict _ => py_repr v
  end.

(** [guess_base.replace("autocat_new_cracked_potfile", "potfile")];
    only a [str] has the method. *)
Definition normalize_base (guess_base : pyval) : result pystr :=
  match guess_base with
  | PStr s =>
      Ok (replace s (lit "autocat_new_cracked_potfile") (lit "potfile"))
  | _ => Raise AttributeError
  end.

(** Lines 72-77: the key of a decoded record. *)
Definition record_key (data : pyval) : result key :=
  guess <- py_get data "guess" (PDict []) ;;
  guess_base <- py_get guess "guess_base" (PStr (lit "unknown")) ;;
  guess_base <- normalize_base guess_base ;;
  guess <- py_get data "guess" (PDict []) ;;
  guess_mod <- py_get guess "guess_mod" PNone ;;
  time_start <- py_get data "time_start" (PStr (lit "unknown")) ;;
  printed <- py_str time_start ;;
  Ok (printed ++ lit "/" ++ guess_base, guess_mod).

(** Lines 55-57: [(cracked, total)]. *)
Definition recovered_pair (data : pyval) : result (pyval * pyval) :=
  recovered <- py_get data "recovered_hashes" (PList [PInt 0; PInt 0]) ;;
  cracked <- py_getitem recovered 0 ;;
  r1 <- py_getitem recovered 1 ;;
  positive <- py_gt0 r1 ;;
  total <- (if positive : bool then py_getitem recovered 1 else Ok (PInt 1)) ;;
  Ok (cracked, total).

(** Lines 66-69 *)
Definition y_value_of (cracked total : pyval) : result pyval :=
  if pystr_eqb (y_axis_type self) (lit "count") then Ok cracked
  else q <- py_truediv cracked total ;; py_mul q (PInt 100).

(** Lines 52-69: the running total of guesses and the new point
    [(guesses, x_value, y_value)]. *)
Definition record_point (data : pyval) (st : state)
  : result (pyval * pyval * pyval) :=
  p <- py_get data "progress" (PList [PInt 0]) ;;
  progress <- py_getitem p 0 ;;
  guesses' <- py_add (guesses st) progress ;;
  ct <- recovered_pair data ;;
  let x_value :=
    if pystr_eqb (x_axis_type self) (lit "time") then elapsed_seconds st
    else guesses' in
  y_value <- y_value_of (fst ct) (snd ct) ;;
  Ok (guesses', x_value, y_value).

Definition set_guesses (g : pyval) (st : state) : state :=
  {| curves_x := curves_x st; curves_y := curves_y st;
     label_list := label_list st; guesses := g;
     current_identifier := current_identifier st;
     elapsed_seconds := elapsed_seconds st |}.

Definition set_elapsed_seconds (e : pyval) (st : state) : state :=
  {| curves_x := curves_x st; curves_y := curves_y st;
     label_list := label_list st; guesses := guesses st;
     current_identifier := current_identifier st;
     elapsed_seconds := e |}.

(** Lines 52-97: the body of the [try], after [json.loads]. *)
Definition process_record (data : pyval) (st : state) : result state :=
  gxy <- record_point data st ;;
  let '(guesses', x_value, y_value) := gxy in
  k <- record_key data ;;
  st' <- place_point k x_value y_value (set_guesses guesses' st) ;;
  elapsed' <- py_add (elapsed_seconds st') (status_timer self) ;;
  Ok (set_elapsed_seconds elapsed' st').

(** Lines 44-100: one turn of the loop.  Only [JSONDecodeError] is caught,
    and only [json.loads] raises it; any other exception leaves the
    function, one that [json.loads] raises included. *)
Definition process_line (line : pystr) (st : state) : result state :=
  let line := strip line in
  if negb (startswith line (lit "{")) then Ok st
  else
    match json_loads line with
    | Decoded data => process_record data st
    | JSONDecodeError => Ok st
    | OtherError e => Raise e
    end.

(** Lines 43-100: the loop over the lines of the file. *)
Fixpoint run_lines (lines : list pystr) (st : state) : result state :=
  match lines with
  | [] => Ok st
  | line :: rest => st' <- process_line line st ;; run_lines rest st'
  end.

Definition curves : Type :=
  (list (list pyval) * list (list pyval) * list key)%type.

Definition returned (st : state) : curves :=
  (curves_x st, curves_y st, label_list st).

(** [parse_status_file], on what the file system holds at the path. *)
Definition parse_status_file (file : text_file) : result curves :=
  match file with
  | Missing => Ok ([], [], [])
  | Unreadable e => Raise e
  | Broken lines e => st <- run_lines lines init ;; Raise e
  | Text lines => st <- run_lines lines init ;; Ok (returned st)
  end.

(** The record a line holds: none when the stripped line does not begin
    with a brace or [json.loads] does not return. *)
Definition decoded (line : pystr) : option pyval :=
  if startswith (strip line) (lit "{") then
    match json_loads (strip line) with
    | Decoded data => Some data
    | _ => None
    end
  else None.

(** A line the loop passes over: the stripped line does not begin with a
    brace (line 46), or [json.loads] raises [JSONDecodeError] (line 99). *)
Definition skipped (line : pystr) : bool :=
  negb (startswith (strip line) (lit "{"))
  || match json_loads (strip line) with
     | JSONDecodeError => true
     | _ => false
     end.

(** A line that ends the parse before any of its fields is read:
    [json.loads] raises an exception that line 99 does not catch. *)
Definition aborting (line : pystr) : option exn :=
  if startswith (strip line) (lit "{") then
    match json_loads (strip line) with
    | OtherError e => Some e
    | _ => None
    end
  else None.

(** [augmented] is [original] with lines that the loop passes over
    inserted. *)
Inductive inserted : list pystr -> list pystr -> Prop :=
| inserted_nil : inserted [] []
| inserted_keep (line : pystr) (original augmented : list pystr) :
    inserted original augmented ->
    inserted (line :: original) (line :: augmented)
| inserted_skip (junk : pystr) (original augmented : list pystr) :
    skipped junk = true ->
    inserted original augmented ->
    inserted original (junk :: augmented).

(** The records of a file, in the order of their lines. *)
Fixpoint records (lines : list pystr) : list pyval :=
  match lines with
  | [] => []
  | line :: rest =>
      match decoded line with
      | Some data => data :: records rest
      | None => records rest
      end
  end.

(** The loop, seen on the records alone. *)
Fixpoint run_records (rs : list pyval) (st : state) : result state :=
  match rs with
  | [] => Ok st
  | data :: rest =>
      st' <- process_record data st ;; run_records rest st'
  end.

End Parser.

(** ** Downsampling in [_create_figure] *)

(** [l[skip::step]] for [step >= 1]. *)
Fixpoint slice_from {A : Type} (skip step : nat) (l : list A) : list A :=
  match l with
  | [] => []
  | a :: l' =>
      match skip with
      | O => a :: slice_from (Nat.pred step) step l'
      | S k => slice_from k step l'
      end
  end.

(** [l[::step]] *)
Definition slice_step {A : Type} (step : nat) (l : list A) : list A :=
  slice_from O step l.

(** Lines 253-264, for the [k]-th curve: the pair that replaces
    [(curves_x[k], curves_y[k])]. *)
Definition downsample (xs ys : list pyval)
  : result (list pyval * list pyval) :=
  if (1000 <? List.length xs)%nat then
    let sample_rate := 60%nat in
    let curves_x_sampled := slice_step sample_rate xs in
    let curves_y_sampled := slice_step sample_rate ys in
    if negb (((List.length xs - 1) mod sample_rate =? 0)%nat) then
      lx <- py_last xs ;;
      ly <- py_last ys ;;
      Ok (curves_x_sampled ++ [lx], curves_y_sampled ++ [ly])
    else Ok (curves_x_sampled, curves_y_sampled)
  else Ok (xs, ys).

(** ** The vocabulary of the properties *)

(** The three ways lines 80-94 can end. *)
Inductive placed (k : key) (x y : pyval) (st st' : state) : Prop :=
| placed_first :
    current_identifier st = None ->
    curves_x st' = curves_x st ++ [[PInt 0; x]] ->
    curves_y st' = curves_y st ++ [[PInt 0; y]] ->
    label_list st' = label_list st ++ [k] ->
    current_identifier st' = Some k ->
    placed k x y st st'
| placed_new (cur : key) (bx by_ : list (list pyval))
    (cx cy : list pyval) (px py : pyval) :
    current_identifier st = Some cur ->
    key_eq k cur = false ->
    curves_x st = bx ++ [cx ++ [px]] ->
    curves_y st = by_ ++ [cy ++ [py]] ->
    curves_x st' = curves_x st ++ [[px; x]] ->
    curves_y st' = curves_y st ++ [[py; y]] ->
    label_list st' = label_list st ++ [k] ->
    current_identifier st' = Some k ->
    placed k x y st st'
| placed_same (cur : key) (bx by_ : list (list pyval)) (cx cy : list pyval) :
    current_identifier st = Some cur ->
    key_eq k cur = true ->
    curves_x st = bx ++ [cx] ->
    curves_y st = by_ ++ [cy] ->
    curves_x st' = bx ++ [cx ++ [x]] ->
    curves_y st' = by_ ++ [cy ++ [y]] ->
    label_list st' = label_list st ->
    current_identifier st' = Some cur ->
    placed k x y st st'.

(** Consecutive curves share their boundary point. *)
Definition stitched_at (cs : list (list pyval)) : Prop :=
  forall k ck ck1,
    nth_error cs k = Some ck -> nth_error cs (S k) = Some ck1 ->
    exists p, py_last ck = Ok p /\ hd_error ck1 = Some p.

(** What every prefix of the loop has established. *)
Record well_formed (st : state) : Prop := {
  wf_empty : current_identifier st = None ->
             curves_x st = [] /\ curves_y st = [];
  wf_labels : List.length (curves_x st) = List.length (label_list st);
  wf_points : map (@List.length pyval) (curves_x st)
              = map (@List.length pyval) (curves_y st);
  wf_two : Forall (fun c => (2 <= List.length c)%nat) (curves_x st);
  wf_stitched_x : stitched_at (curves_x st);
  wf_stitched_y : stitched_at (curves_y st);
  wf_current : current_identifier st <> None -> curves_x st <> []
}.

(** A processed record adds an element to all three sequences or to none. *)
Definition grows_together (st st' : state) : Prop :=
  (List.length (curves_x st') = S (List.length (curves_x st))
   /\ List.length (curves_y st') = S (List.length (curves_y st))
   /\ List.length (label_list st') = S (List.length (label_list st)))
  \/ (List.length (curves_x st') = List.length (curves_x st)
      /\ List.length (curves_y st') = List.length (curves_y st)
      /\ List.length (label_list st') = List.length (label_list st)).

(** The change of phase as the specification words it: the previous curve
    gets one more point, the new [(x, y)], and the new curve begins at
    [(x, y)]. *)
Definition closes_previous_curve (x y : pyval) (st st' : state) : Prop :=
  exists bx previous_x by_ previous_y rest_x rest_y,
    curves_x st = bx ++ [previous_x]
    /\ curves_y st = by_ ++ [previous_y]
    /\ curves_x st' = bx ++ [previous_x ++ [x]; x :: rest_x]
    /\ curves_y st' = by_ ++ [previous_y ++ [y]; y :: rest_y].

(** The specification's phase identifier: the pair of [time_start] and the
    normalized [guess_base]. *)
Definition spec_phase_identifier (data : pyval) : result (pyval * pystr) :=
  time_start <- py_get data "time_start" (str "unknown") ;;
  guess <- py_get data "guess" (PDict []) ;;
  guess_base <- py_get guess "guess_base" (str "unknown") ;;
  guess_base <- normalize_base guess_base ;;
  Ok (time_start, guess_base).

(** The keys of a list of records. *)
Fixpoint record_keys (py_repr : pyval -> result pystr) (rs : list pyval)
  : result (list key) :=
  match rs with
  | [] => Ok []
  | data :: rest =>
      k <- record_key py_repr data ;;
      ks <- record_keys py_repr rest ;;
      Ok (k :: ks)
  end.

(** The number of maximal runs of equal neighbours in a list of keys. *)
Fixpoint count_runs (ks : list key) : nat :=
  match ks with
  | [] => O
  | k :: rest =>
      match rest with
      | [] => 1%nat
      | k' :: _ => if key_eq k' k then count_runs rest else S (count_runs rest)
      end
  end.

(** A key whose [guess_mod] is a string or [None], as hashcat prints it. *)
Definition plain_key (k : key) : bool :=
  match snd k with
  | PStr _ | PNone => true
  | _ => false
  end.

(** The curves that the keys [ks] open when [cur] is the current key. *)
Fixpoint opened (cur : option key) (ks : list key) : nat :=
  match ks with
  | [] => O
  | k :: rest =>
      if key_differs k cur then S (opened (Some k) rest) else opened cur rest
  end.

(** Code that does not raise [ZeroDivisionError]. *)
Definition no_zero_division {A : Type} (r : result A) : Prop :=
  r <> Raise ZeroDivisionError.

(** The shapes hashcat prints; a field may be absent. *)
Definition shaped_progress (d : list (pystr * pyval)) : bool :=
  match dict_lookup (lit "progress") d with
  | None => true
  | Some (PList (PInt _ :: _)) => true
  | Some _ => false
  end.

Definition shaped_recovered (d : list (pystr * pyval)) : bool :=
  match dict_lookup (lit "recovered_hashes") d with
  | None => true
  | Some (PList (PInt c :: PInt _ :: _)) => Z.abs c <? float_limit
  | Some _ => false
  end.

Definition shaped_guess (d : list (pystr * pyval)) : bool :=
  match dict_lookup (lit "guess") d with
  | None => true
  | Some (PDict g) =>
      match dict_lookup (lit "guess_base") g with
      | None => true
      | Some (PStr _) => true
      | Some _ => false
      end
  | Some _ => false
  end.

Definition shaped_time_start (d : list (pystr * pyval)) : bool :=
  match dict_lookup (lit "time_start") d with
  | Some (PFloat _) | Some (PList _) | Some (PDict _) => false
  | _ => true
  end.

Definition shaped (data : pyval) : bool :=
  match data with
  | PDict d =>
      shaped_progress d && shaped_recovered d && shaped_guess d
      && shaped_time_start d
  | _ => false
  end.

(** The lines the loop gets. *)
Definition file_lines (file : text_file) : list pystr :=
  match file with
  | Text lines | Broken lines _ => lines
  | Missing | Unreadable _ => []
  end.

(** No path, or a file that opens and is read to its end. *)
Definition readable (file : text_file) : bool :=
  match file with
  | Missing | Text _ => true
  | Unreadable _ | Broken _ _ => false
  end.

(** A state whose counters are ints. *)
Definition steady (st : state) : Prop :=
  well_formed st
  /\ (exists g, guesses st = PInt g)
  /\ (exists e, elapsed_seconds st = PInt e).

(** ** Sample input *)

(** The text of a line, written with ['] where the line has a double quote. *)
Definition json_text (s : string) : pystr :=
  map (fun c => if N.eqb c 39 then 34%N else c) (lit s).

(** A status record as hashcat prints it, cut down to the fields read. *)
Definition status_record (time_start : Z) (guess_base : string)
    (guess_mod : pyval) (progress recovered total : Z) : pyval :=
  PDict [(lit "guess", PDict [(lit "guess_base", str guess_base);
                              (lit "guess_mod", guess_mod)]);
         (lit "progress", PList [PInt progress; PInt 1000]);
         (lit "recovered_hashes", PList [PInt recovered; PInt total]);
         (lit "time_start", PInt time_start)].

(** The record of scenario B and its line. *)
Definition record_B : pyval :=
  PDict [(lit "guess", PDict [(lit "guess_base", str "dict1")]);
         (lit "progress", PList [PInt 10]);
         (lit "recovered_hashes", PList [PInt 2; PInt 100])].

Definition line_B : pystr :=
  json_text "{'guess': {'guess_base': 'dict1'}, 'progress': [10], 'recovered_hashes': [2, 100]}".

(** A wordlist attack with two rule files, then the potfile replay. *)
Definition record_best64 : pyval :=
  status_record 1700000000 "rockyou.txt" (str "rules/best64.rule") 10 2 100.

Definition line_best64 : pystr :=
  json_text "{'guess': {'guess_base': 'rockyou.txt', 'guess_mod': 'rules/best64.rule'}, 'progress': [10, 1000], 'recovered_hashes': [2, 100], 'time_start': 1700000000}".

Definition record_dive : pyval :=
  status_record 1700000000 "rockyou.txt" (str "rules/dive.rule") 10 4 100.

Definition line_dive : pystr :=
  json_text "{'guess': {'guess_base': 'rockyou.txt', 'guess_mod': 'rules/dive.rule'}, 'progress': [10, 1000], 'recovered_hashes': [4, 100], 'time_start': 1700000000}".

Definition record_potfile : pyval :=
  status_record 1700000060 "autocat_new_cracked_potfile" PNone 10 6 100.

Definition line_potfile : pystr :=
  json_text "{'guess': {'guess_base': 'autocat_new_cracked_potfile', 'guess_mod': null}, 'progress': [10, 1000], 'recovered_hashes': [6, 100], 'time_start': 1700000060}".

(** A [guess_mod] that is no number. *)
Definition record_nan : pyval :=
  PDict [(lit "guess", PDict [(lit "guess_base", str "dict1");
                              (lit "guess_mod", PFloat nan)]);
         (lit "progress", PList [PInt 10])].

Definition line_nan : pystr :=
  json_text "{'guess': {'guess_base': 'dict1', 'guess_mod': NaN}, 'progress': [10]}".

(** Objects without the shapes hashcat prints. *)
Definition record_empty_progress : pyval :=
  PDict [(lit "progress", PList [])].

Definition line_empty_progress : pystr := json_text "{'progress': []}".

Definition record_short_recovered : pyval :=
  PDict [(lit "recovered_hashes", PList [PInt 7])].

Definition line_short_recovered : pystr :=
  json_text "{'recovered_hashes': [7]}".

(** Totals that are not positive. *)
Definition record_5_0 : pyval :=
  PDict [(lit "recovered_hashes", PList [PInt 5; PInt 0])].

Definition line_5_0 : pystr := json_text "{'recovered_hashes': [5, 0]}".

Definition record_large : pyval :=
  PDict [(lit "recovered_hashes", PList [PInt 9007199254740993; PInt 0])].

Definition line_large : pystr :=
  json_text "{'recovered_hashes': [9007199254740993, 0]}".

(** Lines that hold no record: plain text, blanks, single quotes, and a
    record cut short by a write in progress. *)
Definition line_banner : pystr := lit "Session..........: hashcat".

Definition line_blank : pystr := lit "   ".

Definition line_single_quotes : pystr := lit "{'not': 'json'}".

Definition line_partial : pystr :=
  json_text "{'guess': {'guess_base': 'rocky".

(** What [json.loads] returns on the lines above; on every other line used
    in the examples it raises [JSONDecodeError], but for [line_huge_int]
    below. *)
Definition sample_lines : list (pystr * pyval) :=
  [ (line_B, record_B);
    (line_best64, record_best64);
    (line_dive, record_dive);
    (line_potfile, record_potfile);
    (line_empty_progress, record_empty_progress);
    (line_short_recovered, record_short_recovered);
    (line_5_0, record_5_0);
    (line_large, record_large);
    (line_nan, record_nan) ].

Fixpoint sample_loads_in (table : list (pystr * pyval)) (line : pystr)
  : option pyval :=
  match table with
  | [] => None
  | (text, v) :: table' =>
      if pystr_eqb line text then Some v else sample_loads_in table' line
  end.

(** A record whose [progress] is an int of 4301 digits: [json.loads] raises
    [ValueError] on it, the limit of the conversion from [str] to [int]
    being 4300 digits. *)
Definition line_huge_int : pystr :=
  json_text "{'progress': [" ++ repeat 49%N 4301 ++ lit "]}".

Definition sample_loads (line : pystr) : decoding :=
  match sample_loads_in sample_lines line with
  | Some data => Decoded data
  | None =>
      if pystr_eqb line line_huge_int then OtherError ValueError
      else JSONDecodeError
  end.

(** No float, list or dict is printed into a key in the examples. *)
Definition sample_repr (v : pyval) : result pystr := Ok [].

(** The parser as [PasswordCrackingApp] first builds it. *)
Definition default_parser : HashcatStatusParser :=
  {| x_axis_type := lit "guesses"; y_axis_type := lit "percentage";
     status_timer := PInt 1 |}.

(** A file with two phases and a line cut short. *)
Definition sample_file : text_file :=
  Text [line_best64; line_best64; line_dive; line_dive; line_dive;
        line_partial].

(** What [parse_status_file] returns on it. *)
Definition sample_curves : curves :=
  ([[PInt 0; PInt 10; PInt 20]; [PInt 20; PInt 30; PInt 40; PInt 50]],
   [[PInt 0; PFloat 2; PFloat 2]; [PFloat 2; PFloat 4; PFloat 4; PFloat 4]],
   [(lit "1700000000/rockyou.txt", str "rules/best64.rule");
    (lit "1700000000/rockyou.txt", str "rules/dive.rule")]).

(** The state of the loop after [line_best64] alone. *)
Definition state_after_best64 : state :=
  {| curves_x := [[PInt 0; PInt 10]];
     curves_y := [[PInt 0; PFloat 2]];
     label_list := [(lit "1700000000/rockyou.txt", str "rules/best64.rule")];
     guesses := PInt 10;
     current_identifier :=
       Some (lit "1700000000/rockyou.txt", str "rules/best64.rule");
     elapsed_seconds := PInt 1 |}.

(** The state after [line_best64] and [line_dive]. *)
Definition state_after_dive : state :=
  {| curves_x := [[PInt 0; PInt 10]; [PInt 10; PInt 20]];
     curves_y := [[PInt 0; PFloat 2]; [PFloat 2; PFloat 4]];
     label_list := [(lit "1700000000/rockyou.txt", str "rules/best64.rule");
                    (lit "1700000000/rockyou.txt", str "rules/dive.rule")];
     guesses := PInt 20;
     current_identifier :=
       Some (lit "1700000000/rockyou.txt", str "rules/dive.rule");
     elapsed_seconds := PInt 2 |}.

(** A curve of 1002 points, longer than the threshold. *)
Definition long_curve : list pyval :=
  map (fun n => PInt (Z.of_nat n)) (seq 0 1002).

(** ** The points of a file, apart from the curves *)

(** A state that holds the two counters and nothing else. *)
Definition counters (g e : pyval) : state :=
  {| curves_x := []; curves_y := []; label_list := [];
     guesses := g; current_identifier := None; elapsed_seconds := e |}.

(** Lines 52 and 53 of the loop: [progress], the first element of the
    record's ["progress"]. *)
Definition progress_of (data : pyval) : result pyval :=
  p <- py_get data "progress" (PList [PInt 0]) ;; py_getitem p 0.

(** The points [(x_value, y_value)] of a list of records, in order, from the
    counters [g] and [e]: what lines 52-69 and 97 compute, whatever curve the
    point goes to. *)
Fixpoint record_points (self : HashcatStatusParser) (rs : list pyval)
    (g e : pyval) : result (list (pyval * pyval)) :=
  match rs with
  | [] => Ok []
  | data :: rest =>
      gxy <- record_point self data (counters g e) ;;
      let '(g', x_value, y_value) := gxy in
      e' <- py_add e (status_timer self) ;;
      points <- record_points self rest g' e' ;;
      Ok ((x_value, y_value) :: points)
  end.

(** The sums [g + p1], [g + p1 + p2], ... *)
Fixpoint running_sums (g : Z) (ps : list Z) : list Z :=
  match ps with
  | [] => []
  | p :: rest => (g + p) :: running_sums (g + p) rest
  end.

(** Every old curve is the beginning of the curve at the same place, and
    only the last old curve can have grown. *)
Definition extended (cs cs' : list (list pyval)) : Prop :=
  (List.length cs <= List.length cs')%nat
  /\ forall k c,
       nth_error cs k = Some c ->
       exists more,
         nth_error cs' k = Some (c ++ more)
         /\ ((S k < List.length cs)%nat -> more = []).

(** Lines 55 and 56 of the loop: [cracked], the first element of the
    record's ["recovered_hashes"]. *)
Definition cracked_of (data : pyval) : result pyval :=
  recovered <- py_get data "recovered_hashes" (PList [PInt 0; PInt 0]) ;;
  py_getitem recovered 0.

(** The current key is the last label, and neighbouring labels differ. *)
Definition labelled (st : state) : Prop :=
  match current_identifier st with
  | None => label_list st = []
  | Some cur => exists before, label_list st = before ++ [cur]
  end
  /\ forall k l1 l2,
       nth_error (label_list st) k = Some l1 ->
       nth_error (label_list st) (S k) = Some l2 ->
       key_eq l2 l1 = false.

(** The x values of all the curves, one curve after the other, are ints in
    increasing order between 0 and [g]. *)
Definition ascending_ints (cs : list (list pyval)) (g : Z) : Prop :=
  exists zs,
    List.concat cs = map PInt zs
    /\ StronglySorted Z.le zs
    /\ Forall (fun z => 0 <= z <= g) zs.

(** Lines 72-75: a field of the record's ["guess"]. *)
Definition guess_field (data : pyval) (field : string) (default : pyval)
  : result pyval :=
  guess <- py_get data "guess" (PDict []) ;; py_get guess field default.

(** ** PasswordCrackingApp *)

(** [s.split(sep)] for a separator of one character: the list is never
    empty. *)
Fixpoint split_on (sep : N) (s : pystr) : list pystr :=
  match s with
  | [] => [[]]
  | c :: s' =>
      if N.eqb c sep then [] :: split_on sep s'
      else
        match split_on sep s' with
        | segment :: segments => (c :: segment) :: segments
        | [] => [[c]]
        end
  end.

(** [s.split('/')[-1]] *)
Definition last_segment (s : pystr) : result pystr :=
  py_last (split_on 47 s).

(** [p in s] on two strings. *)
Fixpoint contains (s p : pystr) : bool :=
  startswith s p
  || match s with
     | [] => false
     | _ :: s' => contains s' p
     end.

(** [v.split('/')[-1]]: only a [str] has the method. *)
Definition py_last_segment (v : pyval) : result pystr :=
  match v with
  | PStr s => last_segment s
  | _ => Raise AttributeError
  end.

(** Lines 267-268: the name of a trace, from its label. *)
Definition attack_label (label : key) : result pystr :=
  let '(guess_base, guess_mod) := label in
  if negb (py_eq guess_mod PNone) then
    base <- last_segment guess_base ;;
    rule <- py_last_segment guess_mod ;;
    Ok (base ++ lit " " ++ rule)
  else last_segment guess_base.

(** Lines 271-274: the colour of a trace. *)
Definition trace_color (no_potfile_highlight : bool) (label : key)
  : option pystr :=
  if contains (fst label) (lit "potfile") && negb no_potfile_highlight
  then Some (lit "black") else None.

(** The arguments of one [go.Scatter]. *)
Record trace : Type := {
  trace_x : list pyval;
  trace_y : list pyval;
  mode : pystr;
  marker_color : option pystr;
  name : pystr;
  legendgroup : pystr;
  legendgrouptitle_text : option pystr
}.

(** [l[k]] for an index from [range(len(...))]. *)
Definition py_index {A : Type} (l : list A) (k : nat) : result A :=
  match nth_error l k with
  | Some a => Ok a
  | None => Raise IndexError
  end.

(** Lines 252-284: the trace of the curve number [k] of a file. *)
Definition curve_trace (no_potfile_highlight : bool) (file_name : pystr)
    (curves_x curves_y : list (list pyval)) (label_list : list key)
    (k : nat) : result trace :=
  xs <- py_index curves_x k ;;
  if (1000 <? List.length xs)%nat then
    ys <- py_index curves_y k ;;
    sampled <- downsample xs ys ;;
    label <- py_index label_list k ;;
    attack <- attack_label label ;;
    Ok {| trace_x := fst sampled; trace_y := snd sampled;
          mode := lit "lines";
          marker_color := trace_color no_potfile_highlight label;
          name := attack; legendgroup := file_name;
          legendgrouptitle_text :=
            if Nat.eqb k 0 then Some file_name else None |}
  else
    label <- py_index label_list k ;;
    attack <- attack_label label ;;
    ys <- py_index curves_y k ;;
    Ok {| trace_x := xs; trace_y := ys;
          mode := lit "lines";
          marker_color := trace_color no_potfile_highlight label;
          name := attack; legendgroup := file_name;
          legendgrouptitle_text :=
            if Nat.eqb k 0 then Some file_name else None |}.

(** Lines 251-284: the loop over [range(len(curves_x))]. *)
Fixpoint curve_traces (no_potfile_highlight : bool) (file_name : pystr)
    (curves_x curves_y : list (list pyval)) (label_list : list key)
    (ks : list nat) : result (list trace) :=
  match ks with
  | [] => Ok []
  | k :: rest =>
      t <- curve_trace no_potfile_highlight file_name
             curves_x curves_y label_list k ;;
      ts <- curve_traces no_potfile_highlight file_name
              curves_x curves_y label_list rest ;;
      Ok (t :: ts)
  end.

(** The attributes of the application that the callbacks and the figure
    read; [parsers] is the dict of line 128, in the order of insertion. *)
Record PasswordCrackingApp : Type := {
  hashcat_files : list pystr;
  update_interval : pyval;
  app_x_axis_type : pystr;
  app_y_axis_type : pystr;
  app_status_timer : pyval;
  no_potfile_highlight : bool;
  parsers : list (pystr * HashcatStatusParser)
}.

(** [d[k] = v] on a dict: a key that is present keeps its place. *)
Fixpoint dict_set {V : Type} (k : pystr) (v : V) (d : list (pystr * V))
  : list (pystr * V) :=
  match d with
  | [] => [(k, v)]
  | (k', v') :: d' =>
      if pystr_eqb k k' then (k', v) :: d' else (k', v') :: dict_set k v d'
  end.

(** Lines 126-129: [update_parsers]. *)
Definition update_parsers (app : PasswordCrackingApp) : PasswordCrackingApp :=
  {| hashcat_files := hashcat_files app;
     update_interval := update_interval app;
     app_x_axis_type := app_x_axis_type app;
     app_y_axis_type := app_y_axis_type app;
     app_status_timer := app_status_timer app;
     no_potfile_highlight := no_potfile_highlight app;
     parsers :=
       fold_left
         (fun d file =>
            dict_set file
              {| x_axis_type := app_x_axis_type app;
                 y_axis_type := app_y_axis_type app;
                 status_timer := app_status_timer app |} d)
         (hashcat_files app) [] |}.

(** Lines 108-119 of [__init__], for a list of files: the default values,
    then [update_parsers]. *)
Definition new_app (files : list pystr) : PasswordCrackingApp :=
  update_parsers
    {| hashcat_files := files;
       update_interval := PInt 10000;
       app_x_axis_type := lit "guesses";
       app_y_axis_type := lit "percentage";
       app_status_timer := PInt 1;
       no_potfile_highlight := false;
       parsers := [] |}.

(** The parser that [update_parsers] builds for every file. *)
Definition parser_of (app : PasswordCrackingApp) : HashcatStatusParser :=
  {| x_axis_type := app_x_axis_type app;
     y_axis_type := app_y_axis_type app;
     status_timer := app_status_timer app |}.

(** The parsers are those of the files and of the settings: one parser for
    every file, no file twice, each with the settings of the application. *)
Definition in_step (app : PasswordCrackingApp) : Prop :=
  NoDup (map fst (parsers app))
  /\ (forall file, In file (map fst (parsers app)) <-> In file (hashcat_files app))
  /\ Forall (fun item => snd item = parser_of app) (parsers app).

(** What [_create_figure] builds: the traces and the titles of the axes. *)
Record figure : Type := {
  traces : list trace;
  xaxis_title : pystr;
  yaxis_title : pystr
}.

Section Figure.

Variable json_loads : pystr -> decoding.
Variable py_repr : pyval -> result pystr.

(** What the file system holds at a path. *)
Variable read : pystr -> text_file.

(** [Path(p).stem] *)
Variable stem : pystr -> pystr.

(** Lines 246-284: the loop over the parsers. *)
Fixpoint file_traces (highlight_off : bool)
    (items : list (pystr * HashcatStatusParser)) : result (list trace) :=
  match items with
  | [] => Ok []
  | (file_path, parser) :: rest =>
      parsed <- parse_status_file json_loads py_repr parser (read file_path) ;;
      let '(curves_x, curves_y, label_list) := parsed in
      ts <- curve_traces highlight_off (stem file_path)
              curves_x curves_y label_list (seq 0 (List.length curves_x)) ;;
      others <- file_traces highlight_off rest ;;
      Ok (ts ++ others)
  end.

(** The curves of all the files, when every file is parsed. *)
Fixpoint curves_of (items : list (pystr * HashcatStatusParser)) : nat :=
  match items with
  | [] => O
  | (file_path, parser) :: rest =>
      match parse_status_file json_loads py_repr parser (read file_path) with
      | Ok (curves_x, _, _) => (List.length curves_x + curves_of rest)%nat
      | Raise _ => curves_of rest
      end
  end.

(** Lines 234-295: [_create_figure]. *)
Definition create_figure (app : PasswordCrackingApp) : result figure :=
  let x_axis_title :=
    if pystr_eqb (app_x_axis_type app) (lit "time")
    then lit "Time (seconds)" else lit "Number of hashes tested" in
  let y_axis_title :=
    if pystr_eqb (app_y_axis_type app) (lit "count")
    then lit "Cracked passwords (count)" else lit "Cracked passwords (%)" in
  ts <- file_traces (no_potfile_highlight app) (parsers app) ;;
  Ok {| traces := ts; xaxis_title := x_axis_title;
        yaxis_title := y_axis_title |}.

(** [a * b] where [a] can be a sequence. *)
Definition py_times (a b : pyval) : result pyval :=
  match a, as_num b with
  | PStr s, Some (NInt n) => Ok (PStr (List.concat (repeat s (Z.to_nat n))))
  | PList l, Some (NInt n) => Ok (PList (List.concat (repeat l (Z.to_nat n))))
  | _, _ => py_mul a b
  end.

(** [x in c]: a substring of a [str], an element of a [list], a key of a
    [dict]; a value that is no container raises. *)
Definition py_in (x c : pyval) : result bool :=
  match c with
  | PStr s =>
      match x with
      | PStr p => Ok (contains s p)
      | _ => Raise TypeError
      end
  | PList l => Ok (existsb (py_eq x) l)
  | PDict d => Ok (existsb (fun item => py_eq x (PStr (fst item))) d)
  | _ => Raise TypeError
  end.

(** Lines 223-226: the attributes that [Update] sets before it calls
    [update_parsers]. *)
Definition with_settings (interval : pyval) (x_axis y_axis : pystr)
    (highlight_off : bool) (app : PasswordCrackingApp) : PasswordCrackingApp :=
  {| hashcat_files := hashcat_files app;
     update_interval := interval;
     app_x_axis_type := x_axis;
     app_y_axis_type := y_axis;
     app_status_timer := app_status_timer app;
     no_potfile_highlight := highlight_off;
     parsers := parsers app |}.

(** Lines 218-232: [update_graph_and_settings], for the two radio values
    strings.  [triggered] holds the [prop_id] of the inputs that fired.  The
    application is returned as the callback leaves it, also when the callback
    raises: the assignments of lines 223-225 that were done stay done. *)
Definition update_graph_and_settings (triggered : list pystr)
    (refresh : pyval) (x_axis y_axis : pystr) (potfile_highlight : pyval)
    (app : PasswordCrackingApp)
  : PasswordCrackingApp * result (pyval * figure) :=
  let button :=
    match triggered with
    | prop_id :: _ => pystr_eqb prop_id (lit "update-button.n_clicks")
    | [] => false
    end in
  let draw (app' : PasswordCrackingApp) :=
    (app', fig <- create_figure app' ;; Ok (update_interval app', fig)) in
  if button then
    match py_times refresh (PInt 1000) with
    | Raise e => (app, Raise e)
    | Ok interval =>
        match py_in (str "highlight") potfile_highlight with
        | Raise e =>
            (with_settings interval x_axis y_axis (no_potfile_highlight app)
               app, Raise e)
        | Ok highlighted =>
            draw (update_parsers
                    (with_settings interval x_axis y_axis (negb highlighted)
                       app))
        end
    end
  else draw app.

End Figure.

(** What [main] ends with: [sys.exit] with a code, after a line on the
    standard error, or the application that is run. *)
Inductive outcome : Type :=
| Exit (code : Z) (stderr : pystr)
| Run (app : PasswordCrackingApp).

(** Lines 337-340: the files are checked one after the other. *)
Fixpoint validate (exists_ : pystr -> bool) (files : list pystr)
  : option pystr :=
  match files with
  | [] => None
  | file_path :: rest =>
      if negb (exists_ file_path)
      then Some (lit "Error: File '" ++ file_path ++ lit "' not found!")
      else validate exists_ rest
  end.

(** Lines 334-343 of [main], after the arguments are parsed. *)
Definition main (exists_ : pystr -> bool) (files : list pystr) : outcome :=
  match validate exists_ files with
  | Some message => Exit 1 message
  | None => Run (new_app files)
  end.

(** * Properties *)

(** ** The embedding on small inputs *)

Example strip_line :
  strip ([32; 9] ++ lit "{x} " ++ [13; 10])%N = lit "{x}".
Proof. reflexivity. Qed.

Example replace_potfile :
  replace (lit "/tmp/autocat_new_cracked_potfile.txt")
    (lit "autocat_new_cracked_potfile") (lit "potfile")
  = lit "/tmp/potfile.txt".
Proof. reflexivity. Qed.

Example replace_leftmost : replace (lit "aaa") (lit "aa") (lit "b") = lit "ba".
Proof. reflexivity. Qed.

(** The largest float is the nearest one just below the limit. *)
Example float_limit_is_sharp :
  round64 (float_limit - 1) 0 false = 0x1.fffffffffffffp+1023%float
  /\ round64 float_limit 0 false = infinity
  /\ float_of_int (float_limit - 1) = Ok 0x1.fffffffffffffp+1023%float
  /\ float_of_int float_limit = Raise OverflowError.
Proof. repeat apply conj; vm_compute; reflexivity. Qed.

Example true_division :
  py_truediv (PInt 2) (PInt 100) = Ok (PFloat 0x1.47ae147ae147bp-6)
  /\ py_truediv (PInt 1) (PInt 3) = Ok (PFloat 0x1.5555555555555p-2)
  /\ py_truediv (PInt 0) (PInt (-5)) = Ok (PFloat (-0))
  /\ py_truediv (PInt 1) (PInt 0) = Raise ZeroDivisionError
  /\ py_truediv (PInt (10 ^ 400)) (PInt 1) = Raise OverflowError
  /\ py_truediv (PInt 1) (PInt (10 ^ 400)) = Ok (PFloat 0)
  /\ py_truediv (PInt 3) (PInt (2 ^ 1075)) = Ok (PFloat 0x1p-1073).
Proof. repeat apply conj; vm_compute; reflexivity. Qed.

Example equality :
  py_eq (PBool true) (PFloat 1) = true
  /\ py_eq (PFloat 9007199254740992) (PInt 9007199254740993) = false
  /\ num_eq (NFloat nan) (NFloat nan) = false
  /\ py_eq (PFloat nan) (PFloat nan) = true
  /\ py_eq (PList [PFloat nan]) (PList [PFloat nan]) = true
  /\ py_eq (PFloat nan) (PFloat 1) = false
  /\ py_eq (PList [PInt 1; str "a"]) (PList [PFloat 1; str "a"]) = true
  /\ py_eq (PDict [(lit "a", PInt 1); (lit "b", PNone)])
           (PDict [(lit "b", PNone); (lit "a", PInt 1)]) = true
  /\ py_eq PNone (PBool false) = false.
Proof. repeat apply conj; vm_compute; reflexivity. Qed.

(** Two records whose [guess_mod] is [NaN] have equal keys, the two values
    being one object: the second record goes on with the curve of the
    first. *)
Example nan_keys_are_one_phase :
  key_eq (lit "unknown/dict1", PFloat nan) (lit "unknown/dict1", PFloat nan)
  = true
  /\ parse_status_file sample_loads sample_repr default_parser
       (Text [line_nan; line_nan])
     = Ok ([[PInt 0; PInt 10; PInt 20]],
           [[PInt 0; PFloat 0; PFloat 0]],
           [(lit "unknown/dict1", PFloat nan)]).
Proof. split; vm_compute; reflexivity. Qed.

(** A file that does not open, or that is not read to its end, ends the
    parse with the exception of [open] or of the read, after the lines that
    were read. *)
Example unreadable_files :
  parse_status_file sample_loads sample_repr default_parser
    (Unreadable OSError) = Raise OSError
  /\ parse_status_file sample_loads sample_repr default_parser
       (Broken [line_B] UnicodeDecodeError) = Raise UnicodeDecodeError
  /\ parse_status_file sample_loads sample_repr default_parser
       (Broken [line_empty_progress; line_B] UnicodeDecodeError)
     = Raise IndexError.
Proof. repeat apply conj; vm_compute; reflexivity. Qed.

(** Scenario A: a missing file and an empty file give no curve. *)
Example scenario_A :
  parse_status_file sample_loads sample_repr default_parser Missing
  = Ok ([], [], [])
  /\ parse_status_file sample_loads sample_repr default_parser (Text [])
     = Ok ([], [], []).
Proof. split; reflexivity. Qed.

(** Scenario C: after two records of a wordlist, a record of the potfile
    opens a second curve, labelled with the normalized base. *)
Example scenario_C :
  parse_status_file sample_loads sample_repr default_parser
    (Text [line_best64; line_best64; line_potfile])
  = Ok ([[PInt 0; PInt 10; PInt 20]; [PInt 20; PInt 30]],
        [[PInt 0; PFloat 2; PFloat 2]; [PFloat 2; PFloat 6]],
        [(lit "1700000000/rockyou.txt", str "rules/best64.rule");
         (lit "1700000060/potfile", PNone)]).
Proof. vm_compute. reflexivity. Qed.

(** The time axis counts one [status_timer] per record, from 0. *)
Example time_axis :
  parse_status_file sample_loads sample_repr
    {| x_axis_type := lit "time"; y_axis_type := lit "count";
       status_timer := PInt 5 |}
    (Text [line_best64; line_banner; line_best64; line_dive])
  = Ok ([[PInt 0; PInt 0; PInt 5]; [PInt 5; PInt 10]],
        [[PInt 0; PInt 2; PInt 2]; [PInt 2; PInt 4]],
        [(lit "1700000000/rockyou.txt", str "rules/best64.rule");
         (lit "1700000000/rockyou.txt", str "rules/dive.rule")]).
Proof. vm_compute. reflexivity. Qed.

Example downsample_long_curve :
  downsample long_curve long_curve
  = Ok (map (fun n => PInt (Z.of_nat (60 * n))) (seq 0 17) ++ [PInt 1001],
        map (fun n => PInt (Z.of_nat (60 * n))) (seq 0 17) ++ [PInt 1001]).
Proof. vm_compute. reflexivity. Qed.

(** ** Lists that grow at the end *)

Lemma py_last_snoc {A : Type} (l : list A) (a : A) : py_last (l ++ [a]) = Ok a.
Proof. unfold py_last. rewrite rev_unit. reflexivity. Qed.

Lemma py_last_inv {A : Type} (l : list A) (a : A) :
  py_last l = Ok a -> exists l', l = l' ++ [a].
Proof.
  unfold py_last. intros H.
  destruct (rev l) as [|b r] eqn:E; [discriminate|].
  injection H as ->. exists (rev r).
  rewrite <- (rev_involutive l), E. reflexivity.
Qed.

Lemma py_last_cons {A : Type} (a b : A) (l : list A) :
  py_last (a :: b :: l) = py_last (b :: l).
Proof.
  destruct (py_last (b :: l)) as [c|e] eqn:E.
  - apply py_last_inv in E as [l' E]. rewrite E.
    change (a :: l' ++ [c]) with ((a :: l') ++ [c]). apply py_last_snoc.
  - unfold py_last in E. destruct (rev (b :: l)) eqn:R; [|discriminate].
    apply (f_equal (@List.length A)) in R. rewrite length_rev in R. discriminate.
Qed.

Lemma append_to_last_inv (cs cs' : list (list pyval)) (v : pyval) :
  append_to_last cs v = Ok cs' ->
  exists before c, cs = before ++ [c] /\ cs' = before ++ [c ++ [v]].
Proof.
  unfold append_to_last. intros H.
  destruct (rev cs) as [|c r] eqn:E; [discriminate|].
  injection H as <-. exists (rev r), c. split; [|reflexivity].
  rewrite <- (rev_involutive cs), E. reflexivity.
Qed.

Lemma append_to_last_snoc (before : list (list pyval)) (c : list pyval)
    (v : pyval) :
  append_to_last (before ++ [c]) v = Ok (before ++ [c ++ [v]]).
Proof.
  unfold append_to_last. rewrite rev_unit, rev_involutive. reflexivity.
Qed.

Lemma stitched_inv (cs : list (list pyval)) (v : pyval) (c' : list pyval) :
  stitched cs v = Ok c' ->
  exists before c p, cs = before ++ [c ++ [p]] /\ c' = [p; v].
Proof.
  unfold stitched. intros H.
  destruct (py_last cs) as [c|] eqn:E1; [|discriminate]. cbn in H.
  destruct (py_last c) as [p|] eqn:E2; [|discriminate]. cbn in H.
  injection H as <-.
  apply py_last_inv in E1 as [before ->].
  apply py_last_inv in E2 as [q ->].
  exists before, q, p. split; reflexivity.
Qed.

Lemma stitched_snoc (before : list (list pyval)) (c : list pyval)
    (p v : pyval) :
  stitched (before ++ [c ++ [p]]) v = Ok [p; v].
Proof.
  unfold stitched. rewrite py_last_snoc. cbn [bind].
  rewrite py_last_snoc. reflexivity.
Qed.

(** Inversion of a [bind] that returned. *)
Lemma bind_ok {A B : Type} (r : result A) (k : A -> result B) (b : B) :
  bind r k = Ok b -> exists a, r = Ok a /\ k a = Ok b.
Proof. destruct r as [a|e]; cbn; [eauto | discriminate]. Qed.

Ltac inv_bind H :=
  let a := fresh "a" in
  let E := fresh "E" in
  apply bind_ok in H as (a & E & H).

(** ** What [place_point] does to the curves *)

Lemma place_point_placed (k : key) (x y : pyval) (st st' : state) :
  place_point k x y st = Ok st' ->
  placed k x y st st' /\ guesses st' = guesses st
  /\ elapsed_seconds st' = elapsed_seconds st.
Proof.
  unfold place_point, key_differs. intros H.
  destruct (current_identifier st) as [cur|] eqn:C.
  - destruct (key_eq k cur) eqn:K; cbn in H.
    + inv_bind H. inv_bind H. injection H as <-. cbn.
      apply append_to_last_inv in E as (bx & cx & Ex & ->).
      apply append_to_last_inv in E0 as (by_ & cy & Ey & ->).
      split; [|split; reflexivity].
      eapply placed_same; eauto.
    + inv_bind H. inv_bind H. injection H as <-. cbn.
      apply stitched_inv in E as (bx & cx & px & Ex & ->).
      apply stitched_inv in E0 as (by_ & cy & py & Ey & ->).
      split; [|split; reflexivity].
      eapply placed_new; eauto.
  - injection H as <-. cbn. split; [|split; reflexivity].
    apply placed_first; auto.
Qed.

Section Steps.

Variable json_loads : pystr -> decoding.
Variable py_repr : pyval -> result pystr.
Variable self : HashcatStatusParser.

(** A record that was processed placed its point. *)
Lemma process_record_placed (data : pyval) (st st' : state) :
  process_record py_repr self data st = Ok st' ->
  exists g x y k,
    record_point self data st = Ok (g, x, y)
    /\ record_key py_repr data = Ok k
    /\ placed k x y st st'.
Proof.
  unfold process_record. intros H.
  inv_bind H. destruct a as [[g x] y].
  inv_bind H. inv_bind H. inv_bind H. injection H as <-.
  apply place_point_placed in E1 as (P & _ & _).
  exists g, x, y, a. repeat split; auto.
  destruct P; [eapply placed_first | eapply placed_new | eapply placed_same];
    cbn in *; eauto.
Qed.

(** A line leaves the state alone or is a record that was processed. *)
Lemma process_line_cases (line : pystr) (st st' : state) :
  process_line json_loads py_repr self line st = Ok st' ->
  st' = st \/ exists data, process_record py_repr self data st = Ok st'.
Proof.
  unfold process_line. intros H.
  destruct (negb (startswith (strip line) (lit "{"))).
  - injection H as <-. now left.
  - destruct (json_loads (strip line)) as [data| |e].
    + right. eauto.
    + injection H as <-. now left.
    + discriminate.
Qed.

(** A property that holds at the start and that every processed record
    keeps holds when the loop ends. *)
Lemma run_lines_invariant (P : state -> Prop) :
  (forall data st st',
      P st -> process_record py_repr self data st = Ok st' -> P st') ->
  forall lines st st',
    P st -> run_lines json_loads py_repr self lines st = Ok st' -> P st'.
Proof.
  intros step. induction lines as [|line rest IH]; intros st st' HP H.
  - injection H as <-. exact HP.
  - cbn in H. inv_bind H.
    apply (IH a st'); [|exact H].
    destruct (process_line_cases _ _ _ E) as [-> | [data D]]; eauto.
Qed.

End Steps.

(** ** Invariants of the loop *)

Lemma nth_error_snoc {A : Type} (l : list A) (a b : A) (n : nat) :
  nth_error (l ++ [a]) n = Some b ->
  n = List.length l /\ b = a \/
  (n < List.length l)%nat /\ nth_error l n = Some b.
Proof.
  intros H. destruct (Nat.lt_ge_cases n (List.length l)) as [L|L].
  - right. split; [exact L|]. now rewrite nth_error_app1 in H.
  - rewrite nth_error_app2 in H by exact L.
    destruct (n - List.length l)%nat as [|m] eqn:D.
    + injection H as <-. left. split; [lia | reflexivity].
    + destruct m; discriminate.
Qed.

Lemma stitched_at_nil : stitched_at [].
Proof. intros [|k] ck ck1 H; discriminate. Qed.

Lemma stitched_at_one (c : list pyval) : stitched_at ([] ++ [c]).
Proof. intros [|[|k]] ck ck1 H1 H2; discriminate. Qed.

Lemma stitched_at_snoc (cs : list (list pyval)) (c : list pyval)
    (p v : pyval) :
  stitched_at (cs ++ [c ++ [p]]) ->
  stitched_at ((cs ++ [c ++ [p]]) ++ [[p; v]]).
Proof.
  intros H k ck ck1 H1 H2.
  apply nth_error_snoc in H2 as [[L ->] | [L H2]].
  - rewrite nth_error_app1 in H1 by lia.
    rewrite length_app in L. cbn in L.
    rewrite nth_error_app2 in H1 by lia.
    replace (k - List.length cs)%nat with O in H1 by lia.
    injection H1 as <-. exists p. split; [apply py_last_snoc | reflexivity].
  - rewrite nth_error_app1 in H1 by lia. exact (H k ck ck1 H1 H2).
Qed.

Lemma stitched_at_grow (cs : list (list pyval)) (c : list pyval) (v : pyval) :
  c <> [] ->
  stitched_at (cs ++ [c]) -> stitched_at (cs ++ [c ++ [v]]).
Proof.
  intros N H k ck ck1 H1 H2.
  apply nth_error_snoc in H2 as [[L ->] | [L H2]].
  - rewrite nth_error_app1 in H1 by lia.
    destruct (H k ck c) as (p & Hp & Hc).
    + rewrite nth_error_app1 by lia. exact H1.
    + rewrite L, nth_error_app2 by lia.
      now replace (List.length cs - List.length cs)%nat with O by lia.
    + exists p. split; [exact Hp|].
      destruct c; [contradiction | exact Hc].
  - rewrite nth_error_app1 in H1 by lia.
    apply (H k ck ck1); rewrite nth_error_app1 by lia; assumption.
Qed.

Lemma snoc_not_nil {A : Type} (l : list A) (a : A) : l ++ [a] <> [].
Proof. destruct l; discriminate. Qed.

Lemma well_formed_init : well_formed init.
Proof.
  split; cbn; auto using stitched_at_nil.
Qed.

Lemma nonempty_of_two (c : list pyval) : (2 <= List.length c)%nat -> c <> [].
Proof. destruct c; cbn; [lia | discriminate]. Qed.

Lemma placed_well_formed (k : key) (x y : pyval) (st st' : state) :
  placed k x y st st' -> well_formed st -> well_formed st'.
Proof.
  intros P [We Wl Wp Wt Wx Wy Wc].
  destruct P as
    [C Ex Ey El Ec
    | cur bx by_ cx cy px py C K Hx Hy Ex Ey El Ec
    | cur bx by_ cx cy C K Hx Hy Ex Ey El Ec].
  - destruct (We C) as [Zx Zy]. rewrite Zx in Ex. rewrite Zy in Ey.
    split; rewrite ?Ex, ?Ey, ?El, ?Ec; try discriminate;
      try (intros _; apply snoc_not_nil).
    + rewrite Zx in Wl. rewrite !length_app. cbn in *. lia.
    + reflexivity.
    + repeat constructor.
    + apply stitched_at_one.
    + apply stitched_at_one.
  - split; rewrite ?Ex, ?Ey, ?El, ?Ec; try discriminate;
      try (intros _; apply snoc_not_nil).
    + rewrite !length_app. cbn. lia.
    + rewrite !map_app, Wp. reflexivity.
    + apply Forall_app. split; [exact Wt | repeat constructor].
    + rewrite Hx in *. now apply stitched_at_snoc.
    + rewrite Hy in *. now apply stitched_at_snoc.
  - assert (L : map (@List.length pyval) bx = map (@List.length pyval) by_
                /\ List.length cx = List.length cy).
    { rewrite Hx, Hy, !map_app in Wp. cbn in Wp.
      apply app_inj_tail in Wp. exact Wp. }
    destruct L as [Lb Lc].
    assert (T : Forall (fun c => (2 <= List.length c)%nat) bx
                /\ (2 <= List.length cx)%nat).
    { rewrite Hx in Wt. apply Forall_app in Wt as [Tb Tc].
      split; [exact Tb | now inversion Tc]. }
    destruct T as [Tb Tc].
    split; rewrite ?Ex, ?Ey, ?El, ?Ec; try discriminate;
      try (intros _; apply snoc_not_nil).
    + rewrite Hx in Wl. rewrite !length_app in *. cbn in *. lia.
    + rewrite !map_app, Lb. cbn. rewrite !length_app, Lc. reflexivity.
    + apply Forall_app. split; [exact Tb|].
      constructor; [|constructor]. rewrite length_app. lia.
    + rewrite Hx in Wx. apply stitched_at_grow; [|exact Wx].
      now apply nonempty_of_two.
    + rewrite Hy in Wy. apply stitched_at_grow; [|exact Wy].
      apply nonempty_of_two. lia.
Qed.

Section Invariants.

Variable json_loads : pystr -> decoding.
Variable py_repr : pyval -> result pystr.
Variable self : HashcatStatusParser.

Lemma process_record_well_formed (data : pyval) (st st' : state) :
  well_formed st -> process_record py_repr self data st = Ok st' ->
  well_formed st'.
Proof.
  intros W H. apply process_record_placed in H as (g & x & y & k & _ & _ & P).
  exact (placed_well_formed k x y st st' P W).
Qed.

Lemma run_lines_well_formed (lines : list pystr) (st : state) :
  run_lines json_loads py_repr self lines init = Ok st -> well_formed st.
Proof.
  apply (run_lines_invariant json_loads py_repr self well_formed).
  - exact process_record_well_formed.
  - exact well_formed_init.
Qed.

End Invariants.

(** ** The returned curves *)

Lemma placed_grows_together (k : key) (x y : pyval) (st st' : state) :
  placed k x y st st' -> grows_together st st'.
Proof.
  intros [C Ex Ey El Ec
         | cur bx by_ cx cy px py C K Hx Hy Ex Ey El Ec
         | cur bx by_ cx cy C K Hx Hy Ex Ey El Ec].
  - left. rewrite Ex, Ey, El, !length_app. cbn. lia.
  - left. rewrite Ex, Ey, El, !length_app. cbn. lia.
  - right. rewrite Ex, Ey, El, Hx, Hy, !length_app. cbn. lia.
Qed.

(** C9. The three sequences [parse_status_file] returns have the same length,
    and the equality holds after every record: a record that is processed
    appends one element to each of [curves_x], [curves_y] and [label_list],
    or to none of them. *)
Theorem parallel_sequences
    (json_loads : pystr -> decoding) (py_repr : pyval -> result pystr)
    (self : HashcatStatusParser) :
  (forall file cx cy labels,
      parse_status_file json_loads py_repr self file = Ok (cx, cy, labels) ->
      List.length cx = List.length cy /\ List.length cy = List.length labels)
  /\ (forall lines st,
        run_lines json_loads py_repr self lines init = Ok st ->
        List.length (curves_x st) = List.length (curves_y st)
        /\ List.length (curves_y st) = List.length (label_list st))
  /\ (forall data st st',
        process_record py_repr self data st = Ok st' ->
        grows_together st st').
Proof.
  assert (R : forall lines st,
             run_lines json_loads py_repr self lines init = Ok st ->
             List.length (curves_x st) = List.length (curves_y st)
             /\ List.length (curves_y st) = List.length (label_list st)).
  { intros lines st H. apply run_lines_well_formed in H as [_ Wl Wp _ _ _ _].
    apply (f_equal (@List.length nat)) in Wp. rewrite !length_map in Wp. lia. }
  split; [|split].
  - intros [|e|lines e|lines] cx cy labels H; cbn in H.
    + injection H as <- <- <-. split; reflexivity.
    + discriminate.
    + inv_bind H. discriminate.
    + inv_bind H. injection H as <- <- <-. exact (R lines a E).
  - exact R.
  - intros data st st' H.
    apply process_record_placed in H as (g & x & y & k & _ & _ & P).
    exact (placed_grows_together k x y st st' P).
Qed.

Lemma parallel_sequences_witness :
  parse_status_file sample_loads sample_repr default_parser sample_file
  = Ok sample_curves
  /\ List.length (fst (fst sample_curves)) = List.length (snd (fst sample_curves))
  /\ List.length (snd (fst sample_curves)) = List.length (snd sample_curves).
Proof.
  assert (E : parse_status_file sample_loads sample_repr default_parser
                sample_file = Ok sample_curves) by (vm_compute; reflexivity).
  split; [exact E|].
  exact (proj1 (parallel_sequences sample_loads sample_repr default_parser)
           sample_file _ _ _ E).
Defined.

Lemma parse_status_file_well_formed
    (json_loads : pystr -> decoding) (py_repr : pyval -> result pystr)
    (self : HashcatStatusParser) (file : text_file)
    (cx cy : list (list pyval)) (labels : list key) :
  parse_status_file json_loads py_repr self file = Ok (cx, cy, labels) ->
  exists st, well_formed st /\ returned st = (cx, cy, labels).
Proof.
  destruct file as [|e|lines e|lines]; cbn; intros H.
  - injection H as <- <- <-. exists init. split; [|reflexivity].
    exact well_formed_init.
  - discriminate.
  - inv_bind H. discriminate.
  - inv_bind H. injection H as <- <- <-. exists a. split; [|reflexivity].
    exact (run_lines_well_formed json_loads py_repr self lines a E).
Qed.

Lemma two_points_transfer (cx cy : list (list pyval)) :
  map (@List.length pyval) cx = map (@List.length pyval) cy ->
  Forall (fun c => (2 <= List.length c)%nat) cx ->
  Forall (fun c => (2 <= List.length c)%nat) cy.
Proof.
  intros M F.
  apply (Forall_map (@List.length pyval) (fun n => (2 <= n)%nat)).
  rewrite <- M.
  apply (Forall_map (@List.length pyval) (fun n => (2 <= n)%nat)). exact F.
Qed.

(** C10. Every curve [parse_status_file] returns has at least two points.
    A record that is processed, with its point [(x, y)], does one of three
    things: it opens the first curve with the two points (0, 0) and [(x, y)];
    it opens a further curve with the last point of the previous curve and
    [(x, y)]; or it appends [(x, y)] to the last curve.  The curves built
    before are left as they are. *)
Theorem curves_have_two_points
    (json_loads : pystr -> decoding) (py_repr : pyval -> result pystr)
    (self : HashcatStatusParser) :
  (forall file cx cy labels,
      parse_status_file json_loads py_repr self file = Ok (cx, cy, labels) ->
      Forall (fun c => (2 <= List.length c)%nat) cx
      /\ Forall (fun c => (2 <= List.length c)%nat) cy)
  /\ (forall data st st',
        process_record py_repr self data st = Ok st' ->
        exists g x y,
          record_point self data st = Ok (g, x, y)
          /\ ((current_identifier st = None
               /\ curves_x st' = curves_x st ++ [[PInt 0; x]]
               /\ curves_y st' = curves_y st ++ [[PInt 0; y]])
              \/ (exists bx cx px by_ cy py,
                     curves_x st = bx ++ [cx ++ [px]]
                     /\ curves_y st = by_ ++ [cy ++ [py]]
                     /\ curves_x st' = curves_x st ++ [[px; x]]
                     /\ curves_y st' = curves_y st ++ [[py; y]])
              \/ (exists bx cx by_ cy,
                     curves_x st = bx ++ [cx]
                     /\ curves_x st' = bx ++ [cx ++ [x]]
                     /\ curves_y st = by_ ++ [cy]
                     /\ curves_y st' = by_ ++ [cy ++ [y]]))).
Proof.
  split.
  - intros file cx cy labels H.
    apply parse_status_file_well_formed in H as (st & W & R).
    injection R as <- <- <-. destruct W as [_ _ Wp Wt _ _ _].
    split; [exact Wt | exact (two_points_transfer _ _ Wp Wt)].
  - intros data st st' H.
    apply process_record_placed in H as (g & x & y & k & RP & _ & P).
    exists g, x, y. split; [exact RP|].
    destruct P as
      [C Ex Ey El Ec
      | cur bx by_ cx cy px py C K Hx Hy Ex Ey El Ec
      | cur bx by_ cx cy C K Hx Hy Ex Ey El Ec].
    + left. repeat split; assumption.
    + right. left. exists bx, cx, px, by_, cy, py. repeat split; assumption.
    + right. right. exists bx, cx, by_, cy. repeat split; assumption.
Qed.

Lemma curves_have_two_points_witness :
  parse_status_file sample_loads sample_repr default_parser sample_file
  = Ok sample_curves
  /\ Forall (fun c => (2 <= List.length c)%nat) (fst (fst sample_curves))
  /\ Forall (fun c => (2 <= List.length c)%nat) (snd (fst sample_curves)).
Proof.
  assert (E : parse_status_file sample_loads sample_repr default_parser
                sample_file = Ok sample_curves) by (vm_compute; reflexivity).
  split; [exact E|].
  exact (proj1 (curves_have_two_points sample_loads sample_repr
                  default_parser) sample_file _ _ _ E).
Defined.

(** C5. In the curves [parse_status_file] returns, the last point of curve
    [k] is the first point of curve [k+1], in x and in y. *)
Theorem stitching_continuity
    (json_loads : pystr -> decoding) (py_repr : pyval -> result pystr)
    (self : HashcatStatusParser) (file : text_file)
    (cx cy : list (list pyval)) (labels : list key)
    (k : nat) (xk xk1 yk yk1 : list pyval) :
  parse_status_file json_loads py_repr self file = Ok (cx, cy, labels) ->
  nth_error cx k = Some xk -> nth_error cx (S k) = Some xk1 ->
  nth_error cy k = Some yk -> nth_error cy (S k) = Some yk1 ->
  exists px py,
    py_last xk = Ok px /\ hd_error xk1 = Some px
    /\ py_last yk = Ok py /\ hd_error yk1 = Some py.
Proof.
  intros H X X1 Y Y1.
  apply parse_status_file_well_formed in H as (st & W & R).
  injection R as <- <- <-. destruct W as [_ _ _ _ Wx Wy _].
  destruct (Wx k xk xk1 X X1) as (px & Lx & Fx).
  destruct (Wy k yk yk1 Y Y1) as (py & Ly & Fy).
  exists px, py. repeat split; assumption.
Qed.

Lemma stitching_continuity_witness :
  exists px py,
    py_last [PInt 0; PInt 10; PInt 20] = Ok px
    /\ hd_error [PInt 20; PInt 30; PInt 40; PInt 50] = Some px
    /\ py_last [PInt 0; PFloat 2; PFloat 2] = Ok py
    /\ hd_error [PFloat 2; PFloat 4; PFloat 4; PFloat 4] = Some py.
Proof.
  apply (stitching_continuity sample_loads sample_repr default_parser
           sample_file (fst (fst sample_curves)) (snd (fst sample_curves))
           (snd sample_curves) 0);
    [vm_compute; reflexivity | reflexivity ..].
Defined.

(** ** Lines that are not records *)

Section Lines.

Variable json_loads : pystr -> decoding.
Variable py_repr : pyval -> result pystr.
Variable self : HashcatStatusParser.

Lemma process_line_junk (junk : pystr) (st : state) :
  skipped json_loads junk = true ->
  process_line json_loads py_repr self junk st = Ok st.
Proof.
  unfold skipped, process_line.
  destruct (startswith (strip junk) (lit "{")); cbn; [|reflexivity].
  destruct (json_loads (strip junk)); intros H; [discriminate | | discriminate].
  reflexivity.
Qed.

Lemma run_lines_inserted (original augmented : list pystr) :
  inserted json_loads original augmented ->
  forall st,
    run_lines json_loads py_repr self augmented st
    = run_lines json_loads py_repr self original st.
Proof.
  induction 1 as [|line original augmented _ IH
                  |junk original augmented J _ IH]; intros st.
  - reflexivity.
  - cbn. destruct (process_line json_loads py_repr self line st); cbn;
      [apply IH | reflexivity].
  - cbn. rewrite (process_line_junk junk st J). cbn. apply IH.
Qed.

Lemma process_line_decoded (line : pystr) (st : state) :
  process_line json_loads py_repr self line st
  = match decoded json_loads line with
    | Some data => process_record py_repr self data st
    | None =>
        match aborting json_loads line with
        | Some e => Raise e
        | None => Ok st
        end
    end.
Proof.
  unfold decoded, aborting, process_line.
  destruct (startswith (strip line) (lit "{")); cbn; [|reflexivity].
  destruct (json_loads (strip line)); reflexivity.
Qed.

(** A parse that returns is the loop over the records of the file. *)
Lemma run_lines_records (lines : list pystr) (st st' : state) :
  run_lines json_loads py_repr self lines st = Ok st' ->
  run_records py_repr self (records json_loads lines) st = Ok st'.
Proof.
  revert st. induction lines as [|line rest IH]; intros st; [auto|].
  cbn. rewrite process_line_decoded.
  destruct (decoded json_loads line) as [data|]; cbn.
  - destruct (process_record py_repr self data st); cbn;
      [apply IH | discriminate].
  - destruct (aborting json_loads line); cbn; [discriminate | apply IH].
Qed.

(** When [json.loads] raises nothing but [JSONDecodeError], the loop over
    the lines is the loop over the records. *)
Lemma run_lines_caught (lines : list pystr) (st : state) :
  Forall (fun line => aborting json_loads line = None) lines ->
  run_lines json_loads py_repr self lines st
  = run_records py_repr self (records json_loads lines) st.
Proof.
  intros F. revert st. induction F as [|line rest A _ IH]; intros st;
    [reflexivity|].
  cbn. rewrite process_line_decoded, A.
  destruct (decoded json_loads line) as [data|]; cbn; [|apply IH].
  destruct (process_record py_repr self data st); cbn;
    [apply IH | reflexivity].
Qed.

Lemma decoded_not_aborting (line : pystr) (data : pyval) :
  decoded json_loads line = Some data -> aborting json_loads line = None.
Proof.
  unfold decoded, aborting.
  destruct (startswith (strip line) (lit "{")); [|reflexivity].
  destruct (json_loads (strip line)); intros H; try discriminate; reflexivity.
Qed.

(** The first line on which [json.loads] raises another exception ends the
    parse with it, when the lines before are passed over or processed. *)
Lemma run_lines_aborting (before after : list pystr) (line : pystr)
    (e : exn) (st st' : state) :
  run_lines json_loads py_repr self before st = Ok st' ->
  aborting json_loads line = Some e ->
  run_lines json_loads py_repr self (before ++ line :: after) st = Raise e.
Proof.
  revert st. induction before as [|l before IH]; intros st R A.
  - cbn in R |- *. rewrite process_line_decoded, A.
    assert (D : decoded json_loads line = None).
    { revert A. unfold decoded, aborting.
      destruct (startswith (strip line) (lit "{")); [|reflexivity].
      destruct (json_loads (strip line)); intros A; try discriminate;
        reflexivity. }
    rewrite D. reflexivity.
  - cbn in R |- *.
    destruct (process_line json_loads py_repr self l st); cbn in *;
      [apply IH; assumption | discriminate].
Qed.

End Lines.

Lemma pystr_eqb_refl (s : pystr) : pystr_eqb s s = true.
Proof.
  induction s as [|c s IH]; [reflexivity|].
  cbn. now rewrite N.eqb_refl, IH.
Qed.

Lemma pystr_eqb_false (s t : pystr) : pystr_eqb s t = false -> s <> t.
Proof. intros E ->. now rewrite pystr_eqb_refl in E. Qed.

(** A line without white space at its ends is its own [strip]. *)
Lemma strip_bare (c d : N) (body : pystr) :
  isspace c = false -> isspace d = false ->
  strip (c :: body ++ [d]) = c :: body ++ [d].
Proof.
  intros C D. unfold strip, rstrip. cbn [lstrip]. rewrite C.
  change (c :: body ++ [d]) with ((c :: body) ++ [d]).
  rewrite rev_app_distr. cbn [rev app lstrip]. rewrite D.
  change (d :: rev body ++ [c]) with ([d] ++ rev (c :: body)).
  rewrite rev_app_distr, rev_involutive. reflexivity.
Qed.

Lemma line_huge_int_bare :
  line_huge_int
  = 123%N :: (tl (json_text "{'progress': [") ++ repeat 49%N 4301 ++ [93%N])
             ++ [125%N].
Proof. vm_compute. reflexivity. Qed.

Lemma strip_line_huge_int : strip line_huge_int = line_huge_int.
Proof.
  rewrite line_huge_int_bare. apply strip_bare; reflexivity.
Qed.

Lemma sample_loads_line_huge_int :
  sample_loads line_huge_int = OtherError ValueError.
Proof.
  unfold sample_loads.
  replace (sample_loads_in sample_lines line_huge_int) with (@None pyval)
    by (vm_compute; reflexivity).
  rewrite pystr_eqb_refl. reflexivity.
Qed.

Lemma aborting_line_huge_int :
  aborting sample_loads line_huge_int = Some ValueError.
Proof.
  unfold aborting.
  rewrite strip_line_huge_int, sample_loads_line_huge_int. reflexivity.
Qed.

(** C6, as stated, fails: [line_huge_int] begins with a brace and fails JSON
    decoding, [json.loads] raising [ValueError] on its int of 4301 digits,
    which is no [JSONDecodeError]; inserted after [line_B], it ends the
    parse with that exception, and no curve is returned. *)
Lemma undecodable_line_aborts :
  startswith (strip line_huge_int) (lit "{") = true
  /\ sample_loads (strip line_huge_int) = OtherError ValueError
  /\ decoded sample_loads line_huge_int = None
  /\ parse_status_file sample_loads sample_repr default_parser
       (Text [line_B])
     = Ok ([[PInt 0; PInt 10]], [[PInt 0; PFloat 2]],
           [(lit "unknown/dict1", PNone)])
  /\ parse_status_file sample_loads sample_repr default_parser
       (Text [line_B; line_huge_int])
     = Raise ValueError
  /\ parse_status_file sample_loads sample_repr default_parser
       (Text [line_B; line_huge_int])
     <> parse_status_file sample_loads sample_repr default_parser
          (Text [line_B]).
Proof.
  assert (R : run_lines sample_loads sample_repr default_parser [line_B] init
              = Ok {| curves_x := [[PInt 0; PInt 10]];
                      curves_y := [[PInt 0; PFloat 2]];
                      label_list := [(lit "unknown/dict1", PNone)];
                      guesses := PInt 10;
                      current_identifier := Some (lit "unknown/dict1", PNone);
                      elapsed_seconds := PInt 1 |})
    by (vm_compute; reflexivity).
  assert (A : parse_status_file sample_loads sample_repr default_parser
                (Text [line_B; line_huge_int]) = Raise ValueError).
  { cbn [parse_status_file].
    change [line_B; line_huge_int] with ([line_B] ++ [line_huge_int]).
    rewrite (run_lines_aborting sample_loads sample_repr default_parser
               [line_B] [] line_huge_int ValueError init _ R
               aborting_line_huge_int).
    reflexivity. }
  assert (B : parse_status_file sample_loads sample_repr default_parser
                (Text [line_B])
              = Ok ([[PInt 0; PInt 10]], [[PInt 0; PFloat 2]],
                    [(lit "unknown/dict1", PNone)])).
  { cbn [parse_status_file]. rewrite R. reflexivity. }
  split; [rewrite strip_line_huge_int; reflexivity|].
  split; [rewrite strip_line_huge_int; exact sample_loads_line_huge_int|].
  split.
  { unfold decoded.
    rewrite strip_line_huge_int, sample_loads_line_huge_int.
    reflexivity. }
  split; [exact B|]. split; [exact A|].
  rewrite A, B. discriminate.
Qed.

(** C6, amended. Lines that the loop passes over (the stripped line does
    not begin with a brace, or [json.loads] raises [JSONDecodeError] on it)
    can be inserted anywhere: the parse of the augmented file is the parse
    of the original one, and the loop ends in the same state, with the same
    [guesses] and [elapsed_seconds]. *)
Theorem malformed_lines_ignored
    (json_loads : pystr -> decoding) (py_repr : pyval -> result pystr)
    (self : HashcatStatusParser) (original augmented : list pystr) :
  inserted json_loads original augmented ->
  parse_status_file json_loads py_repr self (Text augmented)
  = parse_status_file json_loads py_repr self (Text original)
  /\ run_lines json_loads py_repr self augmented init
     = run_lines json_loads py_repr self original init.
Proof.
  intros I.
  pose proof (run_lines_inserted json_loads py_repr self _ _ I init) as R.
  split; [|exact R]. cbn. rewrite R. reflexivity.
Qed.

Lemma malformed_lines_ignored_witness :
  parse_status_file sample_loads sample_repr default_parser
    (Text [line_banner; line_best64;
           line_blank; line_single_quotes; line_dive;
           line_partial])
  = parse_status_file sample_loads sample_repr default_parser
      (Text [line_best64; line_dive])
  /\ run_lines sample_loads sample_repr default_parser
       [line_banner; line_best64;
        line_blank; line_single_quotes; line_dive;
        line_partial] init
     = run_lines sample_loads sample_repr default_parser
         [line_best64; line_dive] init.
Proof.
  apply malformed_lines_ignored.
  apply inserted_skip; [reflexivity|].
  apply inserted_keep.
  apply inserted_skip; [reflexivity|].
  apply inserted_skip; [reflexivity|].
  apply inserted_keep.
  apply inserted_skip; [reflexivity|].
  apply inserted_nil.
Defined.

(** ** Downsampling *)

Lemma nth_error_slice_from {A : Type} (step : nat) (l : list A) :
  (1 <= step)%nat ->
  forall skip i,
    nth_error (slice_from skip step l) i = nth_error l (skip + i * step).
Proof.
  intros S1. induction l as [|a l IH]; intros skip i.
  - cbn. now destruct i, (skip + _)%nat.
  - destruct skip as [|s]; cbn [slice_from].
    + destruct i as [|j]; [reflexivity|].
      cbn [nth_error]. rewrite IH.
      replace (0 + S j * step)%nat with (S (Nat.pred step + j * step)) by lia.
      reflexivity.
    + rewrite IH. reflexivity.
Qed.

Lemma py_last_nonempty {A : Type} (a : A) (l : list A) :
  exists b, py_last (a :: l) = Ok b.
Proof.
  destruct (exists_last (l := a :: l)) as (l' & b & E); [discriminate|].
  exists b. rewrite E. apply py_last_snoc.
Qed.

Lemma py_last_cons_ok {A : Type} (a b : A) (l : list A) :
  py_last l = Ok b -> py_last (a :: l) = Ok b.
Proof.
  intros H. apply py_last_inv in H as [l' ->].
  change (a :: l' ++ [b]) with ((a :: l') ++ [b]). apply py_last_snoc.
Qed.

Lemma py_last_slice_from {A : Type} (step : nat) (l : list A) :
  (1 <= step)%nat ->
  forall skip q,
    List.length l = S (skip + q * step) ->
    py_last (slice_from skip step l) = py_last l.
Proof.
  intros S1. induction l as [|a l IH]; intros skip q L; [discriminate|].
  cbn in L. injection L as L.
  destruct skip as [|s]; cbn [slice_from].
  - destruct l as [|b l]; [reflexivity|].
    destruct q as [|q]; [discriminate|].
    destruct (py_last_nonempty b l) as [c C].
    rewrite (py_last_cons a b l), C.
    apply py_last_cons_ok. rewrite <- C.
    apply (IH (Nat.pred step) q). cbn in *. lia.
  - destruct l as [|b l]; [discriminate|].
    rewrite (py_last_cons a b l). apply (IH s q). cbn in *. lia.
Qed.

Lemma py_last_slice_step {A : Type} (l : list A) :
  (1 <= List.length l)%nat ->
  ((List.length l - 1) mod 60 = 0)%nat ->
  py_last (slice_step 60 l) = py_last l.
Proof.
  intros L M. unfold slice_step.
  apply (py_last_slice_from 60 l) with (q := ((List.length l - 1) / 60)%nat);
    [lia|].
  pose proof (Nat.div_mod_eq (List.length l - 1) 60). lia.
Qed.

(** The k-th x curve and the k-th y curve that [parse_status_file] returns
    have the same number of points, which is what the downsampling relies on
    when it tests the length of the x curve alone. *)
Lemma returned_curves_same_points
    (json_loads : pystr -> decoding) (py_repr : pyval -> result pystr)
    (self : HashcatStatusParser) (file : text_file)
    (cx cy : list (list pyval)) (labels : list key)
    (k : nat) (xs ys : list pyval) :
  parse_status_file json_loads py_repr self file = Ok (cx, cy, labels) ->
  nth_error cx k = Some xs -> nth_error cy k = Some ys ->
  List.length xs = List.length ys.
Proof.
  intros H X Y.
  apply parse_status_file_well_formed in H as (st & W & R).
  injection R as <- <- <-. destruct W as [_ _ Wp _ _ _ _].
  apply (map_nth_error (@List.length pyval)) in X, Y.
  rewrite Wp in X. congruence.
Qed.

(** C7. A curve of more than 1000 points is replaced by its points at the
    indices 0, 60, 120, ..., followed by its last point when the last index
    is not a multiple of 60; either way the last point after downsampling is
    the last point before it.  A curve of at most 1000 points is left
    unchanged. *)
Theorem downsample_keeps_endpoint (xs ys : list pyval) :
  List.length xs = List.length ys ->
  ((List.length xs <= 1000)%nat -> downsample xs ys = Ok (xs, ys))
  /\ ((1000 < List.length xs)%nat ->
      exists lx ly xs' ys',
        downsample xs ys = Ok (xs', ys')
        /\ py_last xs = Ok lx /\ py_last ys = Ok ly
        /\ py_last xs' = Ok lx /\ py_last ys' = Ok ly
        /\ xs' = slice_step 60 xs
                 ++ (if ((List.length xs - 1) mod 60 =? 0)%nat then []
                     else [lx])
        /\ ys' = slice_step 60 ys
                 ++ (if ((List.length xs - 1) mod 60 =? 0)%nat then []
                     else [ly])
        /\ (forall i, nth_error (slice_step 60 xs) i = nth_error xs (i * 60))
        /\ (forall i, nth_error (slice_step 60 ys) i = nth_error ys (i * 60))).
Proof.
  intros L. split; intros N; unfold downsample.
  - destruct (Nat.ltb_spec 1000 (List.length xs)); [lia | reflexivity].
  - destruct (Nat.ltb_spec 1000 (List.length xs)); [|lia].
    destruct xs as [|x xs]; [cbn in N; lia|].
    destruct ys as [|y ys]; [discriminate|].
    destruct (py_last_nonempty x xs) as [lx Lx].
    destruct (py_last_nonempty y ys) as [ly Ly].
    exists lx, ly. rewrite Lx, Ly. cbn [bind].
    destruct (Nat.eqb_spec ((List.length (x :: xs) - 1) mod 60) 0) as [M|M];
      cbn [negb];
      eexists; eexists; (split; [reflexivity|]);
      (split; [reflexivity|]); (split; [reflexivity|]).
    + rewrite !app_nil_r. repeat split.
      * rewrite <- Lx. apply py_last_slice_step; [cbn; lia | exact M].
      * rewrite <- Ly. apply py_last_slice_step; [cbn; lia|].
        rewrite <- L. exact M.
      * intros i. apply (nth_error_slice_from 60 (x :: xs)). lia.
      * intros i. apply (nth_error_slice_from 60 (y :: ys)). lia.
    + repeat split.
      * apply py_last_snoc.
      * apply py_last_snoc.
      * intros i. apply (nth_error_slice_from 60 (x :: xs)). lia.
      * intros i. apply (nth_error_slice_from 60 (y :: ys)). lia.
Qed.

Lemma downsample_keeps_endpoint_witness :
  exists lx ly xs' ys',
    downsample long_curve long_curve = Ok (xs', ys')
    /\ py_last long_curve = Ok lx /\ py_last long_curve = Ok ly
    /\ py_last xs' = Ok lx /\ py_last ys' = Ok ly
    /\ xs' = slice_step 60 long_curve
             ++ (if ((List.length long_curve - 1) mod 60 =? 0)%nat then []
                 else [lx])
    /\ ys' = slice_step 60 long_curve
             ++ (if ((List.length long_curve - 1) mod 60 =? 0)%nat then []
                 else [ly])
    /\ (forall i,
           nth_error (slice_step 60 long_curve) i
           = nth_error long_curve (i * 60))
    /\ (forall i,
           nth_error (slice_step 60 long_curve) i
           = nth_error long_curve (i * 60)).
Proof.
  apply (proj2 (downsample_keeps_endpoint long_curve long_curve eq_refl)).
  unfold long_curve. rewrite length_map, length_seq. lia.
Defined.

(** ** Scenario B *)

(** C4. Three records with [guess_base = "dict1"], [progress = [10]] and
    [recovered_hashes = [2, 100]], parsed with the x axis in guesses and the
    y axis in percentage, give one curve and one label; the curve's x values
    are [0, 10, 20, 30] and its y values [0, 2.0, 2.0, 2.0]. *)
Theorem scenario_B
    (json_loads : pystr -> decoding) (py_repr : pyval -> result pystr)
    (tick : Z) (l1 l2 l3 : pystr) :
  decoded json_loads l1 = Some record_B ->
  decoded json_loads l2 = Some record_B ->
  decoded json_loads l3 = Some record_B ->
  parse_status_file json_loads py_repr
    {| x_axis_type := lit "guesses"; y_axis_type := lit "percentage";
       status_timer := PInt tick |}
    (Text [l1; l2; l3])
  = Ok ([[PInt 0; PInt 10; PInt 20; PInt 30]],
        [[PInt 0; PFloat 2; PFloat 2; PFloat 2]],
        [(lit "unknown/dict1", PNone)]).
Proof.
  intros D1 D2 D3. cbn [parse_status_file].
  rewrite run_lines_caught
    by (repeat constructor; eapply decoded_not_aborting; eassumption).
  cbn [records]. rewrite D1, D2, D3.
  vm_compute. reflexivity.
Qed.

Lemma scenario_B_witness :
  parse_status_file sample_loads sample_repr default_parser
    (Text [line_B; line_B; line_B])
  = Ok ([[PInt 0; PInt 10; PInt 20; PInt 30]],
        [[PInt 0; PFloat 2; PFloat 2; PFloat 2]],
        [(lit "unknown/dict1", PNone)]).
Proof.
  apply (scenario_B sample_loads sample_repr 1 line_B line_B line_B);
    reflexivity.
Defined.

(** ** A change of phase *)

(** C1, as stated, fails: after [line_best64], the record of [line_dive]
    changes the phase, the previous curve keeps its two points and the new
    curve begins at the previous curve's last point (10, 2.0), not at the
    new point (20, 4.0). *)
Lemma phase_change_leaves_previous_curve :
  run_lines sample_loads sample_repr default_parser [line_best64] init
  = Ok state_after_best64
  /\ current_identifier state_after_best64
     = Some (lit "1700000000/rockyou.txt", str "rules/best64.rule")
  /\ record_key sample_repr record_dive
     = Ok (lit "1700000000/rockyou.txt", str "rules/dive.rule")
  /\ key_differs (lit "1700000000/rockyou.txt", str "rules/dive.rule")
       (current_identifier state_after_best64) = true
  /\ record_point default_parser record_dive state_after_best64
     = Ok (PInt 20, PInt 20, PFloat 4)
  /\ process_record sample_repr default_parser record_dive state_after_best64
     = Ok state_after_dive
  /\ ~ closes_previous_curve (PInt 20) (PFloat 4)
         state_after_best64 state_after_dive.
Proof.
  repeat (apply conj; [vm_compute; reflexivity|]).
  intros (bx & px & by_ & py & rx & ry & Hx & Hy & Hx' & Hy').
  cbn in Hx, Hx'.
  change [[PInt 0; PInt 10]] with ([] ++ [[PInt 0; PInt 10]]) in Hx.
  apply app_inj_tail in Hx as [<- <-]. cbn in Hx'. discriminate.
Qed.

(** C1, amended. When the key of a processed record differs from the current
    one and a record was processed before, the curves built so far are left
    as they are and a new curve of two points is added: the last point of
    the previous curve, then the new [(x, y)]; the key becomes the current
    one and is added to the labels. *)
Theorem phase_change_opens_stitched_curve
    (py_repr : pyval -> result pystr) (self : HashcatStatusParser)
    (data : pyval) (st st' : state) (cur k : key) (g x y : pyval) :
  current_identifier st = Some cur ->
  record_key py_repr data = Ok k ->
  key_eq k cur = false ->
  record_point self data st = Ok (g, x, y) ->
  process_record py_repr self data st = Ok st' ->
  exists bx cx px by_ cy py,
    curves_x st = bx ++ [cx ++ [px]]
    /\ curves_y st = by_ ++ [cy ++ [py]]
    /\ curves_x st' = curves_x st ++ [[px; x]]
    /\ curves_y st' = curves_y st ++ [[py; y]]
    /\ label_list st' = label_list st ++ [k]
    /\ current_identifier st' = Some k.
Proof.
  intros C K D P H.
  apply process_record_placed in H as (g' & x' & y' & k' & P' & K' & Pl).
  rewrite P in P'. injection P' as <- <- <-.
  rewrite K in K'. injection K' as <-.
  destruct Pl as
    [C' Ex Ey El Ec
    | cur' bx by_ cx cy px py C' K' Hx Hy Ex Ey El Ec
    | cur' bx by_ cx cy C' K' Hx Hy Ex Ey El Ec].
  - congruence.
  - exists bx, cx, px, by_, cy, py. repeat split; assumption.
  - congruence.
Qed.

Lemma phase_change_opens_stitched_curve_witness :
  exists bx cx px by_ cy py,
    curves_x state_after_best64 = bx ++ [cx ++ [px]]
    /\ curves_y state_after_best64 = by_ ++ [cy ++ [py]]
    /\ curves_x state_after_dive
       = curves_x state_after_best64 ++ [[px; PInt 20]]
    /\ curves_y state_after_dive
       = curves_y state_after_best64 ++ [[py; PFloat 4]]
    /\ label_list state_after_dive
       = label_list state_after_best64
         ++ [(lit "1700000000/rockyou.txt", str "rules/dive.rule")]
    /\ current_identifier state_after_dive
       = Some (lit "1700000000/rockyou.txt", str "rules/dive.rule").
Proof.
  apply (phase_change_opens_stitched_curve sample_repr default_parser
           record_dive state_after_best64 state_after_dive
           (lit "1700000000/rockyou.txt", str "rules/best64.rule")
           (lit "1700000000/rockyou.txt", str "rules/dive.rule")
           (PInt 20) (PInt 20) (PFloat 4));
    vm_compute; reflexivity.
Defined.

(** ** Curves and runs of keys *)

(** C2, as stated, fails: [line_best64] and [line_dive] have the same
    [time_start] and [guess_base] and differ in [guess_mod]; they are one run
    of the specification's phase identifier, and the parse returns two
    curves. *)
Lemma guess_mod_change_starts_curve :
  decoded sample_loads line_best64 = Some record_best64
  /\ decoded sample_loads line_dive = Some record_dive
  /\ spec_phase_identifier record_best64
     = Ok (PInt 1700000000, lit "rockyou.txt")
  /\ spec_phase_identifier record_dive
     = Ok (PInt 1700000000, lit "rockyou.txt")
  /\ parse_status_file sample_loads sample_repr default_parser
       (Text [line_best64; line_dive])
     = Ok ([[PInt 0; PInt 10]; [PInt 10; PInt 20]],
           [[PInt 0; PFloat 2]; [PFloat 2; PFloat 4]],
           [(lit "1700000000/rockyou.txt", str "rules/best64.rule");
            (lit "1700000000/rockyou.txt", str "rules/dive.rule")]).
Proof. repeat apply conj; vm_compute; reflexivity. Qed.

Lemma pystr_eqb_eq (s t : pystr) : pystr_eqb s t = true -> s = t.
Proof.
  revert t. induction s as [|a s IH]; intros [|b t] H; try discriminate.
  - reflexivity.
  - cbn in H. apply andb_prop in H as [Hab Hst].
    apply N.eqb_eq in Hab. subst b. f_equal. now apply IH.
Qed.

Lemma plain_key_eq (k c : key) :
  plain_key k = true -> plain_key c = true -> key_eq k c = true -> k = c.
Proof.
  destruct k as [s g], c as [t h]. unfold plain_key, key_eq. cbn.
  intros Pk Pc E. apply andb_prop in E as [Es Eg].
  apply pystr_eqb_eq in Es. subst t. f_equal.
  destruct g, h; try discriminate; try reflexivity.
  cbn in Eg. apply pystr_eqb_eq in Eg. now subst.
Qed.

Lemma count_runs_opened (c : key) (ks : list key) :
  forallb plain_key (c :: ks) = true ->
  count_runs (c :: ks) = S (opened (Some c) ks).
Proof.
  revert c. induction ks as [|k ks IH]; intros c P; [reflexivity|].
  cbn [forallb] in P. apply andb_prop in P as [Pc P].
  pose proof P as Pks. cbn [forallb] in P. apply andb_prop in P as [Pk P].
  change (count_runs (c :: k :: ks))
    with (if key_eq k c then count_runs (k :: ks) else S (count_runs (k :: ks))).
  rewrite (IH k Pks). cbn [opened key_differs].
  destruct (key_eq k c) eqn:E; cbn [negb]; [|reflexivity].
  now rewrite (plain_key_eq k c Pk Pc E).
Qed.

Lemma opened_count_runs (ks : list key) :
  forallb plain_key ks = true -> opened None ks = count_runs ks.
Proof.
  destruct ks as [|k ks]; intros P; [reflexivity|].
  rewrite (count_runs_opened k ks P). reflexivity.
Qed.

Lemma placed_opened (k : key) (x y : pyval) (st st' : state) (ks : list key) :
  placed k x y st st' ->
  (List.length (curves_x st') + opened (current_identifier st') ks
   = List.length (curves_x st) + opened (current_identifier st) (k :: ks))%nat.
Proof.
  intros [C Ex Ey El Ec
         | cur bx by_ cx cy px py C K Hx Hy Ex Ey El Ec
         | cur bx by_ cx cy C K Hx Hy Ex Ey El Ec];
    rewrite Ex, Ec, C; cbn [opened key_differs]; rewrite ?K; cbn [negb].
  - rewrite length_app. cbn. lia.
  - rewrite length_app. cbn. lia.
  - rewrite Hx, !length_app. cbn. lia.
Qed.

Lemma run_records_opened (py_repr : pyval -> result pystr)
    (self : HashcatStatusParser) (rs : list pyval) :
  forall st st',
    run_records py_repr self rs st = Ok st' ->
    exists ks,
      record_keys py_repr rs = Ok ks
      /\ List.length (curves_x st')
         = (List.length (curves_x st) + opened (current_identifier st) ks)%nat.
Proof.
  induction rs as [|data rest IH]; intros st st' H.
  - injection H as <-. exists []. split; [reflexivity | cbn; lia].
  - cbn in H. inv_bind H.
    destruct (IH a st' H) as (ks & Ks & L).
    apply process_record_placed in E as (g & x & y & k & _ & K & P).
    exists (k :: ks). cbn. rewrite K, Ks. cbn. split; [reflexivity|].
    pose proof (placed_opened k x y st a ks P). cbn in *. lia.
Qed.

(** The keys of the records exist when the parse returns. *)
Lemma parse_status_file_keys
    (json_loads : pystr -> decoding) (py_repr : pyval -> result pystr)
    (self : HashcatStatusParser) (lines : list pystr) (out : curves) :
  parse_status_file json_loads py_repr self (Text lines) = Ok out ->
  exists ks, record_keys py_repr (records json_loads lines) = Ok ks.
Proof.
  cbn. intros H. inv_bind H. apply run_lines_records in E.
  apply run_records_opened in E as (ks & Ks & _). now exists ks.
Qed.

(** C2, amended. The number of curves returned is the number of maximal runs
    of records with equal keys, where the key of a record is the pair of the
    string [time_start/guess_base] (with [guess_base] normalized) and
    [guess_mod], for records whose [guess_mod] is a string or [None]: a
    change of [guess_mod] alone starts a new curve. *)
Theorem curves_count_key_runs
    (json_loads : pystr -> decoding) (py_repr : pyval -> result pystr)
    (self : HashcatStatusParser) (lines : list pystr)
    (cx cy : list (list pyval)) (labels ks : list key) :
  parse_status_file json_loads py_repr self (Text lines)
  = Ok (cx, cy, labels) ->
  record_keys py_repr (records json_loads lines) = Ok ks ->
  forallb plain_key ks = true ->
  List.length cx = count_runs ks.
Proof.
  cbn. intros H Ks P. inv_bind H. injection H as <- <- <-.
  apply run_lines_records in E.
  apply run_records_opened in E as (ks' & Ks' & L).
  rewrite Ks in Ks'. injection Ks' as <-.
  rewrite L. cbn. now apply opened_count_runs.
Qed.

Lemma curves_count_key_runs_witness :
  List.length [[PInt 0; PInt 10; PInt 20]; [PInt 20; PInt 30];
               [PInt 30; PInt 40; PInt 50]]
  = count_runs [(lit "1700000000/rockyou.txt", str "rules/best64.rule");
                (lit "1700000000/rockyou.txt", str "rules/best64.rule");
                (lit "1700000000/rockyou.txt", str "rules/dive.rule");
                (lit "1700000060/potfile", PNone);
                (lit "1700000060/potfile", PNone)].
Proof.
  apply (curves_count_key_runs sample_loads sample_repr default_parser
           [line_best64; line_best64; line_dive; line_potfile; line_potfile]
           [[PInt 0; PInt 10; PInt 20]; [PInt 20; PInt 30];
            [PInt 30; PInt 40; PInt 50]]
           [[PInt 0; PFloat 2; PFloat 2]; [PFloat 2; PFloat 4];
            [PFloat 4; PFloat 6; PFloat 6]]
           [(lit "1700000000/rockyou.txt", str "rules/best64.rule");
            (lit "1700000000/rockyou.txt", str "rules/dive.rule");
            (lit "1700000060/potfile", PNone)]);
    vm_compute; reflexivity.
Defined.

(** ** A total that is not positive *)

Lemma float_limit_pos : 0 < float_limit.
Proof. reflexivity. Qed.

Lemma float_of_int_1 : float_of_int 1 = Ok 1%float.
Proof. vm_compute. reflexivity. Qed.

Lemma float_of_int_100 : float_of_int 100 = Ok 100%float.
Proof. vm_compute. reflexivity. Qed.

Lemma py_mul_float_100 (f : float) :
  py_mul (PFloat f) (PInt 100) = Ok (PFloat (f * 100)%float).
Proof.
  unfold py_mul. cbn [as_num to_float bind].
  rewrite float_of_int_100. reflexivity.
Qed.

Lemma py_truediv_float_1 (f : float) :
  py_truediv (PFloat f) (PInt 1) = Ok (PFloat (f / 1)%float).
Proof.
  unfold py_truediv. cbn [as_num to_float bind].
  rewrite float_of_int_1. reflexivity.
Qed.

(** An int divided by a positive int is in range when the int is. *)
Lemma int_true_divide_in_range (z total : Z) :
  1 <= total -> Z.abs z < float_limit ->
  exists f, int_true_divide z total = Ok f.
Proof.
  intros T L. unfold int_true_divide.
  destruct (Z.eqb_spec total 0) as [E|_]; [lia|].
  destruct (Z.leb_spec (float_limit * Z.abs total) (Z.abs z)) as [O|_].
  - pose proof float_limit_pos. nia.
  - eexists. reflexivity.
Qed.

Lemma int_true_divide_1_not_zero_division (z : Z) :
  int_true_divide z 1 <> Raise ZeroDivisionError.
Proof.
  unfold int_true_divide. change (1 =? 0) with false. cbv iota.
  destruct (float_limit * Z.abs 1 <=? Z.abs z); discriminate.
Qed.

Lemma percentage_of_1_not_zero_division (c : pyval) :
  (q <- py_truediv c (PInt 1) ;; py_mul q (PInt 100))
  <> Raise ZeroDivisionError.
Proof.
  assert (I : forall z,
             (q <- (f <- int_true_divide z 1 ;; Ok (PFloat f)) ;;
              py_mul q (PInt 100)) <> Raise ZeroDivisionError).
  { intros z. pose proof (int_true_divide_1_not_zero_division z) as N.
    destruct (int_true_divide z 1) as [f|e]; cbn [bind].
    - rewrite py_mul_float_100. discriminate.
    - congruence. }
  destruct c as [|b|z|f|s|l|d].
  - discriminate.
  - exact (I (Z.b2z b)).
  - exact (I z).
  - rewrite py_truediv_float_1. cbn [bind].
    rewrite py_mul_float_100. discriminate.
  - discriminate.
  - discriminate.
  - discriminate.
Qed.

Lemma bind_no_zero_division {A B : Type} (r : result A) (k : A -> result B) :
  no_zero_division r ->
  (forall a, r = Ok a -> no_zero_division (k a)) ->
  no_zero_division (bind r k).
Proof.
  unfold no_zero_division. intros R K.
  destruct r as [a|e]; cbn; [now apply K | congruence].
Qed.

Lemma py_get_no_zero_division (obj : pyval) (k : string) (default : pyval) :
  no_zero_division (py_get obj k default).
Proof.
  unfold no_zero_division, py_get.
  destruct obj; try discriminate. destruct (dict_lookup _ _); discriminate.
Qed.

Lemma py_getitem_no_zero_division (obj : pyval) (i : nat) :
  no_zero_division (py_getitem obj i).
Proof.
  unfold no_zero_division, py_getitem.
  destruct obj; try discriminate; destruct (nth_error _ _); discriminate.
Qed.

Lemma to_float_no_zero_division (n : num) : no_zero_division (to_float n).
Proof.
  unfold no_zero_division. destruct n as [z|f]; cbn; [|discriminate].
  unfold float_of_int. destruct (float_limit <=? Z.abs z); discriminate.
Qed.

Lemma py_add_no_zero_division (a b : pyval) : no_zero_division (py_add a b).
Proof.
  assert (F : forall x y : num,
             no_zero_division
               (f <- to_float x ;; g <- to_float y ;;
                Ok (PFloat (f + g)%float))).
  { intros x y. apply bind_no_zero_division;
      [apply to_float_no_zero_division|].
    intros f _. apply bind_no_zero_division;
      [apply to_float_no_zero_division|].
    intros g _. discriminate. }
  unfold py_add.
  destruct (as_num a) as [[x|f]|] eqn:A, (as_num b) as [[y|g]|] eqn:B;
    try apply F; try discriminate;
    destruct a, b; discriminate.
Qed.

(** C8, as stated, fails: with [recovered_hashes = [2^53 + 1, 0]] the total
    is 1 and the percentage is the float 900719925474099200.0, which is not
    [c * 100 = 900719925474099300]. *)
Lemma large_count_is_rounded :
  decoded sample_loads
    line_large
  = Some record_large
  /\ recovered_pair record_large = Ok (PInt 9007199254740993, PInt 1)
  /\ record_point default_parser record_large init
     = Ok (PInt 0, PInt 0, PFloat 900719925474099200)
  /\ py_eq (PFloat 900719925474099200) (PInt (9007199254740993 * 100))
     = false
  /\ 9007199254740993 * 100 = 900719925474099300.
Proof. repeat apply conj; vm_compute; reflexivity. Qed.

(** C8, amended. For a record with [recovered_hashes = [c, t, ...]] where
    [t > 0] is false, the total is 1 and the percentage is the float
    [(c / 1) * 100]: no [ZeroDivisionError] is raised, an int [c] within the
    float range gives the float nearest to [c] times 100.0, and [[5, 0]]
    gives 500.0. *)
Theorem degenerate_total
    (self : HashcatStatusParser) (data c t : pyval) (rest : list pyval) :
  pystr_eqb (y_axis_type self) (lit "count") = false ->
  py_get data "recovered_hashes" (PList [PInt 0; PInt 0])
  = Ok (PList (c :: t :: rest)) ->
  py_gt0 t = Ok false ->
  recovered_pair data = Ok (c, PInt 1)
  /\ (forall st, record_point self data st <> Raise ZeroDivisionError)
  /\ (forall z, c = PInt z -> Z.abs z < float_limit ->
      exists f,
        int_true_divide z 1 = Ok f
        /\ y_value_of self c (PInt 1) = Ok (PFloat (f * 100)%float))
  /\ y_value_of self (PInt 5) (PInt 1) = Ok (PFloat 500).
Proof.
  intros M G T. repeat split.
  - unfold recovered_pair. rewrite G. cbn [bind py_getitem nth_error].
    rewrite T. reflexivity.
  - intros st. unfold record_point.
    apply bind_no_zero_division; [apply py_get_no_zero_division|].
    intros p _.
    apply bind_no_zero_division; [apply py_getitem_no_zero_division|].
    intros progress _.
    apply bind_no_zero_division; [apply py_add_no_zero_division|].
    intros g _.
    apply bind_no_zero_division.
    + unfold recovered_pair. rewrite G. cbn [bind py_getitem nth_error].
      rewrite T. discriminate.
    + intros ct R. unfold recovered_pair in R. rewrite G in R.
      cbn [bind py_getitem nth_error] in R. rewrite T in R.
      injection R as <-. cbn [fst snd].
      apply bind_no_zero_division; [|discriminate].
      unfold y_value_of. rewrite M.
      apply percentage_of_1_not_zero_division.
  - intros z -> L.
    destruct (int_true_divide_in_range z 1 ltac:(lia) L) as [f F].
    exists f. split; [exact F|].
    unfold y_value_of. rewrite M. unfold py_truediv. cbn [as_num].
    rewrite F. cbn [bind]. apply py_mul_float_100.
  - unfold y_value_of. rewrite M. vm_compute. reflexivity.
Qed.

Lemma degenerate_total_witness :
  recovered_pair record_5_0 = Ok (PInt 5, PInt 1)
  /\ y_value_of default_parser (PInt 5) (PInt 1) = Ok (PFloat 500).
Proof.
  destruct (degenerate_total default_parser record_5_0 (PInt 5) (PInt 0) [])
    as (R & _ & _ & Y); [reflexivity ..|].
  split; [exact R | exact Y].
Defined.

(** ** Records that are processed without an exception *)

(** C3, as stated, fails: a line that decodes to an object whose [progress]
    is the empty list, or whose [recovered_hashes] has one element, raises
    [IndexError], which the [except] clause does not catch. *)
Lemma misshaped_record_raises :
  decoded sample_loads line_empty_progress
  = Some record_empty_progress
  /\ parse_status_file sample_loads sample_repr default_parser
       (Text [line_B; line_empty_progress; line_B])
     = Raise IndexError
  /\ decoded sample_loads line_short_recovered
     = Some record_short_recovered
  /\ parse_status_file sample_loads sample_repr default_parser
       (Text [line_short_recovered])
     = Raise IndexError.
Proof. repeat apply conj; vm_compute; reflexivity. Qed.

Lemma shaped_progress_ok (d : list (pystr * pyval)) :
  shaped_progress d = true ->
  exists z,
    (p <- py_get (PDict d) "progress" (PList [PInt 0]) ;; py_getitem p 0)
    = Ok (PInt z).
Proof.
  unfold shaped_progress, py_get.
  destruct (dict_lookup (lit "progress") d) as [v|];
    [|intros _; eexists; reflexivity].
  destruct v as [| | | | |l|]; try discriminate.
  destruct l as [|x l]; try discriminate.
  destruct x; try discriminate.
  intros _. eexists. reflexivity.
Qed.

Lemma shaped_recovered_ok (d : list (pystr * pyval)) :
  shaped_recovered d = true ->
  exists c total,
    recovered_pair (PDict d) = Ok (PInt c, PInt total)
    /\ 1 <= total /\ Z.abs c < float_limit.
Proof.
  unfold shaped_recovered, recovered_pair, py_get.
  destruct (dict_lookup (lit "recovered_hashes") d) as [v|].
  - destruct v as [| | | | |l|]; try discriminate.
    destruct l as [|x l]; try discriminate.
    destruct x as [| |c| | | |]; try discriminate.
    destruct l as [|y l]; try discriminate.
    destruct y as [| |t| | | |]; try discriminate.
    intros B. apply Z.ltb_lt in B.
    cbn [bind py_getitem nth_error py_gt0 as_num].
    destruct (Z.ltb_spec 0 t); cbn [bind py_getitem nth_error].
    + exists c, t. split; [reflexivity | split; [lia | exact B]].
    + exists c, 1. split; [reflexivity | split; [lia | exact B]].
  - intros _. exists 0, 1.
    split; [reflexivity | split; [lia | exact float_limit_pos]].
Qed.

Lemma y_value_of_ok (self : HashcatStatusParser) (c total : Z) :
  1 <= total -> Z.abs c < float_limit ->
  exists y, y_value_of self (PInt c) (PInt total) = Ok y.
Proof.
  intros T L. unfold y_value_of.
  destruct (pystr_eqb (y_axis_type self) (lit "count")); [eauto|].
  destruct (int_true_divide_in_range c total T L) as [f F].
  unfold py_truediv. cbn [as_num]. rewrite F. cbn [bind].
  rewrite py_mul_float_100. eauto.
Qed.

(** A [time_start] that is absent, a string, an int, a bool or [None] is
    printed without [py_repr]. *)
Lemma shaped_time_start_ok (py_repr : pyval -> result pystr)
    (d : list (pystr * pyval)) :
  shaped_time_start d = true ->
  exists time_start printed,
    py_get (PDict d) "time_start" (PStr (lit "unknown")) = Ok time_start
    /\ py_str py_repr time_start = Ok printed.
Proof.
  unfold shaped_time_start, py_get.
  destruct (dict_lookup (lit "time_start") d) as [v|];
    [|intros _; eexists; eexists; split; reflexivity].
  destruct v as [|b| | | | |]; try discriminate; intros _;
    try destruct b; eexists; eexists; split; reflexivity.
Qed.

Lemma shaped_guess_ok (py_repr : pyval -> result pystr)
    (d : list (pystr * pyval)) :
  shaped_guess d = true -> shaped_time_start d = true ->
  exists k, record_key py_repr (PDict d) = Ok k.
Proof.
  intros G T.
  destruct (shaped_time_start_ok py_repr d T) as (ts & printed & Gt & P).
  revert G. unfold shaped_guess, record_key.
  unfold py_get at 1 2 3 4.
  destruct (dict_lookup (lit "guess") d) as [v|].
  - destruct v as [| | | | | |g]; try discriminate. cbn [bind].
    destruct (dict_lookup (lit "guess_base") g) as [b|].
    + destruct b; try discriminate. intros _. cbn [bind normalize_base].
      rewrite Gt. cbn [bind]. rewrite P.
      destruct (dict_lookup (lit "guess_mod") g); eexists; reflexivity.
    + intros _. cbn [bind normalize_base].
      rewrite Gt. cbn [bind]. rewrite P.
      destruct (dict_lookup (lit "guess_mod") g); eexists; reflexivity.
  - intros _. cbn [bind normalize_base dict_lookup].
    rewrite Gt. cbn [bind]. rewrite P. eexists; reflexivity.
Qed.

Lemma well_formed_last (st : state) (cur : key) :
  well_formed st -> current_identifier st = Some cur ->
  exists bx cx px by_ cy py,
    curves_x st = bx ++ [cx ++ [px]] /\ curves_y st = by_ ++ [cy ++ [py]].
Proof.
  intros [_ _ Wp Wt _ _ Wc] C.
  assert (N : curves_x st <> []) by (apply Wc; congruence).
  destruct (exists_last N) as (bx & c & Ex).
  rewrite Ex in Wt, Wp. apply Forall_app in Wt as [_ Tc].
  inversion Tc as [|? ? T2 _]; subst.
  destruct (exists_last (nonempty_of_two c T2)) as (cx & px & Ec).
  destruct (curves_y st) as [|y0 ys] eqn:Ey.
  { rewrite map_app in Wp. cbn in Wp. now destruct (map _ bx). }
  destruct (exists_last (l := y0 :: ys)) as (by_ & c' & Ey');
    [discriminate|].
  rewrite Ey', !map_app in Wp. cbn in Wp.
  apply app_inj_tail in Wp as [_ Lc].
  assert (N' : c' <> []) by (apply nonempty_of_two; lia).
  destruct (exists_last N') as (cy & py & Ec').
  exists bx, cx, px, by_, cy, py. rewrite Ex, Ey', Ec, Ec'. split; reflexivity.
Qed.

Lemma place_point_ok (k : key) (x y : pyval) (st : state) :
  well_formed st -> exists st', place_point k x y st = Ok st'.
Proof.
  intros W. unfold place_point.
  destruct (current_identifier st) as [cur|] eqn:C; cbn [key_differs].
  - destruct (well_formed_last st cur W C)
      as (bx & cx & px & by_ & cy & py & Ex & Ey).
    rewrite Ex, Ey.
    destruct (negb (key_eq k cur)).
    + rewrite !stitched_snoc. cbn [bind]. eauto.
    + rewrite !append_to_last_snoc. cbn [bind]. eauto.
  - eauto.
Qed.

Section Totality.

Variable json_loads : pystr -> decoding.
Variable py_repr : pyval -> result pystr.
Variable self : HashcatStatusParser.
Variable tick : Z.
Hypothesis int_timer : status_timer self = PInt tick.

Lemma process_record_ok (data : pyval) (st : state) :
  shaped data = true -> steady st ->
  exists st', process_record py_repr self data st = Ok st' /\ steady st'.
Proof.
  intros S (W & [g G] & [e E]).
  destruct data as [| | | | | |d]; try discriminate.
  cbn [shaped] in S.
  apply andb_prop in S as [S St]. apply andb_prop in S as [S Sg].
  apply andb_prop in S as [Sp Sr].
  destruct (shaped_progress_ok d Sp) as [z P].
  destruct (shaped_recovered_ok d Sr) as (c & total & R & T & L).
  destruct (y_value_of_ok self c total T L) as [y Y].
  destruct (shaped_guess_ok py_repr d Sg St) as [k K].
  assert (RP : record_point self (PDict d) st
               = Ok (PInt (g + z),
                     (if pystr_eqb (x_axis_type self) (lit "time")
                      then elapsed_seconds st else PInt (g + z)), y)).
  { unfold record_point.
    destruct (py_get (PDict d) "progress" (PList [PInt 0])) as [p|] eqn:Gp;
      [|discriminate].
    cbn [bind] in P |- *. rewrite P. cbn [bind]. rewrite G.
    cbn [py_add as_num bind]. rewrite R. cbn [bind fst snd].
    rewrite Y. reflexivity. }
  destruct (place_point_ok k
              (if pystr_eqb (x_axis_type self) (lit "time")
               then elapsed_seconds st else PInt (g + z)) y
              (set_guesses (PInt (g + z)) st)) as [st1 P1].
  { destruct W as [We Wl Wp Wt Wx Wy Wc]. split; assumption. }
  destruct (place_point_placed _ _ _ _ _ P1) as (_ & G1 & E1).
  cbn in G1, E1.
  assert (PR : process_record py_repr self (PDict d) st
               = Ok (set_elapsed_seconds (PInt (e + tick)) st1)).
  { unfold process_record. rewrite RP. cbn [bind]. rewrite K. cbn [bind].
    rewrite P1. cbn [bind]. rewrite E1, E, int_timer. reflexivity. }
  exists (set_elapsed_seconds (PInt (e + tick)) st1).
  split; [exact PR|]. split; [|split].
  - apply (process_record_well_formed py_repr self (PDict d) st _ W PR).
  - exists (g + z). exact G1.
  - exists (e + tick). reflexivity.
Qed.

Lemma run_records_ok (rs : list pyval) :
  Forall (fun data => shaped data = true) rs ->
  forall st, steady st ->
    exists st', run_records py_repr self rs st = Ok st'.
Proof.
  induction 1 as [|data rest S _ IH]; intros st St; [cbn; eauto|].
  destruct (process_record_ok data st S St) as (st1 & P & St1).
  cbn. rewrite P. cbn [bind]. exact (IH st1 St1).
Qed.

End Totality.

Lemma steady_init : steady init.
Proof.
  split; [exact well_formed_init|]. split; [exists 0 | exists 0]; reflexivity.
Qed.

(** C3, amended. [parse_status_file] returns a triple of lists, without an
    exception, for every file that is missing, or that opens and is read to
    its end, when [status_timer] is an int, [json.loads] raises nothing but
    [JSONDecodeError] on the lines of the file, and each line that decodes
    is an object with the fields as hashcat prints them: [progress] a list
    that begins with an int, [recovered_hashes] a list that begins with two
    ints, the first within the float range, [guess] an object whose
    [guess_base] is a string, [time_start] a string, an int, a bool or
    [None], each of them possibly absent.  Lines that do not begin with a
    brace or on which [json.loads] raises [JSONDecodeError] are skipped, and
    a missing file gives the empty triple. *)
Theorem parse_status_file_returns
    (json_loads : pystr -> decoding) (py_repr : pyval -> result pystr)
    (self : HashcatStatusParser) (tick : Z) (file : text_file) :
  status_timer self = PInt tick ->
  readable file = true ->
  Forall (fun line => aborting json_loads line = None) (file_lines file) ->
  Forall (fun data => shaped data = true)
    (records json_loads (file_lines file)) ->
  exists cx cy labels,
    parse_status_file json_loads py_repr self file = Ok (cx, cy, labels)
    /\ (file = Missing -> (cx, cy, labels) = ([], [], []))
    /\ exists st,
         run_records py_repr self (records json_loads (file_lines file)) init
         = Ok st
         /\ (cx, cy, labels) = returned st.
Proof.
  intros T R A S.
  destruct (run_records_ok py_repr self tick T _ S init steady_init)
    as [st Rs].
  destruct file as [|e|lines e|lines]; try discriminate;
    cbn [parse_status_file file_lines] in *.
  - exists [], [], []. split; [reflexivity|]. split; [reflexivity|].
    exists init. split; reflexivity.
  - rewrite (run_lines_caught json_loads py_repr self lines init A), Rs.
    cbn [bind].
    exists (curves_x st), (curves_y st), (label_list st).
    split; [reflexivity|]. split; [discriminate|].
    exists st. split; reflexivity.
Qed.

Lemma parse_status_file_returns_witness :
  exists cx cy labels,
    parse_status_file sample_loads sample_repr default_parser sample_file
    = Ok (cx, cy, labels).
Proof.
  destruct (parse_status_file_returns sample_loads sample_repr default_parser
              1 sample_file) as (cx & cy & labels & P & _).
  - reflexivity.
  - reflexivity.
  - unfold sample_file, file_lines.
    repeat (constructor; [vm_compute; reflexivity|]). constructor.
  - assert (E : records sample_loads (file_lines sample_file)
                = [record_best64; record_best64;
                   record_dive; record_dive; record_dive])
      by (vm_compute; reflexivity).
    rewrite E. repeat (constructor; [vm_compute; reflexivity|]). constructor.
  - exists cx, cy, labels. exact P.
Defined.

(** ** Every record gives one point *)

Section Points.

Variable py_repr : pyval -> result pystr.
Variable self : HashcatStatusParser.

(** All that a processed record does. *)
Lemma process_record_inv (data : pyval) (st st' : state) :
  process_record py_repr self data st = Ok st' ->
  exists g x y k e',
    record_point self data st = Ok (g, x, y)
    /\ record_key py_repr data = Ok k
    /\ placed k x y st st'
    /\ guesses st' = g
    /\ py_add (elapsed_seconds st) (status_timer self) = Ok e'
    /\ elapsed_seconds st' = e'.
Proof.
  intros H. pose proof H as H0.
  apply process_record_placed in H0 as (g & x & y & k & RP & K & P).
  unfold process_record in H. rewrite RP in H. cbn [bind] in H.
  rewrite K in H. cbn [bind] in H.
  inv_bind H. inv_bind H. injection H as <-.
  apply place_point_placed in E as (_ & G & El). cbn in G, El.
  exists g, x, y, k, a0. rewrite El in E0. repeat split; auto.
Qed.

Lemma record_point_counters (data : pyval) (st : state) :
  record_point self data st
  = record_point self data (counters (guesses st) (elapsed_seconds st)).
Proof. reflexivity. Qed.

Lemma tl_snoc {A : Type} (c : list A) (a : A) :
  c <> [] -> tl (c ++ [a]) = tl c ++ [a].
Proof. destruct c; [contradiction | reflexivity]. Qed.

Lemma tails_snoc (cs : list (list pyval)) (c : list pyval) :
  List.concat (map (@tl pyval) (cs ++ [c])) = List.concat (map (@tl pyval) cs) ++ tl c.
Proof. rewrite map_app, concat_app. cbn. now rewrite app_nil_r. Qed.

Lemma placed_tails (k : key) (x y : pyval) (st st' : state) :
  well_formed st -> placed k x y st st' ->
  List.concat (map (@tl pyval) (curves_x st'))
  = List.concat (map (@tl pyval) (curves_x st)) ++ [x]
  /\ List.concat (map (@tl pyval) (curves_y st'))
     = List.concat (map (@tl pyval) (curves_y st)) ++ [y].
Proof.
  intros [_ _ Wp Wt _ _ _] P.
  destruct P as
    [C Ex Ey El Ec
    | cur bx by_ cx cy px py C K Hx Hy Ex Ey El Ec
    | cur bx by_ cx cy C K Hx Hy Ex Ey El Ec].
  - rewrite Ex, Ey, !tails_snoc. split; reflexivity.
  - rewrite Ex, Ey, !tails_snoc. split; reflexivity.
  - rewrite Hx, Hy, !map_app in Wp. cbn in Wp.
    apply app_inj_tail in Wp as [_ Lc].
    rewrite Hx in Wt. apply Forall_app in Wt as [_ Tc].
    inversion Tc as [|? ? T2 _]; subst.
    rewrite Ex, Ey, Hx, Hy, !tails_snoc.
    rewrite !tl_snoc by (apply nonempty_of_two; lia).
    rewrite !app_assoc. split; reflexivity.
Qed.

Lemma run_records_points (rs : list pyval) :
  forall st st',
    well_formed st -> run_records py_repr self rs st = Ok st' ->
    exists points,
      record_points self rs (guesses st) (elapsed_seconds st) = Ok points
      /\ List.concat (map (@tl pyval) (curves_x st'))
         = List.concat (map (@tl pyval) (curves_x st)) ++ map fst points
      /\ List.concat (map (@tl pyval) (curves_y st'))
         = List.concat (map (@tl pyval) (curves_y st)) ++ map snd points
      /\ List.length points = List.length rs.
Proof.
  induction rs as [|data rest IH]; intros st st' W H.
  - injection H as <-. exists []. cbn. rewrite !app_nil_r. auto.
  - cbn in H. inv_bind H. pose proof E as E0.
    apply process_record_inv in E0 as (g & x & y & k & e' & RP & _ & P & G & A & El).
    pose proof (process_record_well_formed py_repr self data st a W E) as W'.
    destruct (IH a st' W' H) as (points & RPs & Tx & Ty & L).
    destruct (placed_tails k x y st a W P) as [Px Py].
    exists ((x, y) :: points). cbn [record_points].
    rewrite <- record_point_counters, RP. cbn [bind]. rewrite A. cbn [bind].
    rewrite G, El in RPs. rewrite RPs. cbn [bind].
    rewrite Tx, Ty, Px, Py, <- !app_assoc. cbn. auto.
Qed.

End Points.

Lemma length_concat_tails (cs : list (list pyval)) :
  Forall (fun c => (2 <= List.length c)%nat) cs ->
  List.length (List.concat cs)
  = (List.length (List.concat (map (@tl pyval) cs)) + List.length cs)%nat.
Proof.
  induction 1 as [|c cs T _ IH]; [reflexivity|].
  cbn. rewrite !length_app, IH. destruct c; cbn in *; lia.
Qed.

(** The points of the records, found in the curves. *)
Lemma parse_record_points
    (json_loads : pystr -> decoding) (py_repr : pyval -> result pystr)
    (self : HashcatStatusParser) (lines : list pystr)
    (cx cy : list (list pyval)) (labels : list key) :
  parse_status_file json_loads py_repr self (Text lines)
  = Ok (cx, cy, labels) ->
  exists points,
    record_points self (records json_loads lines) (PInt 0) (PInt 0)
    = Ok points
    /\ List.concat (map (@tl pyval) cx) = map fst points
    /\ List.concat (map (@tl pyval) cy) = map snd points
    /\ List.length points = List.length (records json_loads lines).
Proof.
  intros H. cbn in H. inv_bind H. injection H as <- <- <-.
  apply run_lines_records in E.
  destruct (run_records_points py_repr self _ init a well_formed_init E)
    as (points & RP & Tx & Ty & L).
  exists points. auto.
Qed.

(** X1. Every record of the file gives exactly one point, in the order of the
    file: the curves returned, each without its first point, hold the
    [(x, y)] points of the records one after the other, so the number of
    points in the curves is the number of records plus the number of
    curves. *)
Theorem every_record_one_point
    (json_loads : pystr -> decoding) (py_repr : pyval -> result pystr)
    (self : HashcatStatusParser) (lines : list pystr)
    (cx cy : list (list pyval)) (labels : list key) :
  parse_status_file json_loads py_repr self (Text lines)
  = Ok (cx, cy, labels) ->
  exists points,
    record_points self (records json_loads lines) (PInt 0) (PInt 0)
    = Ok points
    /\ List.concat (map (@tl pyval) cx) = map fst points
    /\ List.concat (map (@tl pyval) cy) = map snd points
    /\ List.length (List.concat cx)
       = (List.length (records json_loads lines) + List.length cx)%nat
    /\ List.length (List.concat cy)
       = (List.length (records json_loads lines) + List.length cy)%nat.
Proof.
  intros H. pose proof H as H0.
  apply parse_status_file_well_formed in H0 as (st0 & W0 & R0).
  injection R0 as <- <- <-.
  destruct (parse_record_points _ _ _ _ _ _ _ H)
    as (points & RP & Tx & Ty & L).
  exists points. repeat split; auto.
  - rewrite length_concat_tails, Tx, length_map, L; [reflexivity|].
    apply W0.
  - rewrite length_concat_tails, Ty, length_map, L; [reflexivity|].
    destruct W0 as [_ _ Wp Wt _ _ _].
    exact (two_points_transfer _ _ Wp Wt).
Qed.

Lemma every_record_one_point_witness :
  exists points,
    record_points default_parser (records sample_loads (file_lines sample_file))
      (PInt 0) (PInt 0)
    = Ok points
    /\ List.concat (map (@tl pyval) (fst (fst sample_curves))) = map fst points
    /\ List.concat (map (@tl pyval) (snd (fst sample_curves))) = map snd points
    /\ List.length (List.concat (fst (fst sample_curves)))
       = (List.length (records sample_loads (file_lines sample_file))
          + List.length (fst (fst sample_curves)))%nat
    /\ List.length (List.concat (snd (fst sample_curves)))
       = (List.length (records sample_loads (file_lines sample_file))
          + List.length (snd (fst sample_curves)))%nat.
Proof.
  apply (every_record_one_point sample_loads sample_repr default_parser
           (file_lines sample_file) _ _ (snd sample_curves)).
  vm_compute. reflexivity.
Defined.

(** ** The labels *)

Lemma run_records_labels (py_repr : pyval -> result pystr)
    (self : HashcatStatusParser) (rs : list pyval) :
  forall st st' ks,
    run_records py_repr self rs st = Ok st' ->
    record_keys py_repr rs = Ok ks ->
    exists opened_keys,
      label_list st' = label_list st ++ opened_keys
      /\ incl opened_keys ks
      /\ (current_identifier st = None ->
          hd_error opened_keys = hd_error ks).
Proof.
  induction rs as [|data rest IH]; intros st st' ks H Ks.
  - injection H as <-. injection Ks as <-. exists [].
    rewrite app_nil_r. repeat split; auto. apply incl_nil_l.
  - cbn in H, Ks. inv_bind H. inv_bind Ks. inv_bind Ks. injection Ks as <-.
    apply process_record_placed in E as (g & x & y & k & _ & K & P).
    rewrite E0 in K. injection K as <-.
    destruct (IH a st' a1 H E1) as (more & L & I & _).
    destruct P as
      [C Ex Ey El Ec
      | cur bx by_ cx cy px py C K' Hx Hy Ex Ey El Ec
      | cur bx by_ cx cy C K' Hx Hy Ex Ey El Ec].
    + exists (a0 :: more). rewrite L, El, <- app_assoc.
      split; [reflexivity | split; [|reflexivity]].
      apply incl_cons; [now left | now apply incl_tl].
    + exists (a0 :: more). rewrite L, El, <- app_assoc.
      split; [reflexivity | split; [|congruence]].
      apply incl_cons; [now left | now apply incl_tl].
    + exists more. rewrite L, El.
      split; [reflexivity | split; [|congruence]].
      now apply incl_tl.
Qed.

Lemma placed_labelled (k : key) (x y : pyval) (st st' : state) :
  placed k x y st st' -> labelled st -> labelled st'.
Proof.
  intros P [Lc La].
  destruct P as
    [C Ex Ey El Ec
    | cur bx by_ cx cy px py C K Hx Hy Ex Ey El Ec
    | cur bx by_ cx cy C K Hx Hy Ex Ey El Ec];
    unfold labelled; rewrite Ec, El; rewrite C in Lc.
  - rewrite Lc. split; [now exists []|].
    intros [|i] l1 l2 H1 H2; [discriminate | now destruct i].
  - destruct Lc as [before Lb]. split; [eauto|].
    intros i l1 l2 H1 H2.
    apply nth_error_snoc in H2 as [[Li ->] | [Li H2]].
    + rewrite nth_error_app1 in H1 by lia.
      rewrite Lb, length_app in Li. cbn in Li.
      rewrite Lb, nth_error_app2 in H1 by lia.
      replace (i - List.length before)%nat with O in H1 by lia.
      injection H1 as <-. exact K.
    + rewrite nth_error_app1 in H1 by lia. exact (La i l1 l2 H1 H2).
  - split; [exact Lc | exact La].
Qed.

(** X2. The labels returned are keys of records of the file, the first label
    is the key of the first record, and two neighbouring labels are never
    equal keys. *)
Theorem labels_are_run_keys
    (json_loads : pystr -> decoding) (py_repr : pyval -> result pystr)
    (self : HashcatStatusParser) (lines : list pystr)
    (cx cy : list (list pyval)) (labels ks : list key) :
  parse_status_file json_loads py_repr self (Text lines)
  = Ok (cx, cy, labels) ->
  record_keys py_repr (records json_loads lines) = Ok ks ->
  incl labels ks
  /\ hd_error labels = hd_error ks
  /\ forall k l1 l2,
       nth_error labels k = Some l1 -> nth_error labels (S k) = Some l2 ->
       key_eq l2 l1 = false.
Proof.
  cbn. intros H Ks. inv_bind H. injection H as <- <- <-.
  assert (L : labelled a).
  { apply (run_lines_invariant json_loads py_repr self labelled)
      with (lines := lines) (st := init); [| |exact E].
    - intros data st st' Ls P.
      apply process_record_placed in P as (g & x & y & k & _ & _ & P).
      exact (placed_labelled k x y st st' P Ls).
    - split; [reflexivity|]. intros [|i] l1 l2 H1; discriminate. }
  apply run_lines_records in E.
  destruct (run_records_labels py_repr self _ init a ks E Ks)
    as (opened_keys & Lo & I & Hd).
  cbn in Lo. rewrite Lo. repeat split; auto.
  destruct L as [_ La]. rewrite Lo in La. exact La.
Qed.

Lemma labels_are_run_keys_witness :
  incl (snd sample_curves)
    [(lit "1700000000/rockyou.txt", str "rules/best64.rule");
     (lit "1700000000/rockyou.txt", str "rules/best64.rule");
     (lit "1700000000/rockyou.txt", str "rules/dive.rule");
     (lit "1700000000/rockyou.txt", str "rules/dive.rule");
     (lit "1700000000/rockyou.txt", str "rules/dive.rule")]
  /\ hd_error (snd sample_curves)
     = hd_error
         [(lit "1700000000/rockyou.txt", str "rules/best64.rule");
          (lit "1700000000/rockyou.txt", str "rules/best64.rule");
          (lit "1700000000/rockyou.txt", str "rules/dive.rule");
          (lit "1700000000/rockyou.txt", str "rules/dive.rule");
          (lit "1700000000/rockyou.txt", str "rules/dive.rule")]
  /\ forall k l1 l2,
       nth_error (snd sample_curves) k = Some l1 ->
       nth_error (snd sample_curves) (S k) = Some l2 ->
       key_eq l2 l1 = false.
Proof.
  apply (labels_are_run_keys sample_loads sample_repr default_parser
           (file_lines sample_file) (fst (fst sample_curves))
           (snd (fst sample_curves)));
    vm_compute; reflexivity.
Defined.

(** X3. The triple returned is empty exactly when no line of the file holds a
    record. *)
Theorem empty_without_records
    (json_loads : pystr -> decoding) (py_repr : pyval -> result pystr)
    (self : HashcatStatusParser) (lines : list pystr) (out : curves) :
  parse_status_file json_loads py_repr self (Text lines) = Ok out ->
  (out = ([], [], []) <-> records json_loads lines = []).
Proof.
  destruct out as [[cx cy] labels]. intros H. split.
  - intros E. injection E as -> -> ->.
    apply parse_record_points in H as (points & RP & Tx & _ & L).
    destruct points; [|discriminate].
    destruct (records json_loads lines); [reflexivity | discriminate].
  - intros R. cbn in H. inv_bind H. apply run_lines_records in E.
    rewrite R in E. cbn in E. injection E as <-.
    now injection H as <- <- <-.
Qed.

Lemma empty_without_records_witness :
  ([], [], []) = (([], [], []) : curves)
  <-> records sample_loads [line_banner; line_blank; line_partial] = [].
Proof.
  apply (empty_without_records sample_loads sample_repr default_parser
           [line_banner; line_blank; line_partial] ([], [], [])).
  reflexivity.
Defined.

(** ** The two axes *)

Section Axes.

Variable self : HashcatStatusParser.

(** What lines 52-69 computed when they did not raise. *)
Lemma record_point_inv (data : pyval) (st : state) (g x y : pyval) :
  record_point self data st = Ok (g, x, y) ->
  exists progress cracked total,
    progress_of data = Ok progress
    /\ py_add (guesses st) progress = Ok g
    /\ recovered_pair data = Ok (cracked, total)
    /\ cracked_of data = Ok cracked
    /\ x = (if pystr_eqb (x_axis_type self) (lit "time")
            then elapsed_seconds st else g)
    /\ y_value_of self cracked total = Ok y.
Proof.
  unfold record_point, progress_of. intros H.
  apply bind_ok in H as (p & Ep & H).
  apply bind_ok in H as (progress & Epr & H).
  apply bind_ok in H as (g' & Eg & H).
  apply bind_ok in H as ([cracked total] & Ect & H).
  apply bind_ok in H as (y' & Ey & H).
  injection H as <- <- <-. cbn [fst snd] in Ey.
  exists progress, cracked, total. rewrite Ep. cbn [bind].
  repeat split; auto.
  unfold recovered_pair in Ect. unfold cracked_of.
  apply bind_ok in Ect as (recovered & Er & Ect). rewrite Er. cbn [bind].
  apply bind_ok in Ect as (c & Ec & Ect).
  apply bind_ok in Ect as (r1 & _ & Ect).
  apply bind_ok in Ect as (positive & _ & Ect).
  apply bind_ok in Ect as (t & _ & Ect).
  injection Ect as <- _. exact Ec.
Qed.

Lemma record_points_running_sums (rs : list pyval) (ps : list Z) :
  pystr_eqb (x_axis_type self) (lit "time") = false ->
  Forall2 (fun data p => progress_of data = Ok (PInt p)) rs ps ->
  forall g e points,
    record_points self rs (PInt g) e = Ok points ->
    map fst points = map PInt (running_sums g ps).
Proof.
  intros M. induction 1 as [|data p rs ps P _ IH]; intros g e points H.
  - injection H as <-. reflexivity.
  - cbn [record_points] in H. inv_bind H. destruct a as [[g' x] y].
    inv_bind H. inv_bind H. injection H as <-.
    apply record_point_inv in E
      as (progress & cracked & total & Pr & A & _ & _ & X & _).
    rewrite P in Pr. injection Pr as <-. cbn in A. injection A as <-.
    rewrite M in X. subst x. cbn. f_equal. exact (IH _ _ _ E1).
Qed.

Lemma record_points_ticks (tick : Z) (rs : list pyval) :
  pystr_eqb (x_axis_type self) (lit "time") = true ->
  status_timer self = PInt tick ->
  forall g e points,
    record_points self rs g (PInt e) = Ok points ->
    map fst points
    = map (fun i => PInt (e + Z.of_nat i * tick)) (seq 0 (List.length rs)).
Proof.
  intros M T. induction rs as [|data rs IH]; intros g e points H.
  - injection H as <-. reflexivity.
  - cbn [record_points] in H. inv_bind H. destruct a as [[g' x] y].
    inv_bind H. inv_bind H. injection H as <-.
    apply record_point_inv in E as (_ & _ & _ & _ & _ & _ & _ & X & _).
    rewrite M in X. cbn in X. subst x.
    rewrite T in E0. cbn in E0. injection E0 as <-.
    cbn [List.length seq map fst]. f_equal.
    + f_equal. lia.
    + rewrite (IH _ _ _ E1), <- seq_shift, map_map.
      apply map_ext. intros i. f_equal. lia.
Qed.

Lemma record_points_cracked (rs : list pyval) :
  pystr_eqb (y_axis_type self) (lit "count") = true ->
  forall g e points,
    record_points self rs g e = Ok points ->
    Forall2 (fun data y => cracked_of data = Ok y) rs (map snd points).
Proof.
  intros M. induction rs as [|data rs IH]; intros g e points H.
  - injection H as <-. constructor.
  - cbn [record_points] in H. inv_bind H. destruct a as [[g' x] y].
    inv_bind H. inv_bind H. injection H as <-.
    apply record_point_inv in E
      as (progress & cracked & total & _ & _ & _ & C & _ & Y).
    unfold y_value_of in Y. rewrite M in Y. injection Y as <-.
    cbn. constructor; [exact C | exact (IH _ _ _ E1)].
Qed.

End Axes.

(** X4. On the guesses axis, when the first element of every record's
    [progress] is an int, the x value of the n-th record is the sum of these
    ints over the first n records. *)
Theorem guesses_axis_running_sums
    (json_loads : pystr -> decoding) (py_repr : pyval -> result pystr)
    (self : HashcatStatusParser) (lines : list pystr)
    (cx cy : list (list pyval)) (labels : list key) (ps : list Z) :
  pystr_eqb (x_axis_type self) (lit "time") = false ->
  parse_status_file json_loads py_repr self (Text lines)
  = Ok (cx, cy, labels) ->
  Forall2 (fun data p => progress_of data = Ok (PInt p))
    (records json_loads lines) ps ->
  List.concat (map (@tl pyval) cx) = map PInt (running_sums 0 ps).
Proof.
  intros M H P.
  apply parse_record_points in H as (points & RP & Tx & _).
  rewrite Tx. exact (record_points_running_sums self _ ps M P 0 _ _ RP).
Qed.

Lemma guesses_axis_running_sums_witness :
  List.concat (map (@tl pyval) (fst (fst sample_curves)))
  = map PInt (running_sums 0 [10; 10; 10; 10; 10]).
Proof.
  apply (guesses_axis_running_sums sample_loads sample_repr default_parser
           (file_lines sample_file) (fst (fst sample_curves))
           (snd (fst sample_curves)) (snd sample_curves));
    [reflexivity | vm_compute; reflexivity |].
  assert (E : records sample_loads (file_lines sample_file)
              = [record_best64; record_best64;
                 record_dive; record_dive; record_dive])
    by (vm_compute; reflexivity).
  rewrite E. repeat (constructor; [reflexivity|]). constructor.
Defined.

(** X5. On the time axis, with an int [status_timer], the x value of the
    record number [i] (from 0) is [i * status_timer], whatever the record
    holds. *)
Theorem time_axis_ticks
    (json_loads : pystr -> decoding) (py_repr : pyval -> result pystr)
    (self : HashcatStatusParser) (tick : Z) (lines : list pystr)
    (cx cy : list (list pyval)) (labels : list key) :
  pystr_eqb (x_axis_type self) (lit "time") = true ->
  status_timer self = PInt tick ->
  parse_status_file json_loads py_repr self (Text lines)
  = Ok (cx, cy, labels) ->
  List.concat (map (@tl pyval) cx)
  = map (fun i => PInt (Z.of_nat i * tick))
      (seq 0 (List.length (records json_loads lines))).
Proof.
  intros M T H.
  apply parse_record_points in H as (points & RP & Tx & _).
  rewrite Tx, (record_points_ticks self tick _ M T _ 0 _ RP).
  apply map_ext. intros i. reflexivity.
Qed.

Lemma time_axis_ticks_witness :
  List.concat (map (@tl pyval) [[PInt 0; PInt 0; PInt 5]; [PInt 5; PInt 10]])
  = map (fun i => PInt (Z.of_nat i * 5))
      (seq 0 (List.length (records sample_loads
                [line_best64; line_banner; line_best64; line_dive]))).
Proof.
  apply (time_axis_ticks sample_loads sample_repr
           {| x_axis_type := lit "time"; y_axis_type := lit "count";
              status_timer := PInt 5 |} 5
           [line_best64; line_banner; line_best64; line_dive]
           [[PInt 0; PInt 0; PInt 5]; [PInt 5; PInt 10]]
           [[PInt 0; PInt 2; PInt 2]; [PInt 2; PInt 4]]
           [(lit "1700000000/rockyou.txt", str "rules/best64.rule");
            (lit "1700000000/rockyou.txt", str "rules/dive.rule")]);
    [reflexivity | reflexivity | vm_compute; reflexivity].
Defined.

(** X6. In count mode the y values are the first elements of the records'
    [recovered_hashes], as they are: no division is made. *)
Theorem count_axis_cracked
    (json_loads : pystr -> decoding) (py_repr : pyval -> result pystr)
    (self : HashcatStatusParser) (lines : list pystr)
    (cx cy : list (list pyval)) (labels : list key) :
  pystr_eqb (y_axis_type self) (lit "count") = true ->
  parse_status_file json_loads py_repr self (Text lines)
  = Ok (cx, cy, labels) ->
  Forall2 (fun data y => cracked_of data = Ok y)
    (records json_loads lines) (List.concat (map (@tl pyval) cy)).
Proof.
  intros M H.
  apply parse_record_points in H as (points & RP & _ & Ty & _).
  rewrite Ty. exact (record_points_cracked self _ M _ _ _ RP).
Qed.

Lemma count_axis_cracked_witness :
  Forall2 (fun data y => cracked_of data = Ok y)
    (records sample_loads [line_best64; line_banner; line_best64; line_dive])
    (List.concat (map (@tl pyval) [[PInt 0; PInt 2; PInt 2]; [PInt 2; PInt 4]])).
Proof.
  apply (count_axis_cracked sample_loads sample_repr
           {| x_axis_type := lit "time"; y_axis_type := lit "count";
              status_timer := PInt 5 |}
           [line_best64; line_banner; line_best64; line_dive]
           [[PInt 0; PInt 0; PInt 5]; [PInt 5; PInt 10]]
           [[PInt 0; PInt 2; PInt 2]; [PInt 2; PInt 4]]
           [(lit "1700000000/rockyou.txt", str "rules/best64.rule");
            (lit "1700000000/rockyou.txt", str "rules/dive.rule")]);
    [reflexivity | vm_compute; reflexivity].
Defined.

(** ** The guesses never go back *)

Lemma sorted_snoc (l : list Z) (z : Z) :
  StronglySorted Z.le l -> Forall (fun a => a <= z) l ->
  StronglySorted Z.le (l ++ [z]).
Proof.
  induction 1 as [|a l S IH F]; intros B; cbn.
  - repeat constructor.
  - inversion B as [|? ? Ba Bl]; subst. constructor; [now apply IH|].
    apply Forall_app. split; [exact F | now repeat constructor].
Qed.

Lemma sorted_last (l : list Z) (z : Z) :
  StronglySorted Z.le (l ++ [z]) -> Forall (fun a => a <= z) l.
Proof.
  induction l as [|a l IH]; cbn; intros S; [constructor|].
  inversion S as [|? ? S' F]; subst. constructor; [|now apply IH].
  apply Forall_app in F as [_ F]. now inversion F.
Qed.

Lemma placed_ascending (k : key) (y : pyval) (st st' : state) (g g' : Z) :
  well_formed st -> 0 <= g <= g' ->
  placed k (PInt g') y st st' ->
  ascending_ints (curves_x st) g -> ascending_ints (curves_x st') g'.
Proof.
  intros W G P (zs & C & S & B).
  assert (B' : Forall (fun z => 0 <= z <= g') zs).
  { eapply Forall_impl; [|exact B]. cbn. intros z Hz. lia. }
  assert (U : Forall (fun a => a <= g') zs).
  { eapply Forall_impl; [|exact B]. cbn. intros z Hz. lia. }
  destruct P as
    [Ci Ex Ey El Ec
    | cur bx by_ cx cy px py Ci K Hx Hy Ex Ey El Ec
    | cur bx by_ cx cy Ci K Hx Hy Ex Ey El Ec].
  - destruct (wf_empty st W Ci) as [Zx _]. rewrite Ex, Zx.
    exists [0; g']. split; [reflexivity|]. split.
    + repeat constructor. lia.
    + repeat constructor; lia.
  - rewrite Hx, concat_app in C. cbn in C.
    rewrite app_nil_r, app_assoc in C.
    apply eq_sym, map_eq_app in C as (l1 & l2 & -> & L1 & L2).
    destruct l2 as [|z [|? ?]]; try discriminate. injection L2 as L2.
    assert (Bz : 0 <= z <= g).
    { apply Forall_app in B as [_ Bz]. now inversion Bz. }
    exists (((l1 ++ [z]) ++ [z]) ++ [g']). split; [|split].
    + rewrite Ex, concat_app, Hx, concat_app, !map_app. cbn.
      rewrite !app_nil_r, L1, L2, <- !app_assoc. reflexivity.
    + apply sorted_snoc.
      * apply sorted_snoc; [exact S|].
        apply Forall_app. split; [exact (sorted_last l1 z S)|].
        repeat constructor. lia.
      * apply Forall_app. split; [exact U | repeat constructor; lia].
    + apply Forall_app. split; [apply Forall_app; split; [exact B'|]|];
        (apply Forall_cons; [cbn; lia | apply Forall_nil]).
  - exists (zs ++ [g']). split; [|split].
    + rewrite Ex, concat_app, map_app, <- C, Hx, concat_app. cbn.
      rewrite !app_nil_r, app_assoc. reflexivity.
    + now apply sorted_snoc.
    + apply Forall_app. split; [exact B' | repeat constructor; lia].
Qed.

Lemma run_records_ascending (py_repr : pyval -> result pystr)
    (self : HashcatStatusParser) (rs : list pyval) :
  pystr_eqb (x_axis_type self) (lit "time") = false ->
  Forall (fun data => exists p, progress_of data = Ok (PInt p) /\ 0 <= p) rs ->
  forall st st' g,
    well_formed st -> guesses st = PInt g -> 0 <= g ->
    ascending_ints (curves_x st) g ->
    run_records py_repr self rs st = Ok st' ->
    exists g', ascending_ints (curves_x st') g'.
Proof.
  intros M. induction 1 as [|data rs (p & P & Pp) _ IH];
    intros st st' g W G Gp A H.
  - injection H as <-. now exists g.
  - cbn in H. inv_bind H. pose proof E as E0.
    apply process_record_inv in E0
      as (g1 & x & y & k & e' & RP & _ & Pl & G1 & _ & _).
    apply record_point_inv in RP
      as (progress & cracked & total & Pr & Ad & _ & _ & X & _).
    rewrite P in Pr. injection Pr as <-.
    rewrite G in Ad. cbn in Ad. injection Ad as <-.
    rewrite M in X. subst x.
    apply (IH a st' (g + p)); auto.
    + exact (process_record_well_formed py_repr self data st a W E).
    + lia.
    + apply (placed_ascending k y st a g (g + p)); auto. lia.
Qed.

(** X7. On the guesses axis, when the first element of every record's
    [progress] is an int that is not negative, the x values never go back:
    read one curve after the other, they are ints in increasing order, from
    0 on. *)
Theorem guesses_axis_ascending
    (json_loads : pystr -> decoding) (py_repr : pyval -> result pystr)
    (self : HashcatStatusParser) (lines : list pystr)
    (cx cy : list (list pyval)) (labels : list key) :
  pystr_eqb (x_axis_type self) (lit "time") = false ->
  Forall (fun data => exists p, progress_of data = Ok (PInt p) /\ 0 <= p)
    (records json_loads lines) ->
  parse_status_file json_loads py_repr self (Text lines)
  = Ok (cx, cy, labels) ->
  exists zs,
    List.concat cx = map PInt zs
    /\ StronglySorted Z.le zs
    /\ Forall (fun z => 0 <= z) zs.
Proof.
  intros M P H. cbn in H. inv_bind H. injection H as <- <- <-.
  apply run_lines_records in E.
  destruct (run_records_ascending py_repr self _ M P init a 0
              well_formed_init eq_refl (Z.le_refl 0)) as (g' & zs & C & S & B);
    [| exact E |].
  - exists []. repeat split; constructor.
  - exists zs. repeat split; auto.
    eapply Forall_impl; [|exact B]. cbn. intros z Hz. lia.
Qed.

Lemma guesses_axis_ascending_witness :
  exists zs,
    List.concat (fst (fst sample_curves)) = map PInt zs
    /\ StronglySorted Z.le zs
    /\ Forall (fun z => 0 <= z) zs.
Proof.
  apply (guesses_axis_ascending sample_loads sample_repr default_parser
           (file_lines sample_file) (fst (fst sample_curves))
           (snd (fst sample_curves)) (snd sample_curves));
    [reflexivity | | vm_compute; reflexivity].
  assert (E : records sample_loads (file_lines sample_file)
              = [record_best64; record_best64;
                 record_dive; record_dive; record_dive])
    by (vm_compute; reflexivity).
  rewrite E.
  repeat (constructor; [exists 10; split; [reflexivity | lia]|]).
  constructor.
Defined.

(** ** A file that grows *)

Lemma extended_refl (cs : list (list pyval)) : extended cs cs.
Proof.
  split; [lia|]. intros k c H. exists []. rewrite app_nil_r. auto.
Qed.

Lemma extended_trans (cs1 cs2 cs3 : list (list pyval)) :
  extended cs1 cs2 -> extended cs2 cs3 -> extended cs1 cs3.
Proof.
  intros [L12 E12] [L23 E23]. split; [lia|].
  intros k c H.
  destruct (E12 k c H) as (m1 & H2 & N1).
  destruct (E23 k (c ++ m1) H2) as (m2 & H3 & N2).
  exists (m1 ++ m2). rewrite app_assoc. split; [exact H3|].
  intros Lk. rewrite N1, N2 by lia. reflexivity.
Qed.

Lemma extended_new (cs : list (list pyval)) (c : list pyval) :
  extended cs (cs ++ [c]).
Proof.
  split; [rewrite length_app; lia|].
  intros k c0 H. exists []. rewrite app_nil_r. split; [|auto].
  rewrite nth_error_app1; [exact H|].
  apply nth_error_Some. congruence.
Qed.

Lemma extended_last (cs : list (list pyval)) (c : list pyval) (v : pyval) :
  extended (cs ++ [c]) (cs ++ [c ++ [v]]).
Proof.
  split; [rewrite !length_app; cbn; lia|].
  intros k c0 H.
  apply nth_error_snoc in H as [[-> ->] | [L H]].
  - exists [v]. split.
    + rewrite nth_error_app2, Nat.sub_diag by lia. reflexivity.
    + rewrite length_app. cbn. lia.
  - exists []. rewrite app_nil_r, nth_error_app1 by lia. auto.
Qed.

Lemma placed_extended (k : key) (x y : pyval) (st st' : state) :
  placed k x y st st' ->
  extended (curves_x st) (curves_x st')
  /\ extended (curves_y st) (curves_y st')
  /\ exists new_labels, label_list st' = label_list st ++ new_labels.
Proof.
  intros [C Ex Ey El Ec
         | cur bx by_ cx cy px py C K Hx Hy Ex Ey El Ec
         | cur bx by_ cx cy C K Hx Hy Ex Ey El Ec];
    rewrite Ex, Ey, El.
  - repeat split; try apply extended_new. eauto.
  - repeat split; try apply extended_new. eauto.
  - rewrite Hx, Hy. repeat split; try apply extended_last.
    exists []. now rewrite app_nil_r.
Qed.

Lemma run_lines_app (json_loads : pystr -> decoding)
    (py_repr : pyval -> result pystr) (self : HashcatStatusParser)
    (lines more : list pystr) (st : state) :
  run_lines json_loads py_repr self (lines ++ more) st
  = (st' <- run_lines json_loads py_repr self lines st ;;
     run_lines json_loads py_repr self more st').
Proof.
  revert st. induction lines as [|line lines IH]; intros st; [reflexivity|].
  cbn. destruct (process_line json_loads py_repr self line st); cbn;
    [apply IH | reflexivity].
Qed.

(** X8. When lines are added at the end of a file, the parse of the longer
    file continues the parse of the shorter one: every curve of the shorter
    file is the beginning of the curve at the same place, all but its last
    curve are unchanged, and its labels are the first labels of the longer
    file.  If the shorter file raises, the longer file raises the same
    exception. *)
Theorem appended_lines_extend
    (json_loads : pystr -> decoding) (py_repr : pyval -> result pystr)
    (self : HashcatStatusParser) (lines more : list pystr) :
  (forall cx cy labels cx' cy' labels',
      parse_status_file json_loads py_repr self (Text lines)
      = Ok (cx, cy, labels) ->
      parse_status_file json_loads py_repr self (Text (lines ++ more))
      = Ok (cx', cy', labels') ->
      extended cx cx' /\ extended cy cy'
      /\ exists new_labels, labels' = labels ++ new_labels)
  /\ (forall e,
        parse_status_file json_loads py_repr self (Text lines) = Raise e ->
        parse_status_file json_loads py_repr self (Text (lines ++ more))
        = Raise e).
Proof.
  split.
  - intros cx cy labels cx' cy' labels' H H'. cbn in H, H'.
    rewrite run_lines_app in H'.
    inv_bind H. injection H as <- <- <-. rewrite E in H'. cbn [bind] in H'.
    inv_bind H'. injection H' as <- <- <-.
    apply (run_lines_invariant json_loads py_repr self
             (fun s => extended (curves_x a) (curves_x s)
                       /\ extended (curves_y a) (curves_y s)
                       /\ exists new_labels,
                            label_list s = label_list a ++ new_labels))
      with (lines := more) (st := a); [| |exact E0].
    + intros data st st' (Px & Py & nl & Pl) P.
      apply process_record_placed in P as (g & x & y & k & _ & _ & P).
      destruct (placed_extended k x y st st' P) as (Qx & Qy & nl' & Ql).
      split; [exact (extended_trans _ _ _ Px Qx)|].
      split; [exact (extended_trans _ _ _ Py Qy)|].
      exists (nl ++ nl'). rewrite Ql, Pl, app_assoc. reflexivity.
    + split; [apply extended_refl|]. split; [apply extended_refl|].
      exists []. now rewrite app_nil_r.
  - intros e H. cbn in H |- *. rewrite run_lines_app.
    destruct (run_lines json_loads py_repr self lines init); cbn in *;
      [discriminate | exact H].
Qed.

Lemma appended_lines_extend_witness :
  extended [[PInt 0; PInt 10]] (fst (fst sample_curves))
  /\ extended [[PInt 0; PFloat 2]] (snd (fst sample_curves))
  /\ exists new_labels,
       snd sample_curves
       = [(lit "1700000000/rockyou.txt", str "rules/best64.rule")]
         ++ new_labels.
Proof.
  apply (proj1 (appended_lines_extend sample_loads sample_repr default_parser
                  [line_best64]
                  [line_best64; line_dive; line_dive; line_dive;
                   line_partial])
           [[PInt 0; PInt 10]] [[PInt 0; PFloat 2]]
           [(lit "1700000000/rockyou.txt", str "rules/best64.rule")]);
    vm_compute; reflexivity.
Defined.

(** ** The name of a trace *)

Lemma split_on_nonempty (sep : N) (s : pystr) :
  exists segment segments, split_on sep s = segment :: segments.
Proof.
  induction s as [|c s (segment & segments & IH)]; cbn; [eauto|].
  destruct (N.eqb c sep); [eauto|]. rewrite IH. eauto.
Qed.

Lemma split_on_app (sep : N) (a b : pystr) :
  split_on sep (a ++ sep :: b) = split_on sep a ++ split_on sep b.
Proof.
  induction a as [|c a IH]; cbn.
  - now rewrite N.eqb_refl.
  - destruct (N.eqb c sep); [now rewrite IH|].
    rewrite IH. destruct (split_on_nonempty sep a) as (sg & sgs & ->).
    reflexivity.
Qed.

Lemma py_last_app {A : Type} (l m : list A) :
  m <> [] -> py_last (l ++ m) = py_last m.
Proof.
  intros N. destruct (exists_last N) as (m' & a & ->).
  now rewrite app_assoc, !py_last_snoc.
Qed.

Lemma last_segment_after_slash (a b : pystr) :
  last_segment (a ++ lit "/" ++ b) = last_segment b.
Proof.
  unfold last_segment. change (lit "/" ++ b) with (47%N :: b).
  rewrite split_on_app. apply py_last_app.
  destruct (split_on_nonempty 47 b) as (sg & sgs & ->). discriminate.
Qed.

Lemma split_on_last (sep : N) (s : pystr) :
  exists init segment directory,
    split_on sep s = init ++ [segment]
    /\ ~ In sep segment
    /\ s = directory ++ segment
    /\ (init = [] /\ directory = []
        \/ init <> [] /\ exists d, directory = d ++ [sep]).
Proof.
  induction s as [|c s (init & sg & dir & S & N & E & D)].
  - exists [], [], []. cbn. repeat split; auto.
  - cbn [split_on]. destruct (N.eqb_spec c sep) as [->|Nc].
    + exists ([] :: init), sg, (sep :: dir). rewrite S, E at 1.
      repeat split; auto. right. split; [discriminate|].
      destruct D as [[_ ->]|[_ [d ->]]];
        [now exists [] | now exists (sep :: d)].
    + rewrite S. destruct D as [[-> ->]|[Ni [d ->]]].
      * exists [], (c :: sg), []. cbn in *. subst s.
        repeat split; auto. intros [H|H]; [contradiction | auto].
      * destruct init as [|i0 init0]; [contradiction|].
        exists ((c :: i0) :: init0), sg, (c :: d ++ [sep]). rewrite E at 1.
        repeat split; auto. right. split; [discriminate|]. now exists (c :: d).
Qed.

(** The last segment is the end of the string, after its last slash. *)
Lemma last_segment_suffix (s : pystr) :
  exists directory segment,
    last_segment s = Ok segment
    /\ s = directory ++ segment
    /\ ~ In 47%N segment
    /\ (directory = [] \/ exists d, directory = d ++ [47%N]).
Proof.
  destruct (split_on_last 47 s) as (init & sg & dir & S & N & E & D).
  exists dir, sg. unfold last_segment. rewrite S, py_last_snoc.
  repeat split; auto. destruct D as [[_ ->]|[_ H]]; auto.
Qed.

(** What lines 72-77 computed when they did not raise. *)
Lemma record_key_inv (py_repr : pyval -> result pystr) (data : pyval) (k : key) :
  record_key py_repr data = Ok k ->
  exists guess_base guess_mod time_start printed,
    guess_field data "guess_base" (str "unknown") = Ok (PStr guess_base)
    /\ guess_field data "guess_mod" PNone = Ok guess_mod
    /\ py_get data "time_start" (str "unknown") = Ok time_start
    /\ py_str py_repr time_start = Ok printed
    /\ k = (printed ++ lit "/"
            ++ replace guess_base (lit "autocat_new_cracked_potfile")
                 (lit "potfile"),
            guess_mod).
Proof.
  unfold record_key, guess_field. intros H.
  apply bind_ok in H as (guess & G & H). rewrite G. cbn [bind].
  apply bind_ok in H as (gb & Gb & H).
  apply bind_ok in H as (base & B & H).
  apply bind_ok in H as (guess' & G' & H).
  rewrite G in G'. injection G' as <-.
  apply bind_ok in H as (gm & Gm & H).
  apply bind_ok in H as (ts & Ts & H).
  apply bind_ok in H as (printed & Pr & H).
  injection H as <-.
  destruct gb; try discriminate. injection B as <-.
  exists s, gm, ts, printed. repeat split; auto.
Qed.

(** X9. The name of a trace does not depend on [time_start]: it is what
    follows the last slash of the normalized [guess_base], then, when
    [guess_mod] is a string, a space and what follows the last slash of
    [guess_mod]. *)
Theorem trace_name_of_record
    (py_repr : pyval -> result pystr) (data : pyval) (k : key) :
  record_key py_repr data = Ok k ->
  exists guess_base guess_mod directory file,
    guess_field data "guess_base" (str "unknown") = Ok (PStr guess_base)
    /\ guess_field data "guess_mod" PNone = Ok guess_mod
    /\ replace guess_base (lit "autocat_new_cracked_potfile") (lit "potfile")
       = directory ++ file
    /\ ~ In 47%N file
    /\ (directory = [] \/ exists d, directory = d ++ [47%N])
    /\ (guess_mod = PNone -> attack_label k = Ok file)
    /\ (forall m, guess_mod = PStr m ->
        exists rules rule,
          m = rules ++ rule /\ ~ In 47%N rule
          /\ (rules = [] \/ exists d, rules = d ++ [47%N])
          /\ attack_label k = Ok (file ++ lit " " ++ rule)).
Proof.
  intros H.
  apply record_key_inv in H as (gb & gm & ts & pr & Gb & Gm & _ & _ & ->).
  destruct (last_segment_suffix
              (replace gb (lit "autocat_new_cracked_potfile") (lit "potfile")))
    as (dir & file & L & E & N & D).
  exists gb, gm, dir, file. repeat split; auto.
  - intros ->. cbn [attack_label py_eq as_num negb].
    rewrite last_segment_after_slash. exact L.
  - intros m ->.
    destruct (last_segment_suffix m) as (rules & rule & Lm & Em & Nm & Dm).
    exists rules, rule. repeat split; auto.
    cbn [attack_label py_eq as_num negb]. cbn [py_last_segment].
    rewrite last_segment_after_slash, L, Lm. reflexivity.
Qed.

Lemma trace_name_of_record_witness :
  exists guess_base guess_mod directory file,
    guess_field record_best64 "guess_base" (str "unknown")
    = Ok (PStr guess_base)
    /\ guess_field record_best64 "guess_mod" PNone = Ok guess_mod
    /\ replace guess_base (lit "autocat_new_cracked_potfile") (lit "potfile")
       = directory ++ file
    /\ ~ In 47%N file
    /\ (directory = [] \/ exists d, directory = d ++ [47%N])
    /\ (guess_mod = PNone ->
        attack_label (lit "1700000000/rockyou.txt", str "rules/best64.rule")
        = Ok file)
    /\ (forall m, guess_mod = PStr m ->
        exists rules rule,
          m = rules ++ rule /\ ~ In 47%N rule
          /\ (rules = [] \/ exists d, rules = d ++ [47%N])
          /\ attack_label
               (lit "1700000000/rockyou.txt", str "rules/best64.rule")
             = Ok (file ++ lit " " ++ rule)).
Proof.
  apply (trace_name_of_record sample_repr record_best64
           (lit "1700000000/rockyou.txt", str "rules/best64.rule")).
  vm_compute. reflexivity.
Defined.

Example attack_label_examples :
  attack_label (lit "1700000000/rockyou.txt", str "rules/best64.rule")
  = Ok (lit "rockyou.txt best64.rule")
  /\ attack_label (lit "1700000060/potfile", PNone) = Ok (lit "potfile")
  /\ attack_label (lit "unknown//opt/lists/", PNone) = Ok []
  /\ attack_label (lit "unknown/dict1", PInt 3) = Raise AttributeError.
Proof. repeat apply conj; vm_compute; reflexivity. Qed.

(** ** The potfile *)

Lemma startswith_app (p s : pystr) : startswith (p ++ s) p = true.
Proof.
  induction p as [|a p IH]; [now destruct s|]. cbn.
  now rewrite N.eqb_refl, IH.
Qed.

Lemma contains_cons (c : N) (s p : pystr) :
  contains s p = true -> contains (c :: s) p = true.
Proof. intros H. cbn [contains]. rewrite H. apply orb_true_r. Qed.

Lemma contains_app_r (a s p : pystr) :
  contains s p = true -> contains (a ++ s) p = true.
Proof.
  intros H. induction a as [|c a IH]; [exact H|]. now apply contains_cons.
Qed.

Lemma contains_app_l (p s : pystr) : contains (p ++ s) p = true.
Proof.
  destruct p as [|a p]; [now destruct s|].
  cbn [app contains]. change (a :: p ++ s) with ((a :: p) ++ s).
  now rewrite startswith_app.
Qed.

(** A replacement that takes place leaves the new string in the result. *)
Lemma replace_contains (old new s : pystr) :
  old <> [] -> contains s old = true ->
  contains (replace s old new) new = true.
Proof.
  intros N. unfold replace. induction s as [|c s IH]; intros H.
  - destruct old; [contradiction | discriminate].
  - cbn [replace_from]. cbn [contains] in H.
    destruct (startswith (c :: s) old) eqn:S.
    + apply contains_app_l.
    + cbn in H. apply contains_cons. now apply IH.
Qed.

(** Without an occurrence nothing is replaced. *)
Lemma replace_absent (old new s : pystr) :
  contains s old = false -> replace s old new = s.
Proof.
  unfold replace. induction s as [|c s IH]; intros H; [reflexivity|].
  cbn [contains] in H. apply orb_false_elim in H as [S H].
  cbn [replace_from]. rewrite S. f_equal. now apply IH.
Qed.

(** X10. A record whose [guess_base] holds [autocat_new_cracked_potfile] gets
    a key that holds [potfile], so its trace is black unless the highlight
    is switched off, and then no trace has a colour; a [guess_base] without
    that name is put into the key as it is. *)
Theorem potfile_is_black
    (py_repr : pyval -> result pystr) (data : pyval) (k : key)
    (guess_base : pystr) :
  record_key py_repr data = Ok k ->
  guess_field data "guess_base" (str "unknown") = Ok (PStr guess_base) ->
  (contains guess_base (lit "autocat_new_cracked_potfile") = true ->
   trace_color false k = Some (lit "black"))
  /\ trace_color true k = None
  /\ (contains guess_base (lit "autocat_new_cracked_potfile") = false ->
      exists time_start printed,
        py_get data "time_start" (str "unknown") = Ok time_start
        /\ py_str py_repr time_start = Ok printed
        /\ fst k = printed ++ lit "/" ++ guess_base).
Proof.
  intros H G.
  apply record_key_inv in H as (gb & gm & ts & pr & Gb & _ & Ts & Pr & ->).
  rewrite G in Gb. injection Gb as <-. repeat split.
  - intros C. unfold trace_color. cbn [fst].
    rewrite contains_app_r; [reflexivity|].
    apply contains_app_r. apply replace_contains; [discriminate | exact C].
  - unfold trace_color. now rewrite andb_false_r.
  - intros C. exists ts, pr. rewrite replace_absent by exact C. auto.
Qed.

Lemma potfile_is_black_witness :
  (contains (lit "autocat_new_cracked_potfile")
     (lit "autocat_new_cracked_potfile") = true ->
   trace_color false (lit "1700000060/potfile", PNone) = Some (lit "black"))
  /\ trace_color true (lit "1700000060/potfile", PNone) = None
  /\ (contains (lit "autocat_new_cracked_potfile")
        (lit "autocat_new_cracked_potfile") = false ->
      exists time_start printed,
        py_get record_potfile "time_start" (str "unknown") = Ok time_start
        /\ py_str sample_repr time_start = Ok printed
        /\ fst (lit "1700000060/potfile", PNone)
           = printed ++ lit "/" ++ lit "autocat_new_cracked_potfile").
Proof.
  apply (potfile_is_black sample_repr record_potfile
           (lit "1700000060/potfile", PNone)
           (lit "autocat_new_cracked_potfile"));
    vm_compute; reflexivity.
Defined.

(** ** The size of a downsampled curve *)

Lemma length_slice_step (l : list pyval) :
  (1 <= List.length l)%nat ->
  List.length (slice_step 60 l) = ((List.length l - 1) / 60 + 1)%nat.
Proof.
  intros L. unfold slice_step.
  assert (I : forall i,
             (i < List.length (slice_from 0 60 l))%nat
             <-> (i * 60 < List.length l)%nat).
  { intros i. rewrite <- !nth_error_Some.
    rewrite (nth_error_slice_from 60 l) by lia. reflexivity. }
  pose proof (proj2 (I O)) as I0.
  pose proof (proj1 (I (List.length (slice_from 0 60 l) - 1)%nat)) as I1.
  pose proof (I (List.length (slice_from 0 60 l))) as I2.
  pose proof (Nat.div_mod_eq (List.length l - 1) 60) as D.
  pose proof (Nat.mod_upper_bound (List.length l - 1) 60) as M.
  lia.
Qed.

Lemma hd_error_slice_step (l : list pyval) :
  hd_error (slice_step 60 l) = hd_error l.
Proof. now destruct l. Qed.

Lemma hd_error_app {A : Type} (l m : list A) :
  l <> [] -> hd_error (l ++ m) = hd_error l.
Proof. destruct l; [contradiction | reflexivity]. Qed.

(** What [downsample] returns for an x curve and a y curve of the same
    length, with a point at least. *)
Lemma downsample_ends (xs ys : list pyval) :
  (1 <= List.length xs)%nat -> List.length xs = List.length ys ->
  exists xs' ys',
    downsample xs ys = Ok (xs', ys')
    /\ hd_error xs' = hd_error xs /\ hd_error ys' = hd_error ys
    /\ py_last xs' = py_last xs /\ py_last ys' = py_last ys
    /\ List.length xs' = List.length ys'
    /\ List.length xs'
       = (if (1000 <? List.length xs)%nat
          then ((List.length xs - 1) / 60 + 1
                + (if ((List.length xs - 1) mod 60 =? 0)%nat then 0 else 1))%nat
          else List.length xs).
Proof.
  intros L E. unfold downsample.
  destruct (Nat.ltb_spec 1000 (List.length xs)) as [B|B].
  - destruct xs as [|x xs]; [cbn in L; lia|].
    destruct ys as [|y ys]; [discriminate|].
    destruct (py_last_nonempty x xs) as [lx Lx].
    destruct (py_last_nonempty y ys) as [ly Ly].
    rewrite Lx, Ly. cbn [bind].
    pose proof (length_slice_step (x :: xs) L) as Sx.
    pose proof (length_slice_step (y :: ys) ltac:(cbn; lia)) as Sy.
    rewrite <- E in Sy.
    destruct (Nat.eqb_spec ((List.length (x :: xs) - 1) mod 60) 0) as [M|M];
      cbn [negb]; eexists; eexists; (split; [reflexivity|]).
    + repeat split; auto.
      * rewrite <- Lx. apply py_last_slice_step; [exact L | exact M].
      * rewrite <- Ly. apply py_last_slice_step; [cbn; lia|].
        rewrite <- E. exact M.
      * lia.
      * lia.
    + repeat split; try apply py_last_snoc; try reflexivity;
        rewrite ?length_app, ?Sx, ?Sy; cbn [List.length]; lia.
  - exists xs, ys. repeat split; auto.
Qed.

(** X11. A curve of more than 1000 points keeps its first point, and its x
    and y values are cut down to the same number of points: one for every 60,
    and the last one. *)
Theorem downsample_size (xs ys : list pyval) :
  (1000 < List.length xs)%nat -> List.length xs = List.length ys ->
  exists xs' ys',
    downsample xs ys = Ok (xs', ys')
    /\ hd_error xs' = hd_error xs /\ hd_error ys' = hd_error ys
    /\ List.length xs' = List.length ys'
    /\ List.length xs'
       = ((List.length xs - 1) / 60 + 1
          + (if ((List.length xs - 1) mod 60 =? 0)%nat then 0 else 1))%nat
    /\ (17 <= List.length xs' <= List.length xs / 60 + 2)%nat.
Proof.
  intros B E.
  destruct (downsample_ends xs ys ltac:(lia) E)
    as (xs' & ys' & D & Hx & Hy & _ & _ & Le & Ln).
  exists xs', ys'. repeat split; auto.
  - destruct (Nat.ltb_spec 1000 (List.length xs)); [exact Ln | lia].
  - destruct (Nat.ltb_spec 1000 (List.length xs)); [|lia].
    pose proof (Nat.div_mod_eq (List.length xs - 1) 60).
    pose proof (Nat.mod_upper_bound (List.length xs - 1) 60).
    destruct ((List.length xs - 1) mod 60 =? 0)%nat; lia.
  - destruct (Nat.ltb_spec 1000 (List.length xs)); [|lia].
    pose proof (Nat.div_mod_eq (List.length xs - 1) 60).
    pose proof (Nat.mod_upper_bound (List.length xs - 1) 60).
    pose proof (Nat.div_mod_eq (List.length xs) 60).
    pose proof (Nat.mod_upper_bound (List.length xs) 60).
    destruct ((List.length xs - 1) mod 60 =? 0)%nat; lia.
Qed.

Lemma downsample_size_witness :
  exists xs' ys',
    downsample long_curve long_curve = Ok (xs', ys')
    /\ hd_error xs' = hd_error long_curve
    /\ hd_error ys' = hd_error long_curve
    /\ List.length xs' = List.length ys'
    /\ List.length xs'
       = ((List.length long_curve - 1) / 60 + 1
          + (if ((List.length long_curve - 1) mod 60 =? 0)%nat
             then 0 else 1))%nat
    /\ (17 <= List.length xs' <= List.length long_curve / 60 + 2)%nat.
Proof.
  apply (downsample_size long_curve long_curve); [|reflexivity].
  unfold long_curve. rewrite length_map, length_seq. lia.
Defined.

(** ** The traces of a file *)

Lemma py_index_ok {A : Type} (l : list A) (k : nat) (a : A) :
  py_index l k = Ok a <-> nth_error l k = Some a.
Proof.
  unfold py_index. destruct (nth_error l k); split; congruence.
Qed.

(** What a trace is made of. *)
Lemma curve_trace_inv (highlight_off : bool) (file_name : pystr)
    (cx cy : list (list pyval)) (labels : list key) (k : nat) (t : trace) :
  curve_trace highlight_off file_name cx cy labels k = Ok t ->
  exists xs ys label,
    nth_error cx k = Some xs /\ nth_error cy k = Some ys
    /\ nth_error labels k = Some label
    /\ downsample xs ys = Ok (trace_x t, trace_y t)
    /\ attack_label label = Ok (name t)
    /\ marker_color t = trace_color highlight_off label
    /\ legendgroup t = file_name
    /\ legendgrouptitle_text t = (if Nat.eqb k 0 then Some file_name else None).
Proof.
  unfold curve_trace. intros H.
  apply bind_ok in H as (xs & X & H). apply py_index_ok in X.
  destruct (1000 <? List.length xs)%nat eqn:B.
  - apply bind_ok in H as (ys & Y & H). apply py_index_ok in Y.
    apply bind_ok in H as ([xs' ys'] & D & H).
    apply bind_ok in H as (label & L & H). apply py_index_ok in L.
    apply bind_ok in H as (attack & A & H). injection H as <-.
    exists xs, ys, label. cbn. repeat split; auto.
  - apply bind_ok in H as (label & L & H). apply py_index_ok in L.
    apply bind_ok in H as (attack & A & H).
    apply bind_ok in H as (ys & Y & H). apply py_index_ok in Y.
    injection H as <-.
    exists xs, ys, label. cbn. repeat split; auto.
    unfold downsample. now rewrite B.
Qed.

Lemma curve_traces_each (highlight_off : bool) (file_name : pystr)
    (cx cy : list (list pyval)) (labels : list key) (ks : list nat) :
  forall ts,
    curve_traces highlight_off file_name cx cy labels ks = Ok ts ->
    Forall2 (fun k t =>
               curve_trace highlight_off file_name cx cy labels k = Ok t)
      ks ts.
Proof.
  induction ks as [|k ks IH]; intros ts H.
  - injection H as <-. constructor.
  - cbn in H. apply bind_ok in H as (t & T & H).
    apply bind_ok in H as (ts' & Ts & H). injection H as <-.
    constructor; [exact T | now apply IH].
Qed.

Lemma Forall2_nth_seq {A : Type} (R : nat -> A -> Prop) (n : nat) (l : list A) :
  forall s, Forall2 R (seq s n) l ->
  List.length l = n
  /\ forall i a, nth_error l i = Some a -> R (s + i)%nat a.
Proof.
  revert l. induction n as [|n IH]; intros l s F; inversion F; subst.
  - split; [reflexivity|]. intros [|i] a H; discriminate.
  - destruct (IH _ _ H3) as [L N]. split; [cbn; now rewrite L|].
    intros [|i] a Hi; cbn in Hi.
    + injection Hi as <-. now rewrite Nat.add_0_r.
    + replace (s + S i)%nat with (S s + i)%nat by lia. now apply N.
Qed.

(** X12. The traces drawn for a file are one for each curve, in order; after
    the downsampling every trace still has two points at least, as many x as
    y values, and begins where the trace before it ends. *)
Theorem traces_stay_stitched
    (json_loads : pystr -> decoding) (py_repr : pyval -> result pystr)
    (self : HashcatStatusParser) (file : text_file)
    (highlight_off : bool) (file_name : pystr)
    (cx cy : list (list pyval)) (labels : list key) (ts : list trace) :
  parse_status_file json_loads py_repr self file = Ok (cx, cy, labels) ->
  curve_traces highlight_off file_name cx cy labels
    (seq 0 (List.length cx)) = Ok ts ->
  List.length ts = List.length cx
  /\ Forall (fun t => (2 <= List.length (trace_x t))%nat
                      /\ List.length (trace_x t) = List.length (trace_y t)) ts
  /\ forall k t t1,
       nth_error ts k = Some t -> nth_error ts (S k) = Some t1 ->
       exists px py,
         py_last (trace_x t) = Ok px /\ hd_error (trace_x t1) = Some px
         /\ py_last (trace_y t) = Ok py /\ hd_error (trace_y t1) = Some py.
Proof.
  intros P T.
  apply parse_status_file_well_formed in P as (st & W & R).
  injection R as <- <- <-. destruct W as [_ _ Wp Wt Wx Wy _].
  apply curve_traces_each in T. apply Forall2_nth_seq in T as [L N].
  assert (Tr : forall k t,
             nth_error ts k = Some t ->
             exists xs ys,
               nth_error (curves_x st) k = Some xs
               /\ nth_error (curves_y st) k = Some ys
               /\ (2 <= List.length xs)%nat
               /\ hd_error (trace_x t) = hd_error xs
               /\ hd_error (trace_y t) = hd_error ys
               /\ py_last (trace_x t) = py_last xs
               /\ py_last (trace_y t) = py_last ys
               /\ List.length (trace_x t) = List.length (trace_y t)
               /\ (2 <= List.length (trace_x t))%nat).
  { intros k t H. apply N in H. cbn in H.
    apply curve_trace_inv in H as (xs & ys & label & X & Y & _ & D & _).
    assert (T2 : (2 <= List.length xs)%nat).
    { rewrite Forall_forall in Wt. apply Wt. eapply nth_error_In, X. }
    assert (E : List.length xs = List.length ys).
    { pose proof (map_nth_error (@List.length pyval) _ _ X) as X'.
      pose proof (map_nth_error (@List.length pyval) _ _ Y) as Y'.
      rewrite Wp in X'. congruence. }
    destruct (downsample_ends xs ys ltac:(lia) E)
      as (xs' & ys' & D' & Hx & Hy & Lx & Ly & Le & Ln).
    rewrite D in D'. injection D' as <- <-.
    exists xs, ys. repeat split; auto.
    rewrite Ln. destruct (Nat.ltb_spec 1000 (List.length xs)); [|lia].
    pose proof (Nat.div_mod_eq (List.length xs - 1) 60).
    pose proof (Nat.mod_upper_bound (List.length xs - 1) 60). lia. }
  split; [exact L|]. split.
  - apply Forall_forall. intros t I.
    apply In_nth_error in I as [k I].
    destruct (Tr k t I) as (xs & ys & _ & _ & _ & _ & _ & _ & _ & Le & T2).
    auto.
  - intros k t t1 H H1.
    destruct (Tr k t H)
      as (xs & ys & X & Y & _ & _ & _ & Lx & Ly & _).
    destruct (Tr (S k) t1 H1)
      as (xs1 & ys1 & X1 & Y1 & _ & Hx & Hy & _).
    destruct (Wx k xs xs1 X X1) as (px & Px & Fx).
    destruct (Wy k ys ys1 Y Y1) as (py & Py & Fy).
    exists px, py. rewrite Lx, Ly, Hx, Hy. auto.
Qed.

Lemma traces_stay_stitched_witness :
  exists ts,
    curve_traces false (lit "session") (fst (fst sample_curves))
      (snd (fst sample_curves)) (snd sample_curves)
      (seq 0 (List.length (fst (fst sample_curves)))) = Ok ts
    /\ List.length ts = List.length (fst (fst sample_curves))
    /\ Forall (fun t => (2 <= List.length (trace_x t))%nat
                        /\ List.length (trace_x t) = List.length (trace_y t))
         ts
    /\ forall k t t1,
         nth_error ts k = Some t -> nth_error ts (S k) = Some t1 ->
         exists px py,
           py_last (trace_x t) = Ok px /\ hd_error (trace_x t1) = Some px
           /\ py_last (trace_y t) = Ok py /\ hd_error (trace_y t1) = Some py.
Proof.
  destruct (curve_traces false (lit "session") (fst (fst sample_curves))
              (snd (fst sample_curves)) (snd sample_curves)
              (seq 0 (List.length (fst (fst sample_curves)))))
    as [ts|e] eqn:T; [|vm_compute in T; discriminate].
  exists ts. split; [reflexivity|].
  apply (traces_stay_stitched sample_loads sample_repr default_parser
           sample_file false (lit "session") (fst (fst sample_curves))
           (snd (fst sample_curves)) (snd sample_curves) ts);
    [vm_compute; reflexivity | exact T].
Defined.

(** ** When the figure fails *)

Lemma attack_label_cases (label : key) :
  (plain_key label = true /\ exists attack, attack_label label = Ok attack)
  \/ (plain_key label = false /\ attack_label label = Raise AttributeError).
Proof.
  destruct label as [base gm].
  destruct (last_segment_suffix base) as (dir & file & L & _).
  unfold plain_key. cbn [snd attack_label].
  destruct gm as [|b|z|f|m|l|d]; cbn [py_eq as_num negb];
    try (right; split; [reflexivity|]; rewrite L; reflexivity).
  - left. split; [reflexivity|]. eauto.
  - left. split; [reflexivity|].
    destruct (last_segment_suffix m) as (rules & rule & Lm & _).
    rewrite L. cbn [bind py_last_segment]. rewrite Lm. cbn [bind]. eauto.
Qed.

(** On curves and labels that go together, a trace fails with its name
    only. *)
Lemma curve_trace_cases (highlight_off : bool) (file_name : pystr)
    (cx cy : list (list pyval)) (labels : list key) (k : nat)
    (xs ys : list pyval) (label : key) :
  nth_error cx k = Some xs -> nth_error cy k = Some ys ->
  nth_error labels k = Some label ->
  (1 <= List.length xs)%nat -> List.length xs = List.length ys ->
  (plain_key label = true
   /\ exists t, curve_trace highlight_off file_name cx cy labels k = Ok t)
  \/ (plain_key label = false
      /\ curve_trace highlight_off file_name cx cy labels k
         = Raise AttributeError).
Proof.
  intros X Y L N E. unfold curve_trace, py_index. rewrite X, Y, L.
  cbn [bind].
  destruct (downsample_ends xs ys N E) as (xs' & ys' & D & _).
  destruct (attack_label_cases label) as [[P [a A]]|[P A]]; [left|right];
    (split; [exact P|]);
    destruct (1000 <? List.length xs)%nat; rewrite ?D; cbn [bind];
    rewrite A; cbn [bind]; eauto.
Qed.

Section FigureOfAFile.

Variable highlight_off : bool.
Variable file_name : pystr.
Variables cx cy : list (list pyval).
Variable labels : list key.

Hypothesis together :
  forall k, (k < List.length cx)%nat ->
    exists xs ys label,
      nth_error cx k = Some xs /\ nth_error cy k = Some ys
      /\ nth_error labels k = Some label
      /\ (1 <= List.length xs)%nat /\ List.length xs = List.length ys.

Lemma curve_traces_cases (ks : list nat) :
  Forall (fun k => (k < List.length cx)%nat) ks ->
  ((forall k label, In k ks -> nth_error labels k = Some label ->
                    plain_key label = true)
   /\ exists ts,
        curve_traces highlight_off file_name cx cy labels ks = Ok ts)
  \/ ((exists k label, In k ks /\ nth_error labels k = Some label
                       /\ plain_key label = false)
      /\ curve_traces highlight_off file_name cx cy labels ks
         = Raise AttributeError).
Proof.
  induction 1 as [|k ks B _ IH].
  - left. split; [intros k label []|]. cbn. eauto.
  - destruct (together k B) as (xs & ys & label & X & Y & L & N & E).
    cbn [curve_traces].
    destruct (curve_trace_cases highlight_off file_name cx cy labels k
                xs ys label X Y L N E) as [[P [t T]]|[P T]].
    + rewrite T. cbn [bind].
      destruct IH as [[A [ts Ts]]|[(k' & l' & I & L' & P') Ts]].
      * left. rewrite Ts. cbn [bind]. split; [|eauto].
        intros k' l' [<-|I] L'; [congruence | eauto].
      * right. rewrite Ts. cbn [bind]. split; [|reflexivity].
        exists k', l'. repeat split; auto. now right.
    + right. rewrite T. cbn [bind]. split; [|reflexivity].
      exists k, label. repeat split; auto. now left.
Qed.

End FigureOfAFile.

Lemma Forall2_length_eq {A B : Type} (R : A -> B -> Prop)
    (l : list A) (m : list B) :
  Forall2 R l m -> List.length l = List.length m.
Proof. induction 1; cbn; congruence. Qed.

(** The traces of a parsed file: built, or stopped by a [guess_mod]. *)
Lemma parsed_curve_traces_cases
    (json_loads : pystr -> decoding) (py_repr : pyval -> result pystr)
    (self : HashcatStatusParser) (file : text_file)
    (highlight_off : bool) (file_name : pystr)
    (cx cy : list (list pyval)) (labels : list key) :
  parse_status_file json_loads py_repr self file = Ok (cx, cy, labels) ->
  (forallb plain_key labels = true
   /\ exists ts,
        curve_traces highlight_off file_name cx cy labels
          (seq 0 (List.length cx)) = Ok ts
        /\ List.length ts = List.length cx)
  \/ (forallb plain_key labels = false
      /\ curve_traces highlight_off file_name cx cy labels
           (seq 0 (List.length cx)) = Raise AttributeError).
Proof.
  intros P.
  apply parse_status_file_well_formed in P as (st & W & R).
  injection R as <- <- <-. destruct W as [_ Wl Wp Wt _ _ _].
  assert (Ly : List.length (curves_x st) = List.length (curves_y st)).
  { apply (f_equal (@List.length nat)) in Wp. now rewrite !length_map in Wp. }
  destruct (curve_traces_cases highlight_off file_name
              (curves_x st) (curves_y st) (label_list st))
    with (ks := seq 0 (List.length (curves_x st)))
    as [[A [ts Ts]]|[(k & label & I & L & Pk) Ts]].
  - intros k B.
    destruct (nth_error (curves_x st) k) as [xs|] eqn:X;
      [|apply nth_error_None in X; lia].
    destruct (nth_error (curves_y st) k) as [ys|] eqn:Y;
      [|apply nth_error_None in Y; lia].
    destruct (nth_error (label_list st) k) as [label|] eqn:L;
      [|apply nth_error_None in L; lia].
    exists xs, ys, label.
    assert (T2 : (2 <= List.length xs)%nat).
    { rewrite Forall_forall in Wt. apply Wt. eapply nth_error_In, X. }
    repeat split; auto; [lia|].
    pose proof (map_nth_error (@List.length pyval) _ _ X) as X'.
    pose proof (map_nth_error (@List.length pyval) _ _ Y) as Y'.
    rewrite Wp in X'. congruence.
  - apply Forall_forall. intros k I. apply in_seq in I. lia.
  - left. split.
    + apply forallb_forall. intros label I.
      apply In_nth_error in I as [k I]. apply (A k label); [|exact I].
      apply in_seq. split; [lia|]. cbn. rewrite Wl.
      apply nth_error_Some. congruence.
    + exists ts. split; [exact Ts|].
      apply curve_traces_each, Forall2_length_eq in Ts.
      now rewrite length_seq in Ts.
  - right. split; [|exact Ts].
    destruct (forallb plain_key (label_list st)) eqn:F; [|reflexivity].
    rewrite forallb_forall in F.
    rewrite (F label) in Pk; [discriminate|]. eapply nth_error_In, L.
Qed.

(** X13. The figure can fail on a file that the parser accepts, in one way
    only: the traces of a parsed file are built exactly when the [guess_mod]
    of every label is a string or [None]; otherwise [AttributeError] is
    raised, and no other exception. *)
Theorem figure_fails_on_guess_mod
    (json_loads : pystr -> decoding) (py_repr : pyval -> result pystr)
    (self : HashcatStatusParser) (file : text_file)
    (highlight_off : bool) (file_name : pystr)
    (cx cy : list (list pyval)) (labels : list key) :
  parse_status_file json_loads py_repr self file = Ok (cx, cy, labels) ->
  ((exists ts,
       curve_traces highlight_off file_name cx cy labels
         (seq 0 (List.length cx)) = Ok ts)
   <-> forallb plain_key labels = true)
  /\ (forall e,
        curve_traces highlight_off file_name cx cy labels
          (seq 0 (List.length cx)) = Raise e ->
        e = AttributeError /\ forallb plain_key labels = false).
Proof.
  intros P.
  destruct (parsed_curve_traces_cases json_loads py_repr self file
              highlight_off file_name cx cy labels P)
    as [[F (ts & T & _)]|[F T]]; rewrite T, F.
  - split; [split; eauto|]. discriminate.
  - split.
    + split; [intros [ts H]|]; discriminate.
    + intros e H. injection H as <-. auto.
Qed.

Lemma figure_fails_on_guess_mod_witness :
  ((exists ts,
       curve_traces false (lit "session") (fst (fst sample_curves))
         (snd (fst sample_curves)) (snd sample_curves)
         (seq 0 (List.length (fst (fst sample_curves)))) = Ok ts)
   <-> forallb plain_key (snd sample_curves) = true)
  /\ (forall e,
        curve_traces false (lit "session") (fst (fst sample_curves))
          (snd (fst sample_curves)) (snd sample_curves)
          (seq 0 (List.length (fst (fst sample_curves)))) = Raise e ->
        e = AttributeError /\ forallb plain_key (snd sample_curves) = false).
Proof.
  apply (figure_fails_on_guess_mod sample_loads sample_repr default_parser
           sample_file false (lit "session")).
  vm_compute. reflexivity.
Defined.

(** ** The figure of the application *)

Section WholeFigure.

Variable json_loads : pystr -> decoding.
Variable py_repr : pyval -> result pystr.
Variable read : pystr -> text_file.
Variable stem : pystr -> pystr.

Lemma file_traces_cases (highlight_off : bool)
    (items : list (pystr * HashcatStatusParser)) :
  (exists ts,
      file_traces json_loads py_repr read stem highlight_off items = Ok ts
      /\ List.length ts = curves_of json_loads py_repr read items)
  \/ (exists e,
        file_traces json_loads py_repr read stem highlight_off items = Raise e
        /\ (e = AttributeError
            \/ exists file_path parser,
                 In (file_path, parser) items
                 /\ parse_status_file json_loads py_repr parser
                      (read file_path) = Raise e)).
Proof.
  induction items as [|[file_path parser] rest IH].
  - left. exists []. split; reflexivity.
  - cbn [file_traces curves_of].
    destruct (parse_status_file json_loads py_repr parser (read file_path))
      as [[[cx cy] labels]|e] eqn:P; cbn [bind].
    + destruct (parsed_curve_traces_cases json_loads py_repr parser
                  (read file_path) highlight_off (stem file_path)
                  cx cy labels P) as [[_ (ts & T & L)]|[_ T]];
        rewrite T; cbn [bind].
      * destruct IH as [(ts' & T' & L')|(e & T' & C)]; rewrite T'; cbn [bind].
        -- left. exists (ts ++ ts'). split; [reflexivity|].
           rewrite length_app. lia.
        -- right. exists e. split; [reflexivity|].
           destruct C as [->|(f & q & I & Pq)]; [now left|].
           right. exists f, q. split; [now right | exact Pq].
      * right. exists AttributeError. split; [reflexivity | now left].
    + right. exists e. split; [reflexivity|]. right.
      exists file_path, parser. split; [now left | exact P].
Qed.

End WholeFigure.

(** X14. [_create_figure] draws one trace for every curve of every file.  It
    raises only what the parse of one of the files raises, or
    [AttributeError] for a [guess_mod] that is neither a string nor
    [None]. *)
Theorem create_figure_cases
    (json_loads : pystr -> decoding) (py_repr : pyval -> result pystr)
    (read : pystr -> text_file) (stem : pystr -> pystr)
    (app : PasswordCrackingApp) :
  (exists fig,
      create_figure json_loads py_repr read stem app = Ok fig
      /\ List.length (traces fig)
         = curves_of json_loads py_repr read (parsers app))
  \/ (exists e,
        create_figure json_loads py_repr read stem app = Raise e
        /\ (e = AttributeError
            \/ exists file_path parser,
                 In (file_path, parser) (parsers app)
                 /\ parse_status_file json_loads py_repr parser
                      (read file_path) = Raise e)).
Proof.
  unfold create_figure.
  destruct (file_traces_cases json_loads py_repr read stem
              (no_potfile_highlight app) (parsers app))
    as [(ts & T & L)|(e & T & C)]; rewrite T; cbn [bind].
  - left. eexists. split; [reflexivity | exact L].
  - right. exists e. split; [reflexivity | exact C].
Qed.

(** ** The parsers of the application *)

(** [d[k] = v] adds the key at the end, or keeps the keys as they are. *)
Lemma dict_set_keys {V : Type} (k : pystr) (v : V) (d : list (pystr * V)) :
  (In k (map fst d) /\ map fst (dict_set k v d) = map fst d)
  \/ (~ In k (map fst d) /\ map fst (dict_set k v d) = map fst d ++ [k]).
Proof.
  induction d as [|[k' v'] d IH]; [right; split; [intros []|reflexivity]|].
  cbn [dict_set]. destruct (pystr_eqb k k') eqn:E.
  - apply pystr_eqb_eq in E as ->. left. split; [now left | reflexivity].
  - apply pystr_eqb_false in E. cbn [map fst].
    destruct IH as [[I M]|[I M]]; rewrite M.
    + left. split; [now right | reflexivity].
    + right. split; [|reflexivity]. intros [H|H]; [congruence | tauto].
Qed.

Lemma dict_set_values {V : Type} (P : V -> Prop) (k : pystr) (v : V)
    (d : list (pystr * V)) :
  P v -> Forall (fun item => P (snd item)) d ->
  Forall (fun item => P (snd item)) (dict_set k v d).
Proof.
  intros Pv. induction 1 as [|[k' v'] d Pv' F IH]; cbn [dict_set].
  - now repeat constructor.
  - destruct (pystr_eqb k k'); constructor; auto.
Qed.

(** The dict of line 128, built on a dict [d] with the same parser [q] for
    every file. *)
Lemma parsers_fold (q : HashcatStatusParser) (files : list pystr)
    (d : list (pystr * HashcatStatusParser)) :
  let d' := fold_left (fun d file => dict_set file q d) files d in
  (NoDup (map fst d) -> NoDup (map fst d'))
  /\ (forall file, In file (map fst d') <-> In file (map fst d) \/ In file files)
  /\ (Forall (fun item => snd item = q) d -> Forall (fun item => snd item = q) d')
  /\ (NoDup (map fst d ++ files) -> map fst d' = map fst d ++ files).
Proof.
  revert d. induction files as [|f files IH]; intros d; cbn [fold_left].
  - split; [auto|]. split; [|split; [auto|]].
    + intros file. cbn. tauto.
    + intros _. now rewrite app_nil_r.
  - destruct (IH (dict_set f q d)) as (N & M & V & O). cbn zeta in *.
    pose proof (dict_set_keys f q d) as K.
    repeat split.
    + intros Nd. apply N. destruct K as [[_ ->]|[I ->]]; [exact Nd|].
      apply NoDup_app; [exact Nd | repeat constructor; intros [] |].
      intros a Ia [<-|[]]. tauto.
    + intros H. apply M in H as [H|H]; [|right; now right].
      destruct K as [[_ E]|[_ E]]; rewrite E in H; [now left|].
      apply in_app_iff in H as [H|[<-|[]]]; [now left | right; now left].
    + intros H. apply M.
      destruct K as [[I E]|[_ E]]; rewrite E.
      * destruct H as [H|[<-|H]]; auto.
      * rewrite in_app_iff. cbn. destruct H as [H|[<-|H]]; auto.
    + intros F. apply V.
      now apply (dict_set_values (fun p => p = q)).
    + intros Nd.
      destruct K as [[I _]|[_ E]].
      * apply NoDup_remove_2 in Nd. exfalso. apply Nd, in_app_iff. now left.
      * rewrite O; rewrite E, <- app_assoc; [reflexivity | exact Nd].
Qed.

(** An application whose parsers are the dict of line 128 is in step. *)
Lemma in_step_of_fold (app : PasswordCrackingApp) :
  parsers app
  = fold_left (fun d file => dict_set file (parser_of app) d)
      (hashcat_files app) [] ->
  in_step app.
Proof.
  intros E. unfold in_step. rewrite E.
  destruct (parsers_fold (parser_of app) (hashcat_files app) [])
    as (N & M & V & _). cbn zeta in *.
  repeat split.
  - apply N. constructor.
  - intros H. apply M in H as [[]|H]. exact H.
  - intros H. apply M. now right.
  - apply V. constructor.
Qed.

(** X15. [update_parsers] leaves one parser for every file of the
    application, no file twice, a file given twice included, and every
    parser carries the axis types and the status timer of the application. *)
Theorem update_parsers_in_step (app : PasswordCrackingApp) :
  in_step (update_parsers app)
  /\ hashcat_files (update_parsers app) = hashcat_files app
  /\ parser_of (update_parsers app) = parser_of app.
Proof.
  split; [|split; reflexivity]. apply in_step_of_fold. reflexivity.
Qed.

(** X16. Files that are all different get their parsers in the order of the
    command line, which is the order of the legend groups of the figure. *)
Theorem parsers_in_file_order (app : PasswordCrackingApp) :
  NoDup (hashcat_files app) ->
  map fst (parsers (update_parsers app)) = hashcat_files app.
Proof.
  intros N.
  destruct (parsers_fold (parser_of app) (hashcat_files app) [])
    as (_ & _ & _ & O). cbn zeta in O.
  exact (O N).
Qed.

Lemma parsers_in_file_order_witness :
  map fst (parsers (update_parsers (new_app [lit "a.json"; lit "b.json"])))
  = [lit "a.json"; lit "b.json"].
Proof.
  apply (parsers_in_file_order (new_app [lit "a.json"; lit "b.json"])).
  repeat constructor; cbn; intuition discriminate.
Defined.

(** ** The callback *)

Section Callback.

Variable json_loads : pystr -> decoding.
Variable py_repr : pyval -> result pystr.
Variable read : pystr -> text_file.
Variable stem : pystr -> pystr.

(** What the callback does to the application, case by case. *)
Lemma callback_cases (triggered : list pystr) (refresh : pyval)
    (x_axis y_axis : pystr) (potfile_highlight : pyval)
    (app : PasswordCrackingApp) :
  let r := update_graph_and_settings json_loads py_repr read stem triggered
             refresh x_axis y_axis potfile_highlight app in
  fst r = app
  \/ (exists rest interval,
        triggered = lit "update-button.n_clicks" :: rest
        /\ py_times refresh (PInt 1000) = Ok interval
        /\ ((exists e,
               py_in (str "highlight") potfile_highlight = Raise e
               /\ r = (with_settings interval x_axis y_axis
                         (no_potfile_highlight app) app, Raise e))
            \/ (exists highlighted,
                  py_in (str "highlight") potfile_highlight = Ok highlighted
                  /\ fst r
                     = update_parsers
                         (with_settings interval x_axis y_axis
                            (negb highlighted) app)
                  /\ snd r
                     = (fig <- create_figure json_loads py_repr read stem
                                 (fst r) ;;
                        Ok (interval, fig))))).
Proof.
  unfold update_graph_and_settings. destruct triggered as [|prop_id rest].
  - now left.
  - destruct (pystr_eqb prop_id (lit "update-button.n_clicks")) eqn:B;
      [|now left].
    apply pystr_eqb_eq in B as ->.
    destruct (py_times refresh (PInt 1000)) as [interval|e]; [|now left].
    right. exists rest, interval. repeat split.
    destruct (py_in (str "highlight") potfile_highlight) as [highlighted|e].
    + right. exists highlighted. repeat split.
    + left. exists e. repeat split.
Qed.

Lemma py_in_raises (x c : pyval) (e : exn) :
  py_in x c = Raise e -> e = TypeError.
Proof.
  destruct c; cbn; try congruence. destruct x; cbn; congruence.
Qed.

End Callback.

(** X17. The callback never changes the files nor the status timer of the
    application, and it keeps the parsers in step with the settings, unless
    the value of the checklist is no container: then ['highlight' in ...]
    raises [TypeError] after the interval and the axis types are set and
    before the parsers are rebuilt.  When [refresh * 1000] raises, nothing of
    the application has changed. *)
Theorem callback_keeps_parsers_in_step
    (json_loads : pystr -> decoding) (py_repr : pyval -> result pystr)
    (read : pystr -> text_file) (stem : pystr -> pystr)
    (triggered : list pystr) (refresh : pyval) (x_axis y_axis : pystr)
    (potfile_highlight : pyval) (app : PasswordCrackingApp) :
  in_step app ->
  let r := update_graph_and_settings json_loads py_repr read stem triggered
             refresh x_axis y_axis potfile_highlight app in
  hashcat_files (fst r) = hashcat_files app
  /\ app_status_timer (fst r) = app_status_timer app
  /\ (in_step (fst r)
      \/ (py_in (str "highlight") potfile_highlight = Raise TypeError
          /\ snd r = Raise TypeError
          /\ parsers (fst r) = parsers app))
  /\ (forall e, py_times refresh (PInt 1000) = Raise e -> fst r = app).
Proof.
  intros S r.
  destruct (callback_cases json_loads py_repr read stem triggered refresh
              x_axis y_axis potfile_highlight app)
    as [E|(rest & interval & -> & T & [(e & I & E)|(h & I & E & _)])];
    fold r in E; rewrite E.
  - repeat split; auto.
  - pose proof (py_in_raises _ _ _ I) as ->.
    repeat split; [right; repeat split; exact I | congruence].
  - repeat split; [|congruence]. left. apply in_step_of_fold. reflexivity.
Qed.

Lemma callback_keeps_parsers_in_step_witness :
  let r := update_graph_and_settings sample_loads sample_repr
             (fun _ => sample_file) (fun p => p)
             [lit "update-button.n_clicks"] (PInt 5) (lit "time")
             (lit "count") (PList []) (new_app [lit "a.json"; lit "a.json"]) in
  hashcat_files (fst r) = [lit "a.json"; lit "a.json"]
  /\ app_status_timer (fst r) = PInt 1
  /\ (in_step (fst r)
      \/ (py_in (str "highlight") (PList []) = Raise TypeError
          /\ snd r = Raise TypeError
          /\ parsers (fst r) = parsers (new_app [lit "a.json"; lit "a.json"])))
  /\ (forall e, py_times (PInt 5) (PInt 1000) = Raise e ->
      fst r = new_app [lit "a.json"; lit "a.json"]).
Proof.
  apply (callback_keeps_parsers_in_step sample_loads sample_repr
           (fun _ => sample_file) (fun p => p)
           [lit "update-button.n_clicks"] (PInt 5) (lit "time")
           (lit "count") (PList []) (new_app [lit "a.json"; lit "a.json"])).
  apply in_step_of_fold. reflexivity.
Defined.

(** X18. After [Update] with a list from the checklist, a figure that is
    returned comes with the interval [refresh * 1000], and it is drawn from
    parsers that all carry the two axis types of the radio buttons and the
    status timer the application had; potfile curves are black exactly when
    ['highlight'] is in the list. *)
Theorem update_applies_settings
    (json_loads : pystr -> decoding) (py_repr : pyval -> result pystr)
    (read : pystr -> text_file) (stem : pystr -> pystr)
    (rest : list pystr) (refresh : pyval) (x_axis y_axis : pystr)
    (checked : list pyval) (app : PasswordCrackingApp)
    (interval : pyval) (fig : figure) :
  let r := update_graph_and_settings json_loads py_repr read stem
             (lit "update-button.n_clicks" :: rest)
             refresh x_axis y_axis (PList checked) app in
  snd r = Ok (interval, fig) ->
  py_times refresh (PInt 1000) = Ok interval
  /\ update_interval (fst r) = interval
  /\ Forall (fun item =>
               snd item = {| x_axis_type := x_axis; y_axis_type := y_axis;
                             status_timer := app_status_timer app |})
       (parsers (fst r))
  /\ no_potfile_highlight (fst r)
     = negb (existsb (py_eq (str "highlight")) checked)
  /\ create_figure json_loads py_repr read stem (fst r) = Ok fig.
Proof.
  intros r R. revert R. unfold r, update_graph_and_settings.
  change (pystr_eqb (lit "update-button.n_clicks")
            (lit "update-button.n_clicks")) with true. cbv iota zeta.
  destruct (py_times refresh (PInt 1000)) as [i|e]; [|discriminate].
  cbn [py_in fst snd].
  set (app' := update_parsers _).
  destruct (create_figure json_loads py_repr read stem app')
    as [fig'|e] eqn:C; [|discriminate].
  cbn [bind]. intros R. injection R as <- <-.
  repeat split; auto.
  assert (S : in_step app') by (apply in_step_of_fold; reflexivity).
  apply S.
Qed.

Lemma update_applies_settings_witness :
  let r := update_graph_and_settings sample_loads sample_repr
             (fun _ => sample_file) (fun p => p)
             [lit "update-button.n_clicks"] (PInt 5) (lit "time")
             (lit "count") (PList [str "highlight"])
             (new_app [lit "a.json"]) in
  exists interval fig,
    snd r = Ok (interval, fig)
    /\ py_times (PInt 5) (PInt 1000) = Ok interval
    /\ update_interval (fst r) = interval
    /\ Forall (fun item =>
                 snd item = {| x_axis_type := lit "time";
                               y_axis_type := lit "count";
                               status_timer := PInt 1 |})
         (parsers (fst r))
    /\ no_potfile_highlight (fst r) = false
    /\ create_figure sample_loads sample_repr (fun _ => sample_file)
         (fun p => p) (fst r) = Ok fig.
Proof.
  intros r.
  destruct (snd r) as [[interval fig]|e] eqn:R; [|vm_compute in R; discriminate].
  exists interval, fig. split; [reflexivity|].
  exact (update_applies_settings sample_loads sample_repr
           (fun _ => sample_file) (fun p => p) [] (PInt 5) (lit "time")
           (lit "count") [str "highlight"] (new_app [lit "a.json"])
           interval fig R).
Defined.

(** ** The entry point *)

(** The check of lines 337-340 stops at the first file that is missing. *)
Lemma validate_cases (exists_ : pystr -> bool) (files : list pystr) :
  match validate exists_ files with
  | None => forallb exists_ files = true
  | Some message =>
      exists before file_path after,
        files = before ++ file_path :: after
        /\ forallb exists_ before = true
        /\ exists_ file_path = false
        /\ message = lit "Error: File '" ++ file_path ++ lit "' not found!"
  end.
Proof.
  induction files as [|f files IH]; [reflexivity|].
  cbn [validate forallb]. destruct (exists_ f) eqn:E; cbn [negb andb].
  - destruct (validate exists_ files) as [message|]; [|exact IH].
    destruct IH as (before & file_path & after & -> & B & M & ->).
    exists (f :: before), file_path, after. cbn [forallb]. rewrite E, B.
    repeat split; auto.
  - exists [], f, files. repeat split; auto.
Qed.

(** X19. [main] runs the application exactly when every file of the command
    line exists, with one parser for every distinct file and the default
    settings of [HashcatStatusParser]; otherwise it exits with the code 1
    and names the first file that is missing, on the standard error. *)
Theorem main_checks_files (exists_ : pystr -> bool) (files : list pystr) :
  match main exists_ files with
  | Run app =>
      forallb exists_ files = true
      /\ hashcat_files app = files
      /\ in_step app
      /\ Forall (fun item => snd item = default_parser) (parsers app)
  | Exit code message =>
      code = 1
      /\ exists before file_path after,
           files = before ++ file_path :: after
           /\ forallb exists_ before = true
           /\ exists_ file_path = false
           /\ message = lit "Error: File '" ++ file_path ++ lit "' not found!"
  end.
Proof.
  unfold main. pose proof (validate_cases exists_ files) as V.
  destruct (validate exists_ files) as [message|]; [now split|].
  assert (S : in_step (new_app files)) by (apply in_step_of_fold; reflexivity).
  repeat split; auto; apply S.
Qed.

(** ** Exceptions of [json.loads] that are not caught *)

(** X20. Line 99 catches [JSONDecodeError] alone: the first line on which
    [json.loads] raises another exception ends the parse with that
    exception, whatever follows the line, when the lines before it are
    passed over or processed.  Such a line holds no record and is not
    passed over. *)
Theorem decoding_error_ends_parse
    (json_loads : pystr -> decoding) (py_repr : pyval -> result pystr)
    (self : HashcatStatusParser) (before after : list pystr) (line : pystr)
    (e : exn) (st : state) :
  run_lines json_loads py_repr self before init = Ok st ->
  aborting json_loads line = Some e ->
  parse_status_file json_loads py_repr self (Text (before ++ line :: after))
  = Raise e
  /\ skipped json_loads line = false
  /\ decoded json_loads line = None.
Proof.
  intros R A. split.
  - cbn [parse_status_file].
    rewrite (run_lines_aborting json_loads py_repr self before after line e
               init st R A).
    reflexivity.
  - revert A. unfold aborting, skipped, decoded.
    destruct (startswith (strip line) (lit "{")); [|discriminate].
    destruct (json_loads (strip line)); intros A; try discriminate.
    split; reflexivity.
Qed.

Lemma decoding_error_ends_parse_witness :
  parse_status_file sample_loads sample_repr default_parser
    (Text ([line_B] ++ line_huge_int :: [line_empty_progress]))
  = Raise ValueError
  /\ skipped sample_loads line_huge_int = false
  /\ decoded sample_loads line_huge_int = None.
Proof.
  apply (decoding_error_ends_parse sample_loads sample_repr default_parser
           [line_B] [line_empty_progress] line_huge_int ValueError
           {| curves_x := [[PInt 0; PInt 10]];
              curves_y := [[PInt 0; PFloat 2]];
              label_list := [(lit "unknown/dict1", PNone)];
              guesses := PInt 10;
              current_identifier := Some (lit "unknown/dict1", PNone);
              elapsed_seconds := PInt 1 |});
    [vm_compute; reflexivity | exact aborting_line_huge_int].
Defined.
